(** * TodoStorage: the storage layer of the Todo PWA

    A shallow embedding of [class TodoStorage]: the validator,
    the persistence functions, the CRUD operations, the version migration
    and the quota recovery, followed by the properties of the
    specification that concern them.

    Modelling conventions.
    - A JavaScript value is a [value]; an object is the list of its own
      properties in insertion order.
    - A string is a [string] whose characters stand for code units; the
      white space recognised by [String.prototype.trim] is the part of
      ECMAScript's WhiteSpace and LineTerminator below code unit 256.
    - A number is an integer or [NaN]: the program does no arithmetic on
      the numbers found in records, it only tests them for truthiness.
    - A function that may raise a [TypeError] returns an [option]
      ([None] is the exception); a [try]/[catch] is a [match] on it.
    - The browser facilities the class consumes (clock, random source,
      [Date] parsing) are the fields of a [Host]; the outcomes of the
      successive [localStorage.setItem] calls are a list, see [saveTodos].
    - The clock does not advance while one method runs.
    - [saveTodos] and [handleQuotaExceeded] call each other while the
      writes fail for lack of space; the call stack bounds that, and a
      [Host] tells how many rounds fit, see [handleQuotaExceededAt]. *)

From Stdlib Require Import ZArith String Ascii List Bool Lia.
From stdpp Require Import base option list.
Import ListNotations.
Local Open Scope string_scope.
Local Open Scope Z_scope.

(** ** JavaScript values *)

Inductive number :=
| NaN
| Num (z : Z).

#[warning="-register-all"]
Inductive value :=
| VUndefined
| VNull
| VBool (b : bool)
| VNumber (n : number)
| VString (s : string)
| VArray (items : list value)
| VObject (props : list (string * value)).

(** [typeof v] *)
Definition typeof (v : value) : string :=
  match v with
  | VUndefined => "undefined"
  | VNull => "object"
  | VBool _ => "boolean"
  | VNumber _ => "number"
  | VString _ => "string"
  | VArray _ => "object"
  | VObject _ => "object"
  end.

(** ToBoolean: what [!v], [v || w] and [v ? a : b] test. *)
Definition truthy (v : value) : bool :=
  match v with
  | VUndefined | VNull => false
  | VBool b => b
  | VNumber NaN => false
  | VNumber (Num z) => negb (z =? 0)
  | VString s => negb (s =? "")%string
  | VArray _ | VObject _ => true
  end.

(** [a || b] *)
Definition or_else (a b : value) : value := if truthy a then a else b.

(** [Array.isArray(v)] *)
Definition isArray (v : value) : bool :=
  match v with VArray _ => true | _ => false end.

(** Own property lookup in a property list: the first binding of [k]. *)
Fixpoint lookupProp (k : string) (ps : list (string * value)) : option value :=
  match ps with
  | [] => None
  | (k', v) :: ps' => if (k' =? k)%string then Some v else lookupProp k ps'
  end.

(** [o.k] for the property names this program reads ([id], [title],
    [completed], [dueDate], [createdAt], [completedAt], [priority],
    [tags], [description], [version]): a [TypeError] on [undefined] and
    [null], the own property of an object, and [undefined] on every
    other value, whose prototype has no property of these names. *)
Definition getProp (o : value) (k : string) : option value :=
  match o with
  | VUndefined | VNull => None
  | VObject ps => Some (default VUndefined (lookupProp k ps))
  | _ => Some VUndefined
  end.

(** [o.k = v] on a property list: an existing property keeps its place,
    a new one is appended. *)
Fixpoint setProp (k : string) (v : value) (ps : list (string * value))
  : list (string * value) :=
  match ps with
  | [] => [(k, v)]
  | (k', v') :: ps' =>
      if (k' =? k)%string then (k, v) :: ps' else (k', v') :: setProp k v ps'
  end.

(** [a === b] where one side is a primitive.  Two objects are equal only
    when they are the same object; the program compares a stored [id]
    or the constant version string with a value from elsewhere, never an
    object with itself, so objects and arrays compare unequal here. *)
Definition strictEq (a b : value) : bool :=
  match a, b with
  | VUndefined, VUndefined => true
  | VNull, VNull => true
  | VBool x, VBool y => Bool.eqb x y
  | VNumber (Num x), VNumber (Num y) => x =? y
  | VString x, VString y => (x =? y)%string
  | _, _ => false
  end.

(** ** Strings *)

(** White space and line terminators below code unit 256: TAB, LF, VT,
    FF, CR, SP and NBSP. *)
Definition isWhiteSpace (c : ascii) : bool :=
  let n := nat_of_ascii c in
  ((9 <=? n) && (n <=? 13) || (n =? 32) || (n =? 160))%nat.

Fixpoint trimStart (s : string) : string :=
  match s with
  | EmptyString => EmptyString
  | String c r => if isWhiteSpace c then trimStart r else s
  end.

Fixpoint trimEnd (s : string) : string :=
  match s with
  | EmptyString => EmptyString
  | String c r =>
      match trimEnd r with
      | EmptyString => if isWhiteSpace c then EmptyString else String c EmptyString
      | r' => String c r'
      end
  end.

(** [s.trim()] *)
Definition trim (s : string) : string := trimEnd (trimStart s).

(** [v.trim()]: only a string has the method. *)
Definition callTrim (v : value) : option value :=
  match v with
  | VString s => Some (VString (trim s))
  | _ => None
  end.

(** Decimal digits of a non-negative integer, most significant first;
    the fuel bounds the number of digits. *)
Definition digitChar (d : Z) : ascii := ascii_of_nat (48 + Z.to_nat d).

Fixpoint digits (fuel : nat) (n : Z) (acc : string) : string :=
  match fuel with
  | O => acc
  | S fuel' =>
      let acc' := String (digitChar (n mod 10)) acc in
      if n / 10 =? 0 then acc' else digits fuel' (n / 10) acc'
  end.

Definition natToString (n : Z) : string :=
  digits (S (Z.to_nat (Z.log2 n))) n "".

(** [Number.prototype.toString] on an integer. *)
Definition intToString (z : Z) : string :=
  if z <? 0 then "-" ++ natToString (- z) else natToString z.

(** Left-padding with zeros to a width, for dates. *)
Fixpoint zeros (k : nat) : string :=
  match k with
  | O => ""
  | S k' => String "0" (zeros k')
  end.

Definition pad (width : nat) (z : Z) : string :=
  let s := natToString z in
  zeros (width - String.length s) ++ s.

(** ** Dates *)

(** Year, month and day of a day count since 1970-01-01, in the
    proleptic Gregorian calendar. *)
Definition civilFromDays (days : Z) : Z * Z * Z :=
  let z := days + 719468 in
  let era := z / 146097 in
  let doe := z - era * 146097 in
  let yoe := (doe - doe / 1460 + doe / 36524 - doe / 146096) / 365 in
  let doy := doe - (365 * yoe + yoe / 4 - yoe / 100) in
  let mp := (5 * doy + 2) / 153 in
  let d := doy - (153 * mp + 2) / 5 + 1 in
  let m := if mp <? 10 then mp + 3 else mp - 9 in
  let y := yoe + era * 400 + (if m <=? 2 then 1 else 0) in
  (y, m, d).

(** [new Date(ms).toISOString()] for a time value [ms] in milliseconds
    since the epoch: [YYYY-MM-DDTHH:mm:ss.sssZ], with a signed six-digit
    year outside 0..9999. *)
Definition toISOString (ms : Z) : string :=
  let day := ms / 86400000 in
  let rest := ms mod 86400000 in
  let '(y, m, d) := civilFromDays day in
  let year :=
    if (0 <=? y) && (y <=? 9999) then pad 4 y
    else (if y <? 0 then "-" else "+") ++ pad 6 (Z.abs y) in
  year ++ "-" ++ pad 2 m ++ "-" ++ pad 2 d ++ "T"
       ++ pad 2 (rest / 3600000) ++ ":" ++ pad 2 (rest / 60000 mod 60) ++ ":"
       ++ pad 2 (rest / 1000 mod 60) ++ "." ++ pad 3 (rest mod 1000) ++ "Z".

(** The browser as the class sees it during one method call. *)
Record Host := {
  now : Z;                          (* Date.now(), new Date() *)
  random36 : nat -> string;         (* k-th Math.random().toString(36).substr(2, 9) *)
  dateTime : value -> option Z;     (* new Date(v).getTime(); None is NaN *)
  stackRounds : nat                 (* room on the call stack, see handleQuotaExceededAt *)
}.

(** [new Date().toISOString()] *)
Definition nowISO (h : Host) : value := VString (toISOString (now h)).

(** ** JSON and localStorage *)

(** [JSON.parse(JSON.stringify(v))] for a [v] other than [undefined]:
    inside an array [undefined] and [NaN] become [null], a property whose
    value is [undefined] is left out. *)
Fixpoint json (v : value) : value :=
  match v with
  | VUndefined => VNull
  | VNumber NaN => VNull
  | VArray l => VArray (map json l)
  | VObject ps =>
      VObject
        ((fix props (ps : list (string * value)) : list (string * value) :=
            match ps with
            | [] => []
            | (k, VUndefined) :: ps' => props ps'
            | (k, x) :: ps' => (k, json x) :: props ps'
            end) ps)
  | _ => v
  end.

(** What [localStorage.getItem(key)] holds: nothing (or the empty
    string, which the program treats alike), a text that is not JSON, or
    the text [JSON.stringify(v)]. *)
Inductive Item :=
| NoItem
| BadText
| JsonText (v : value).

(** [JSON.parse(data)] on a non-empty item; [None] is a [SyntaxError].
    [JSON.stringify(undefined)] is not a JSON text. *)
Definition JSON_parse (data : Item) : option value :=
  match data with
  | JsonText VUndefined => None
  | JsonText v => Some (json v)
  | _ => None
  end.

(** The outcome of one [localStorage.setItem] call: the text is stored or
    the call throws an error of the given [name]. *)
Inductive SetItemOutcome :=
| Stored
| Throws (name : string).

(** The instance and the storage behind it. *)
Record Store := {
  usingMemoryFallback : bool;            (* this.usingMemoryFallback *)
  memoryTodos : list value;              (* this.memoryStorage.todos *)
  memorySettings : value;                (* this.memoryStorage.settings *)
  lsTodos : Item;                        (* localStorage['todo-pwa-data'] *)
  lsSettings : Item;                     (* localStorage['todo-pwa-settings'] *)
  dispatched : list (string * value)     (* 'todo-storage-change' events, latest first *)
}.

Definition withMemoryTodos (st : Store) (l : list value) : Store :=
  {| usingMemoryFallback := usingMemoryFallback st; memoryTodos := l;
     memorySettings := memorySettings st; lsTodos := lsTodos st;
     lsSettings := lsSettings st; dispatched := dispatched st |}.

Definition withMemorySettings (st : Store) (v : value) : Store :=
  {| usingMemoryFallback := usingMemoryFallback st; memoryTodos := memoryTodos st;
     memorySettings := v; lsTodos := lsTodos st;
     lsSettings := lsSettings st; dispatched := dispatched st |}.

Definition withLsTodos (st : Store) (it : Item) : Store :=
  {| usingMemoryFallback := usingMemoryFallback st; memoryTodos := memoryTodos st;
     memorySettings := memorySettings st; lsTodos := it;
     lsSettings := lsSettings st; dispatched := dispatched st |}.

Definition withLsSettings (st : Store) (it : Item) : Store :=
  {| usingMemoryFallback := usingMemoryFallback st; memoryTodos := memoryTodos st;
     memorySettings := memorySettings st; lsTodos := lsTodos st;
     lsSettings := it; dispatched := dispatched st |}.

(** [triggerStorageEvent(type, data)] *)
Definition triggerStorageEvent (st : Store) (type : string) (data : value) : Store :=
  {| usingMemoryFallback := usingMemoryFallback st; memoryTodos := memoryTodos st;
     memorySettings := memorySettings st; lsTodos := lsTodos st;
     lsSettings := lsSettings st; dispatched := (type, data) :: dispatched st |}.

(** ** The validator *)

(** The callback of [todos.filter] in [validateTodos]. *)
Definition requiredFieldsOk (todo : value) : option bool :=
  if negb (truthy todo) || negb (typeof todo =? "object")%string then Some false else
  id ← getProp todo "id";
  if negb (truthy id) || negb (typeof id =? "string")%string then Some false else
  title ← getProp todo "title";
  if negb (truthy title) || negb (typeof title =? "string")%string then Some false else
  completed ← getProp todo "completed";
  if negb (typeof completed =? "boolean")%string then Some false else
  Some true.

(** The callback of [.map] in [validateTodos]. *)
Definition normalizeTodo (h : Host) (todo : value) : option value :=
  id ← getProp todo "id";
  title ← getProp todo "title";
  title' ← callTrim title;
  completed ← getProp todo "completed";
  dueDate ← getProp todo "dueDate";
  createdAt ← getProp todo "createdAt";
  completedAt ← getProp todo "completedAt";
  priority ← getProp todo "priority";
  tags ← getProp todo "tags";
  description ← getProp todo "description";
  Some (VObject
    [ ("id", id);
      ("title", title');
      ("completed", VBool (truthy completed));
      ("dueDate", or_else dueDate VNull);
      ("createdAt", or_else createdAt (nowISO h));
      ("completedAt", or_else completedAt VNull);
      ("priority", or_else priority (VString "normal"));
      ("tags", if isArray tags then tags else VArray []);
      ("description", or_else description (VString "")) ]).

(** [Array.prototype.filter] with a callback that may throw. *)
Fixpoint filterE (f : value -> option bool) (l : list value) : option (list value) :=
  match l with
  | [] => Some []
  | x :: l' =>
      keep ← f x;
      rest ← filterE f l';
      Some (if keep : bool then x :: rest else rest)
  end.

(** [validateTodos(todos)]; [None] would be an exception. *)
Definition validateTodos (h : Host) (todos : value) : option (list value) :=
  match todos with
  | VArray l =>
      kept ← filterE requiredFieldsOk l;
      mapM (normalizeTodo h) kept
  | _ => Some []
  end.

(** ** Reading and writing the todo list *)

(** [getTodos()] without options: no filter, no sort.  [JSON.parse] may
    throw; the [catch] returns the empty list. *)
Definition getTodos (h : Host) (st : Store) : list value :=
  let raw :=
    if usingMemoryFallback st then Some (VArray (memoryTodos st))
    else match lsTodos st with
         | NoItem => Some (VArray [])
         | data => JSON_parse data
         end in
  match raw ≫= validateTodos h with
  | Some todos => todos
  | None => []
  end.

(** [getDefaultSettings()] *)
Definition getDefaultSettings : value :=
  VObject
    [ ("version", VString "1.0.0");
      ("theme", VString "auto");
      ("notifications", VBool false);
      ("autoCleanup", VBool true);
      ("sortBy", VString "createdAt");
      ("sortOrder", VString "desc");
      ("showCompleted", VBool true);
      ("compactMode", VBool false) ].

(** [useMemoryFallback()] *)
Definition useMemoryFallback (st : Store) : Store :=
  {| usingMemoryFallback := true; memoryTodos := [];
     memorySettings := getDefaultSettings; lsTodos := lsTodos st;
     lsSettings := lsSettings st; dispatched := dispatched st |}.

(** [30 * 24 * 60 * 60 * 1000] *)
Definition thirtyDays : Z := 30 * 24 * 60 * 60 * 1000.

(** The callback of [todos.filter] in [handleQuotaExceeded]: a comparison
    with [NaN] is false. *)
Definition keepRecent (h : Host) (todo : value) : option bool :=
  completed ← getProp todo "completed";
  if negb (truthy completed) then Some true else
  completedAt ← getProp todo "completedAt";
  createdAt ← getProp todo "createdAt";
  Some (match dateTime h (or_else completedAt createdAt) with
        | Some completedDate => completedDate >? now h - thirtyDays
        | None => false
        end).

(** [handleQuotaExceeded()], over the [saveTodos] it calls back. *)
Definition handleQuotaExceededWith
    (save : Store -> value -> bool * Store * list SetItemOutcome)
    (h : Host) (w : list SetItemOutcome) (st : Store)
  : Store * list SetItemOutcome :=
  let todos := getTodos h st in
  match filterE (keepRecent h) todos with
  | Some filteredTodos =>
      if (length filteredTodos <? length todos)%nat then
        let '(_, st', w') := save st (VArray filteredTodos) in (st', w')
      else (st, w)
  | None => (useMemoryFallback st, w)
  end.

(** [saveTodos(todos)], over the [handleQuotaExceeded] it calls in its
    [catch] block.  [w] lists the outcomes of the [setItem] calls still
    to come, the first one first; once the list is used up every call
    stores.  The result is the returned boolean, the store and the
    outcomes left. *)
Definition saveTodosWith
    (recover : list SetItemOutcome -> Store -> Store * list SetItemOutcome)
    (h : Host) (w : list SetItemOutcome) (st : Store) (todos : value)
  : bool * Store * list SetItemOutcome :=
  match validateTodos h todos with
  | Some validatedTodos =>
      if usingMemoryFallback st then
        (true,
         triggerStorageEvent (withMemoryTodos st validatedTodos)
           "todos_updated" (VArray validatedTodos),
         w)
      else
        match w with
        | [] =>
            (true,
             triggerStorageEvent (withLsTodos st (JsonText (VArray validatedTodos)))
               "todos_updated" (VArray validatedTodos),
             [])
        | Stored :: w' =>
            (true,
             triggerStorageEvent (withLsTodos st (JsonText (VArray validatedTodos)))
               "todos_updated" (VArray validatedTodos),
             w')
        | Throws name :: w' =>
            if (name =? "QuotaExceededError")%string then
              let '(st', w'') := recover w' st in
              (false, st', w'')
            else (false, st, w')
        end
  | None => (false, st, w)
  end.

(** [handleQuotaExceeded()] with room on the call stack for [depth]
    rounds of recovery.  [saveTodos] and [handleQuotaExceeded] call each
    other for as long as the writes fail for lack of space, and nothing
    in the code bounds that but the call stack.  While there is room, a
    round runs the [try] block, whose [saveTodos] has room for one round
    less.  With no room left the calls of the [try] block cannot be made:
    the [RangeError] reaches the [catch] of [handleQuotaExceeded], which
    falls back to memory.  (A stack that overflows inside the [try] of
    [saveTodos] instead is an outcome [Throws "RangeError"] of [w].) *)
Fixpoint handleQuotaExceededAt (depth : nat) (h : Host) (w : list SetItemOutcome)
    (st : Store) {struct depth} : Store * list SetItemOutcome :=
  match depth with
  | O => (useMemoryFallback st, w)
  | S depth' =>
      handleQuotaExceededWith (saveTodosWith (handleQuotaExceededAt depth' h) h w) h w st
  end.

(** [handleQuotaExceeded()], called from the [catch] of a [saveTodos]
    that a method of the class called: the first round has room, and
    [stackRounds h] further rounds have. *)
Definition handleQuotaExceeded (h : Host) (w : list SetItemOutcome) (st : Store)
  : Store * list SetItemOutcome :=
  handleQuotaExceededAt (S (stackRounds h)) h w st.

(** [saveTodos(todos)], called from a method of the class. *)
Definition saveTodos (h : Host) (w : list SetItemOutcome) (st : Store) (todos : value)
  : bool * Store * list SetItemOutcome :=
  saveTodosWith (handleQuotaExceeded h) h w st todos.

(** ** Operations on todos *)

(** [generateId()]; [k] counts the calls of [Math.random]. *)
Definition generateId (h : Host) (k : nat) : value :=
  VString (intToString (now h) ++ random36 h k).

(** The object literal [newTodo] of [addTodo]. *)
Definition newTodoOf (h : Host) (todoData : value) : option value :=
  title ← getProp todoData "title";
  title' ← callTrim title;
  dueDate ← getProp todoData "dueDate";
  priority ← getProp todoData "priority";
  tags ← getProp todoData "tags";
  description ← getProp todoData "description";
  Some (VObject
    [ ("id", generateId h 0);
      ("title", title');
      ("completed", VBool false);
      ("dueDate", or_else dueDate VNull);
      ("createdAt", nowISO h);
      ("completedAt", VNull);
      ("priority", or_else priority (VString "normal"));
      ("tags", or_else tags (VArray []));
      ("description", or_else description (VString "")) ]).

(** [addTodo(todoData)]: the new todo or [null]. *)
Definition addTodo (h : Host) (w : list SetItemOutcome) (st : Store) (todoData : value)
  : value * Store * list SetItemOutcome :=
  let todos := getTodos h st in
  match newTodoOf h todoData with
  | Some newTodo =>
      let '(saved, st', w') := saveTodos h w st (VArray (newTodo :: todos)) in
      if saved then (newTodo, triggerStorageEvent st' "todo_added" newTodo, w')
      else (VNull, st', w')
  | None => (VNull, st, w)
  end.

(** [todos.findIndex(p)] with a callback that may throw; [Some None] is
    the result -1. *)
Fixpoint findIndexE (p : value -> option bool) (l : list value) : option (option nat) :=
  match l with
  | [] => Some None
  | x :: l' =>
      hit ← p x;
      if hit : bool then Some (Some O)
      else i ← findIndexE p l'; Some (option_map S i)
  end.

(** [todo => todo.id === id] *)
Definition hasId (id : value) (todo : value) : option bool :=
  v ← getProp todo "id";
  Some (strictEq v id).

(** The own enumerable properties that an object spread [...v] copies. *)
Definition ownEntries (v : value) : list (string * value) :=
  match v with
  | VObject ps => ps
  | VArray l => imap (λ i x, (natToString (Z.of_nat i), x)) l
  | VString s =>
      imap (λ i c, (natToString (Z.of_nat i), VString (String c EmptyString)))
        (list_ascii_of_string s)
  | _ => []
  end.

(** [{ ...target, ...v }] *)
Definition spread (v : value) (target : list (string * value)) : list (string * value) :=
  fold_left (λ acc kv, setProp kv.1 kv.2 acc) (ownEntries v) target.

(** The record [updateTodo] puts at [todos[index]]: the object literal
    and the assignment of [completedAt].  Reading [updates.completed]
    throws when [updates] is [null] or [undefined]. *)
Definition applyUpdates (h : Host) (current id updates : value) : option value :=
  let merged :=
    setProp "updatedAt" (nowISO h)
      (setProp "id" id (spread updates (spread current []))) in
  completed ← getProp updates "completed";
  Some (VObject
    (if negb (strictEq completed VUndefined)
     then setProp "completedAt" (if truthy completed then nowISO h else VNull) merged
     else merged)).

(** [updateTodo(id, updates)]: the updated todo or [null]. *)
Definition updateTodo (h : Host) (w : list SetItemOutcome) (st : Store)
    (id updates : value) : value * Store * list SetItemOutcome :=
  let todos := getTodos h st in
  match findIndexE (hasId id) todos with
  | Some None => (VNull, st, w)
  | Some (Some index) =>
      let current := default VUndefined (todos !! index) in
      let oldTodo := VObject (spread current []) in
      match applyUpdates h current id updates with
      | Some newTodo =>
          let '(saved, st', w') := saveTodos h w st (VArray (<[index := newTodo]> todos)) in
          if saved then
            (newTodo,
             triggerStorageEvent st' "todo_updated"
               (VObject [("old", oldTodo); ("new", newTodo)]),
             w')
          else (VNull, st', w')
      | None => (VNull, st, w)
      end
  | None => (VNull, st, w)
  end.

(** [deleteTodo(id)] *)
Definition deleteTodo (h : Host) (w : list SetItemOutcome) (st : Store) (id : value)
  : bool * Store * list SetItemOutcome :=
  let todos := getTodos h st in
  match findIndexE (hasId id) todos with
  | Some (Some index) =>
      let deletedTodo := default VUndefined (todos !! index) in
      let '(saved, st', w') := saveTodos h w st (VArray (delete index todos)) in
      if saved then (true, triggerStorageEvent st' "todo_deleted" deletedTodo, w')
      else (false, st', w')
  | _ => (false, st, w)
  end.

(** [todos.find(p)] with a callback that may throw. *)
Fixpoint findE (p : value -> option bool) (l : list value) : option value :=
  match l with
  | [] => Some VUndefined
  | x :: l' =>
      hit ← p x;
      if hit : bool then Some x else findE p l'
  end.

(** [getTodo(id)]: the method has no [try]; [None] is an exception
    reaching the caller. *)
Definition getTodo (h : Host) (st : Store) (id : value) : option value :=
  found ← findE (hasId id) (getTodos h st);
  Some (or_else found VNull).

(** ** Settings, version migration and initialization *)

(** [this.version] *)
Definition version : value := VString "1.0.0".

(** [getSettings()] *)
Definition getSettings (st : Store) : value :=
  if usingMemoryFallback st then VObject (spread (memorySettings st) [])
  else
    let parsed :=
      match lsSettings st with
      | NoItem => Some getDefaultSettings
      | data => JSON_parse data
      end in
    match parsed with
    | Some settings => VObject (spread settings (spread getDefaultSettings []))
    | None => getDefaultSettings
    end.

(** [saveSettings(settings)] *)
Definition saveSettings (w : list SetItemOutcome) (st : Store) (settings : value)
  : bool * Store * list SetItemOutcome :=
  let validatedSettings := VObject (spread settings (spread getDefaultSettings [])) in
  if usingMemoryFallback st then
    (true,
     triggerStorageEvent (withMemorySettings st validatedSettings)
       "settings_updated" validatedSettings,
     w)
  else
    match w with
    | Throws _ :: w' => (false, st, w')
    | _ =>
        (true,
         triggerStorageEvent (withLsSettings st (JsonText validatedSettings))
           "settings_updated" validatedSettings,
         tail w)
    end.

(** [String(v)] as the relational operators apply it to an operand:
    [Array.prototype.toString] joins the elements with commas. *)
Fixpoint toStringJS (v : value) : string :=
  match v with
  | VUndefined => "undefined"
  | VNull => "null"
  | VBool b => if b then "true" else "false"
  | VNumber NaN => "NaN"
  | VNumber (Num z) => intToString z
  | VString s => s
  | VArray l =>
      (fix join (l : list value) : string :=
         match l with
         | [] => ""
         | x :: l' =>
             let sx := match x with
                       | VUndefined | VNull => ""
                       | _ => toStringJS x
                       end in
             match l' with
             | [] => sx
             | _ => sx ++ "," ++ join l'
             end
         end) l
  | VObject _ => "[object Object]"
  end.

(** [fromVersion < '1.0.0']: two strings are compared by code units; an
    operand that is not a string after conversion to a primitive makes
    the comparison numeric, and ['1.0.0'] is then [NaN]. *)
Definition beforeVersion1 (fromVersion : value) : bool :=
  match fromVersion with
  | VString _ | VArray _ | VObject _ => String.ltb (toStringJS fromVersion) "1.0.0"
  | _ => false
  end.

(** [o.k = v] as a statement: a [TypeError] on [undefined] and [null]
    and, in the strict mode of a class body, on a primitive.  The todos
    and the settings the program assigns to are objects; a named
    property of an array is not represented. *)
Definition assignProp (o : value) (k : string) (v : value) : option value :=
  match o with
  | VObject ps => Some (VObject (setProp k v ps))
  | _ => None
  end.

(** The callback of [todos.forEach] in [performMigrations], on one todo:
    the number of [Math.random] calls so far and the [migrated] flag are
    threaded through. *)
Definition migrateTodo (h : Host) (acc : nat * bool) (todo : value)
  : option (nat * bool * value) :=
  let '(k, migrated) := acc in
  id ← getProp todo "id";
  '(k, migrated, todo) ←
    (if negb (truthy id)
     then todo' ← assignProp todo "id" (generateId h k); Some (S k, true, todo')
     else Some (k, migrated, todo));
  createdAt ← getProp todo "createdAt";
  '(migrated, todo) ←
    (if negb (truthy createdAt)
     then todo' ← assignProp todo "createdAt" (nowISO h); Some (true, todo')
     else Some (migrated, todo));
  completed ← getProp todo "completed";
  '(migrated, todo) ←
    (if negb (typeof completed =? "boolean")%string
     then todo' ← assignProp todo "completed" (VBool false); Some (true, todo')
     else Some (migrated, todo));
  Some (k, migrated, todo).

(** [todos.forEach(...)] of [performMigrations]. *)
Fixpoint migrateAll (h : Host) (acc : nat * bool) (todos : list value)
  : option (bool * list value) :=
  match todos with
  | [] => Some (acc.2, [])
  | todo :: rest =>
      '(k, migrated, todo') ← migrateTodo h acc todo;
      '(migrated', rest') ← migrateAll h (k, migrated) rest;
      Some (migrated', todo' :: rest')
  end.

(** [performMigrations(fromVersion, toVersion)]; [None] is an exception,
    which [handleVersionMigration] catches. *)
Definition performMigrations (h : Host) (w : list SetItemOutcome) (st : Store)
    (fromVersion : value) : option (Store * list SetItemOutcome) :=
  let todos := getTodos h st in
  '(migrated, todos') ←
    (if beforeVersion1 fromVersion then migrateAll h (O, false) todos
     else Some (false, todos));
  if migrated : bool then
    let '(_, st', w') := saveTodos h w st (VArray todos') in Some (st', w')
  else Some (st, w).

(** [handleVersionMigration()] *)
Definition handleVersionMigration (h : Host) (w : list SetItemOutcome) (st : Store)
  : Store * list SetItemOutcome :=
  let settings := getSettings st in
  match getProp settings "version" with
  | Some v =>
      let currentVersion := or_else v (VString "0.0.0") in
      if negb (strictEq currentVersion version) then
        match performMigrations h w st currentVersion with
        | Some (st', w') =>
            match assignProp settings "version" version with
            | Some settings' =>
                let '(_, st'', w'') := saveSettings w' st' settings' in
                (st'', w'')
            | None => (st', w')
            end
        | None => (st, w)
        end
      else (st, w)
  | None => (st, w)
  end.

(** [isStorageAvailable()]: one [setItem] of a test key, removed again. *)
Definition isStorageAvailable (w : list SetItemOutcome) : bool * list SetItemOutcome :=
  match w with
  | Throws _ :: w' => (false, w')
  | _ => (true, tail w)
  end.

(** [initializeStorage()] *)
Definition initializeStorage (h : Host) (w : list SetItemOutcome) (st : Store)
  : Store * list SetItemOutcome :=
  let '(available, w) := isStorageAvailable w in
  if negb available then (useMemoryFallback st, w)
  else
    let '(st, w) :=
      match lsTodos st with
      | NoItem => let '(_, st', w') := saveTodos h w st (VArray []) in (st', w')
      | _ => (st, w)
      end in
    let '(st, w) :=
      match lsSettings st with
      | NoItem => let '(_, st', w') := saveSettings w st getDefaultSettings in (st', w')
      | _ => (st, w)
      end in
    handleVersionMigration h w st.

(** * The rest of the storage class *)

(** ** Searching *)

(** [c.toLowerCase()] on one code unit below 256: the letters A-Z and the
    capital letters of Latin-1 move up by 32. *)
Definition lowerChar (c : ascii) : ascii :=
  let n := nat_of_ascii c in
  if ((65 <=? n) && (n <=? 90) || (192 <=? n) && (n <=? 214)
      || (216 <=? n) && (n <=? 222))%nat
  then ascii_of_nat (n + 32) else c.

(** [s.toLowerCase()] *)
Fixpoint toLowerCase (s : string) : string :=
  match s with
  | EmptyString => EmptyString
  | String c r => String (lowerChar c) (toLowerCase r)
  end.

(** [v.toLowerCase()]: only a string has the method. *)
Definition callToLowerCase (v : value) : option string :=
  match v with
  | VString s => Some (toLowerCase s)
  | _ => None
  end.

(** [s.includes(sub)] *)
Fixpoint includes (s sub : string) : bool :=
  String.prefix sub s ||
  match s with
  | EmptyString => false
  | String _ r => includes r sub
  end.

(** [array.some(f)] with a callback that may throw: it stops at the
    first hit. *)
Fixpoint someE (f : value -> option bool) (l : list value) : option bool :=
  match l with
  | [] => Some false
  | x :: l' =>
      hit ← f x;
      if hit : bool then Some true else someE f l'
  end.

(** The callback of [todos.filter] in [searchTodos].  [todo.tags.some]
    exists on an array only. *)
Definition matchesSearch (searchTerm : string) (todo : value) : option bool :=
  title ← getProp todo "title";
  title' ← callToLowerCase title;
  if includes title' searchTerm then Some true else
  description ← getProp todo "description";
  description' ← callToLowerCase description;
  if includes description' searchTerm then Some true else
  tags ← getProp todo "tags";
  if negb (truthy tags) then Some false else
  match tags with
  | VArray l =>
      someE (fun tag => tag' ← callToLowerCase tag; Some (includes tag' searchTerm)) l
  | _ => None
  end.

(** [searchTodos(query)]: the method has no [try]; [None] is an exception
    reaching the caller. *)
Definition searchTodos (h : Host) (st : Store) (query : value) : option (list value) :=
  let todos := getTodos h st in
  query' ← callToLowerCase query;
  let searchTerm := trim query' in
  if negb (truthy (VString searchTerm)) then Some todos
  else filterE (matchesSearch searchTerm) todos.

(** ** Filtering *)

(** The local calendar of the browser: [new Date(t).toDateString()] for a
    time value [t]. *)
Record Zone := {
  toDateString : Z -> string
}.

(** [new Date(v).toDateString()] *)
Definition dateString (h : Host) (z : Zone) (v : value) : string :=
  match dateTime h v with
  | Some t => toDateString z t
  | None => "Invalid Date"
  end.

(** The callbacks of [filterTodos], one for each case of the [switch]. *)
Definition isCompleted (todo : value) : option bool :=
  completed ← getProp todo "completed";
  Some (truthy completed).

Definition isPending (todo : value) : option bool :=
  completed ← getProp todo "completed";
  Some (negb (truthy completed)).

Definition isOverdue (h : Host) (todo : value) : option bool :=
  completed ← getProp todo "completed";
  if truthy completed then Some false else
  dueDate ← getProp todo "dueDate";
  if negb (truthy dueDate) then Some false else
  Some (match dateTime h dueDate with
        | Some t => t <? now h
        | None => false
        end).

Definition isDueToday (h : Host) (z : Zone) (todo : value) : option bool :=
  completed ← getProp todo "completed";
  if truthy completed then Some false else
  dueDate ← getProp todo "dueDate";
  if negb (truthy dueDate) then Some false else
  Some (dateString h z dueDate =? toDateString z (now h))%string.

(** [filterTodos(todos, filter)] on an array [todos]; the method has no
    [try]. *)
Definition filterTodos (h : Host) (z : Zone) (todos : list value) (filter : value)
  : option (list value) :=
  if strictEq filter (VString "completed") then filterE isCompleted todos
  else if strictEq filter (VString "pending") then filterE isPending todos
  else if strictEq filter (VString "overdue") then filterE (isOverdue h) todos
  else if strictEq filter (VString "today") then filterE (isDueToday h z) todos
  else Some todos.

(** ** Reset *)

(** [clearAll()] *)
Definition clearAll (h : Host) (w : list SetItemOutcome) (st : Store)
  : bool * Store * list SetItemOutcome :=
  let '(st', w') :=
    if usingMemoryFallback st then
      (withMemorySettings (withMemoryTodos st []) getDefaultSettings, w)
    else initializeStorage h w (withLsSettings (withLsTodos st NoItem) NoItem) in
  (true, triggerStorageEvent st' "storage_cleared" VUndefined, w').

(** * The callers of the storage class *)

(** ** The application controller, [class TodoApp] *)

Module TodoApp.

(** [cleanupOldTodos()] of the application controller, on the store: the
    boolean tells whether the list was saved and the display refreshed.
    Rendering reads the store and changes the page only. *)
Definition cleanupOldTodos (h : Host) (w : list SetItemOutcome) (st : Store)
  : bool * Store * list SetItemOutcome :=
  let todos := getTodos h st in
  match filterE (keepRecent h) todos with
  | Some todosToKeep =>
      if (length todosToKeep <? length todos)%nat then
        let '(_, st', w') := saveTodos h w st (VArray todosToKeep) in (true, st', w')
      else (false, st, w)
  | None => (false, st, w)
  end.

(** How the promise of [importTodos] settles. *)
Inductive Settled :=
| Resolved (count : nat)
| RejectedSyntaxError
| RejectedInvalidFileFormat
| RejectedNoValidTodos
| RejectedTypeError.

(** The callback of [importedTodos.filter] in [importTodos]. *)
Definition importable (todo : value) : option bool :=
  if negb (truthy todo) then Some false else
  title ← getProp todo "title";
  if negb (typeof title =? "string")%string then Some false else
  completed ← getProp todo "completed";
  Some (typeof completed =? "boolean")%string.

(** The [onload] handler of [importTodos], on the text of the file. *)
Definition importTodos (h : Host) (w : list SetItemOutcome) (st : Store) (text : Item)
  : Settled * Store * list SetItemOutcome :=
  match JSON_parse text with
  | None => (RejectedSyntaxError, st, w)
  | Some (VArray importedTodos) =>
      match filterE importable importedTodos with
      | None => (RejectedTypeError, st, w)
      | Some validTodos =>
          if (length validTodos =? 0)%nat then (RejectedNoValidTodos, st, w)
          else
            let existingTodos := getTodos h st in
            let '(_, st', w') := saveTodos h w st (VArray (validTodos ++ existingTodos)) in
            (Resolved (length validTodos), st', w')
      end
  | Some _ => (RejectedInvalidFileFormat, st, w)
  end.

(** The object [getStats()] of the application controller returns. *)
Record Stats := {
  total : nat;
  completed : nat;
  pending : nat;
  overdue : nat;
  dueToday : nat;
  createdThisWeek : nat
}.

(** [todos.filter(f).length] *)
Definition countE (f : value -> option bool) (l : list value) : option nat :=
  kept ← filterE f l;
  Some (length kept).

(** The callback of [createdThisWeek]. *)
Definition isCreatedThisWeek (h : Host) (todo : value) : option bool :=
  createdAt ← getProp todo "createdAt";
  Some (match dateTime h createdAt with
        | Some t => t >? now h - 7 * 24 * 60 * 60 * 1000
        | None => false
        end).

(** The callbacks of [overdue] and [dueToday] in [getStats]. *)
Definition statOverdue (h : Host) (todo : value) : option bool :=
  completed ← getProp todo "completed";
  if truthy completed then Some false else
  dueDate ← getProp todo "dueDate";
  if negb (truthy dueDate) then Some false else
  Some (match dateTime h dueDate with
        | Some t => t <? now h
        | None => false
        end).

Definition statDueToday (h : Host) (z : Zone) (todo : value) : option bool :=
  completed ← getProp todo "completed";
  if truthy completed then Some false else
  dueDate ← getProp todo "dueDate";
  if negb (truthy dueDate) then Some false else
  Some (dateString h z dueDate =? toDateString z (now h))%string.

(** [getStats()]: the method has no [try]. *)
Definition getStats (h : Host) (z : Zone) (st : Store) : option Stats :=
  let todos := getTodos h st in
  completed ← countE isCompleted todos;
  pending ← countE isPending todos;
  overdue ← countE (statOverdue h) todos;
  dueToday ← countE (statDueToday h z) todos;
  createdThisWeek ← countE (isCreatedThisWeek h) todos;
  Some {| total := length todos; completed := completed; pending := pending;
          overdue := overdue; dueToday := dueToday;
          createdThisWeek := createdThisWeek |}.

End TodoApp.

(** ** The user interface, [class TodoUI] *)

Module TodoUI.

(** What [showNotification(message, type)] is called with. *)
Record Notification := {
  message : string;
  type : string
}.

(** [addTodo()] of the user interface, on the values of the two inputs of
    the form: the notification shown, and the store. *)
Definition addTodo (h : Host) (w : list SetItemOutcome) (st : Store)
    (titleValue dueDateValue : string) : Notification * Store * list SetItemOutcome :=
  let title := trim titleValue in
  let dueDate := or_else (VString dueDateValue) VNull in
  if negb (truthy (VString title)) then
    ({| message := "Please enter a todo title"; type := "error" |}, st, w)
  else
    let '(newTodo, st', w') :=
      addTodo h w st (VObject [("title", VString title); ("dueDate", dueDate)]) in
    if truthy newTodo then
      ({| message := "Todo added successfully!"; type := "success" |}, st', w')
    else
      ({| message := "Failed to add todo. Please try again."; type := "error" |}, st', w').

(** [toggleTodo(id)] of the user interface: the notification shown, if
    any, and the store.  [None] is an exception of [getTodo]. *)
Definition toggleTodo (h : Host) (w : list SetItemOutcome) (st : Store) (id : value)
  : option (option Notification * Store * list SetItemOutcome) :=
  todo ← getTodo h st id;
  if negb (truthy todo) then Some (None, st, w) else
  completed ← getProp todo "completed";
  let '(updated, st', w') :=
    updateTodo h w st id (VObject [("completed", VBool (negb (truthy completed)))]) in
  if truthy updated then
    completed' ← getProp updated "completed";
    Some (Some {| message := if truthy completed' then "Todo completed!" else "Todo reopened!";
                  type := "success" |}, st', w')
  else Some (None, st', w').

End TodoUI.

(** * Derived notions

    Names for what the proofs speak about: the shape of a validated
    record, the validator on one element, the list a store holds. *)

(** The nine fields of a todo, as [validateTodos] writes them. *)
Definition todoRecord (id title : string) (completed : bool)
    (dueDate createdAt completedAt priority : value) (tags : list value)
    (description : value) : value :=
  VObject
    [ ("id", VString id);
      ("title", VString title);
      ("completed", VBool completed);
      ("dueDate", dueDate);
      ("createdAt", createdAt);
      ("completedAt", completedAt);
      ("priority", priority);
      ("tags", VArray tags);
      ("description", description) ].

(** What [validateTodos] guarantees of each member of its result. *)
Inductive Normalized : value -> Prop :=
| Normalized_intro id title completed dueDate createdAt completedAt priority tags description :
    id <> EmptyString ->
    trim title = title ->
    or_else dueDate VNull = dueDate ->
    truthy createdAt = true ->
    or_else completedAt VNull = completedAt ->
    truthy priority = true ->
    or_else description (VString "") = description ->
    Normalized
      (todoRecord id title completed dueDate createdAt completedAt priority tags description).

(** Filter and map of [validateTodos] on one element. *)
Definition validTodo (h : Host) (todo : value) : option value :=
  match requiredFieldsOk todo with
  | Some true => normalizeTodo h todo
  | _ => None
  end.

(** The value [o.k] reads from the properties of an object. *)
Definition prop (ps : list (string * value)) (k : string) : value :=
  default VUndefined (lookupProp k ps).

(** The elements of an array; a value that is not an array has none. *)
Definition itemsOf (v : value) : list value :=
  match v with VArray l => l | _ => [] end.

(** The record [normalizeTodo] builds from the properties of an object. *)
Definition normalForm (h : Host) (ps : list (string * value)) (id title : string)
    (completed : bool) : value :=
  todoRecord id (trim title) completed
    (or_else (prop ps "dueDate") VNull)
    (or_else (prop ps "createdAt") (nowISO h))
    (or_else (prop ps "completedAt") VNull)
    (or_else (prop ps "priority") (VString "normal"))
    (itemsOf (prop ps "tags"))
    (or_else (prop ps "description") (VString "")).

(** The properties [JSON.stringify] writes for an object. *)
Definition jsonProps (ps : list (string * value)) : list (string * value) :=
  match json (VObject ps) with VObject qs => qs | _ => [] end.

(** What [getTodos] validates: the array in memory or the array parsed
    from [localStorage]; nothing when the item is missing, is not JSON or
    is not an array. *)
Definition rawTodos (st : Store) : list value :=
  if usingMemoryFallback st then memoryTodos st
  else match lsTodos st with
       | JsonText v => itemsOf (json v)
       | _ => []
       end.

(** The array [saveTodos] writes for an argument [todos]. *)
Definition validated (h : Host) (todos : value) : list value :=
  omap (validTodo h) (itemsOf todos).

(** The store after a successful [saveTodos]. *)
Definition written (h : Host) (st : Store) (todos : value) : Store :=
  triggerStorageEvent
    (if usingMemoryFallback st then withMemoryTodos st (validated h todos)
     else withLsTodos st (JsonText (VArray (validated h todos))))
    "todos_updated" (VArray (validated h todos)).

(** The todos [handleQuotaExceeded] keeps. *)
Definition recentTodos (h : Host) (st : Store) : list value :=
  filter (fun todo => keepRecent h todo = Some true) (getTodos h st).

(** The record the store keeps for a todo handed to [saveTodos]: the
    validator's result, as [JSON.parse] reads it back in durable mode. *)
Definition persisted (h : Host) (st : Store) (todo : value) : option value :=
  r ← validTodo h todo;
  Some (if usingMemoryFallback st then r else json r).

(** The names of the own properties of an object, in order. *)
Definition fieldNames (v : value) : list string :=
  match v with VObject ps => map fst ps | _ => [] end.

(** The nine field names, in the order of the validator's literal. *)
Definition todoFields : list string :=
  ["id"; "title"; "completed"; "dueDate"; "createdAt"; "completedAt";
   "priority"; "tags"; "description"].

(** The stored list of [st'] is that of [st] or a list that went through
    the validator. *)
Definition storesValidated (h : Host) (st st' : Store) : Prop :=
  rawTodos st' = rawTodos st \/ exists l, rawTodos st' = omap (persisted h st) l.

(** The optional fields of [todoData] that [addTodo] copies when they are
    truthy are written to [localStorage] as they are. *)
Definition survivesJSON (todoData : value) : Prop :=
  Forall (fun k => forall x, getProp todoData k = Some x -> truthy x = true -> json x = x)
         ["dueDate"; "priority"; "tags"; "description"].

(** A todo completed more than thirty days before now, by its
    [completedAt], or by its [createdAt] when [completedAt] is falsy. *)
Definition completedLongAgo (h : Host) (todo : value) : Prop :=
  exists completedAt createdAt completedDate,
    getProp todo "completed" = Some (VBool true) /\
    getProp todo "completedAt" = Some completedAt /\
    getProp todo "createdAt" = Some createdAt /\
    dateTime h (or_else completedAt createdAt) = Some completedDate /\
    completedDate < now h - thirtyDays.

(** A todo that is not completed. *)
Definition stillPending (todo : value) : Prop :=
  getProp todo "completed" = Some (VBool false).

(** A todo completed less than thirty days before now, by its
    [completedAt], or by its [createdAt] when [completedAt] is falsy. *)
Definition completedRecently (h : Host) (todo : value) : Prop :=
  exists completedAt createdAt completedDate,
    getProp todo "completed" = Some (VBool true) /\
    getProp todo "completedAt" = Some completedAt /\
    getProp todo "createdAt" = Some createdAt /\
    dateTime h (or_else completedAt createdAt) = Some completedDate /\
    now h - thirtyDays < completedDate.

(** A record whose title is not the empty string. *)
Definition hasTitle (todo : value) : bool :=
  match getProp todo "title" with
  | Some (VString EmptyString) => false
  | _ => true
  end.

(** What [getTodos], called with host [h'], shows of a record handed to
    a [saveTodos] called with host [h]. *)
Definition shown (h h' : Host) (st : Store) (todo : value) : option value :=
  persisted h st todo ≫= validTodo h'.

(** The default settings as a property list. *)
Definition defaultProps : list (string * value) :=
  match getDefaultSettings with VObject ps => ps | _ => [] end.

(** A todo whose description is a string and whose tags are strings:
    what [searchTodos] can lower-case. *)
Definition searchable (todo : value) : Prop :=
  (exists description, getProp todo "description" = Some (VString description)) /\
  (forall tags, getProp todo "tags" = Some (VArray tags) ->
     Forall (fun tag => exists s, tag = VString s) tags).

(** The [completed] flag of a todo, as the filters test it. *)
Definition completedOf (todo : value) : bool :=
  match getProp todo "completed" with
  | Some completed => truthy completed
  | None => false
  end.

(** The todo with [completed] negated and [completedAt] set to now, or to
    [null] when it is reopened. *)
Definition toggled (h : Host) (todo : value) : value :=
  match todo with
  | VObject ps =>
      VObject
        (setProp "completedAt" (if completedOf todo then VNull else nowISO h)
           (setProp "completed" (VBool (negb (completedOf todo))) ps))
  | _ => todo
  end.

(** * Fixtures *)

(** A host whose clock reads 2024-02-29T12:34:56.789Z, whose [Date]
    parses two timestamps and whose call stack has room for a thousand
    rounds of recovery after the first. *)
Definition exampleHost : Host :=
  {| now := 1709210096789;
     random36 := fun _ => "k3j9x0q2a";
     dateTime := fun v =>
       match v with
       | VString s =>
           if (s =? "2020-01-01T00:00:00.000Z")%string then Some 1577836800000
           else if (s =? "2024-02-29T12:34:56.789Z")%string then Some 1709210096789
           else None
       | VNumber (Num z) => Some z
       | _ => None
       end;
     stackRounds := 1000 |}.

(** A durable store whose todo item is the serialization of [todos]. *)
Definition storeOf (todos : list value) : Store :=
  {| usingMemoryFallback := false; memoryTodos := []; memorySettings := VUndefined;
     lsTodos := JsonText (VArray todos); lsSettings := NoItem; dispatched := [] |}.

(** A record with the three required fields only. *)
Definition bareTodo (id title : string) (completed : bool) : value :=
  VObject [("id", VString id); ("title", VString title); ("completed", VBool completed)].

(** A stored record with a creation time of its own. *)
Definition datedTodo (id title created : string) : value :=
  VObject [("id", VString id); ("title", VString title); ("completed", VBool false);
           ("createdAt", VString created)].

(** A durable store with one such record. *)
Definition datedStore : Store :=
  storeOf [datedTodo "a" "Write report" "2024-01-15T08:00:00.000Z"].

(** A partial with an [id] of its own, applied to [datedStore]. *)
Definition renamingUpdate : value :=
  VObject [("id", VString "b"); ("title", VString "Write the report")].

(** An empty durable store. *)
Definition emptyStore : Store := storeOf [].

(** A durable store from a release before 1.0.0: one record without
    [id], [createdAt] and [completed], one with a [completed] that is
    not a boolean. *)
Definition legacyStore : Store :=
  {| usingMemoryFallback := false; memoryTodos := []; memorySettings := VUndefined;
     lsTodos :=
       JsonText (VArray
         [ VObject [("title", VString "Buy milk")];
           VObject [("id", VString "7"); ("title", VString "Call Bob");
                    ("completed", VString "no")] ]);
     lsSettings := JsonText (VObject [("version", VString "0.9.0")]);
     dispatched := [] |}.

(** A completed todo whose completion time [dateTime exampleHost] places
    in 2020, more than thirty days before the clock of [exampleHost]. *)
Definition staleTodo : value :=
  VObject [("id", VString "old"); ("title", VString "File taxes"); ("completed", VBool true);
           ("createdAt", VString "2020-01-01T00:00:00.000Z");
           ("completedAt", VString "2020-01-01T00:00:00.000Z")].

(** A durable store with the stale todo and a pending one. *)
Definition staleStore : Store := storeOf [staleTodo; bareTodo "a" "Write report" false].

(** An input with two extra keys, an input without [id] and an input that
    is not an object. *)
Definition messyTodos : value :=
  VArray
    [ VObject [("id", VString "a"); ("title", VString " Write report ");
               ("completed", VBool false); ("updatedAt", VString "2024-02-01");
               ("colour", VString "red")];
      VObject [("title", VString "No id")];
      VString "not a record" ].

(** A well-formed argument of [addTodo]. *)
Definition milkData : value :=
  VObject [("title", VString " Buy milk "); ("dueDate", VString "2024-03-01");
           ("tags", VArray [VString "shopping"])].

(** [addTodo] on [staleStore] when the first write fails for lack of
    space. *)
Definition quotaRun : value * Store * list SetItemOutcome :=
  addTodo exampleHost [Throws "QuotaExceededError"] staleStore
    (VObject [("title", VString "Plan trip")]).

(** A partial that empties the title. *)
Definition blankingUpdate : value := VObject [("title", VString "")].

(** A store whose todos have string descriptions and tags. *)
Definition meetingStore : Store :=
  storeOf [ VObject [("id", VString "m"); ("title", VString "Team meeting");
                     ("completed", VBool false); ("tags", VArray [VString "work"])];
            bareTodo "a" "Write report" false ].

(** A store with a todo whose description is a number. *)
Definition numberedStore : Store :=
  storeOf [ VObject [("id", VString "n"); ("title", VString "Pay rent");
                     ("completed", VBool false); ("description", VNumber (Num 42))] ].

(** A store whose settings item is not JSON. *)
Definition garbledStore : Store :=
  {| usingMemoryFallback := false; memoryTodos := []; memorySettings := VUndefined;
     lsTodos := NoItem; lsSettings := BadText; dispatched := [] |}.

(** A store whose settings item is [{"theme": "dark"}]. *)
Definition darkStore : Store :=
  {| usingMemoryFallback := false; memoryTodos := []; memorySettings := VUndefined;
     lsTodos := NoItem; lsSettings := JsonText (VObject [("theme", VString "dark")]);
     dispatched := [] |}.

(** A file with one record without [id], one complete record and one
    string. *)
Definition importedRecords : list value :=
  [ VObject [("title", VString "Imported"); ("completed", VBool false)];
    bareTodo "7" "Walk" false;
    VString "note" ].

(** [datedStore] after a toggle of its todo. *)
Definition toggledStore : Store :=
  match TodoUI.toggleTodo exampleHost [] datedStore (VString "a") with
  | Some (_, st', _) => st'
  | None => datedStore
  end.

(** * Properties *)

(** ** Strings *)

Lemma trimEnd_cons c r :
  trimEnd (String c r) =
  match trimEnd r with
  | EmptyString => if isWhiteSpace c then EmptyString else String c EmptyString
  | r' => String c r'
  end.
Proof. reflexivity. Qed.

Lemma trimEnd_idem s : trimEnd (trimEnd s) = trimEnd s.
Proof.
  induction s as [|c r IH]; [reflexivity|].
  rewrite trimEnd_cons.
  destruct (trimEnd r) as [|c' r'] eqn:E.
  - destruct (isWhiteSpace c) eqn:W; [reflexivity|].
    rewrite trimEnd_cons. simpl. now rewrite W.
  - rewrite trimEnd_cons, IH. reflexivity.
Qed.

Lemma trimEnd_keeps_head c r :
  isWhiteSpace c = false -> exists r', trimEnd (String c r) = String c r'.
Proof.
  intros W. rewrite trimEnd_cons, W. destruct (trimEnd r); eauto.
Qed.

Lemma trimStart_head s :
  trimStart s = EmptyString \/
  exists c r, trimStart s = String c r /\ isWhiteSpace c = false.
Proof.
  induction s as [|c r IH]; [now left|].
  simpl. destruct (isWhiteSpace c) eqn:W; [exact IH|].
  right. eauto.
Qed.

Lemma trim_idem s : trim (trim s) = trim s.
Proof.
  unfold trim.
  destruct (trimStart_head s) as [E | (c & r & E & W)]; rewrite E; [reflexivity|].
  destruct (trimEnd_keeps_head c r W) as [r' E'].
  rewrite E'. simpl. rewrite W, <- E'. apply trimEnd_idem.
Qed.

Lemma eqb_empty_false s : s <> EmptyString -> (s =? "")%string = false.
Proof. intros H. now apply String.eqb_neq. Qed.

Lemma append_cons_nonempty s c t : (s ++ String c t)%string <> EmptyString.
Proof. destruct s; discriminate. Qed.

Lemma toISOString_nonempty ms : toISOString ms <> EmptyString.
Proof.
  unfold toISOString. destruct (civilFromDays (ms / 86400000)) as [[y m] d].
  apply (append_cons_nonempty _ "-").
Qed.

Lemma digits_acc_nonempty fuel n acc :
  acc <> EmptyString -> digits fuel n acc <> EmptyString.
Proof.
  revert n acc. induction fuel as [|fuel IH]; intros n acc H; [exact H|].
  simpl. destruct (n / 10 =? 0); [discriminate|]. apply IH. discriminate.
Qed.

Lemma intToString_nonempty z : intToString z <> EmptyString.
Proof.
  unfold intToString. destruct (z <? 0); [discriminate|].
  unfold natToString. simpl. destruct (z / 10 =? 0); [discriminate|].
  apply digits_acc_nonempty. discriminate.
Qed.

Lemma append_nonempty_l s t : s <> EmptyString -> (s ++ t)%string <> EmptyString.
Proof. destruct s; [congruence|discriminate]. Qed.

Lemma truthy_nowISO h : truthy (nowISO h) = true.
Proof.
  unfold nowISO. simpl. now rewrite eqb_empty_false by apply toISOString_nonempty.
Qed.

Lemma truthy_generateId h k : truthy (generateId h k) = true.
Proof.
  unfold generateId. simpl.
  now rewrite eqb_empty_false by apply append_nonempty_l, intToString_nonempty.
Qed.

(** ** Property lists *)

Lemma lookupProp_setProp_eq k v ps : lookupProp k (setProp k v ps) = Some v.
Proof.
  induction ps as [|[k' v'] ps IH]; simpl.
  - now rewrite String.eqb_refl.
  - destruct (k' =? k)%string eqn:E; simpl.
    + now rewrite String.eqb_refl.
    + now rewrite E.
Qed.

Lemma lookupProp_setProp_ne k k' v ps :
  k <> k' -> lookupProp k (setProp k' v ps) = lookupProp k ps.
Proof.
  intros Hne. induction ps as [|[k0 v0] ps IH]; simpl.
  - destruct (k' =? k)%string eqn:E; [|reflexivity].
    apply String.eqb_eq in E. congruence.
  - destruct (k0 =? k')%string eqn:E; simpl.
    + apply String.eqb_eq in E. subst k0.
      destruct (k' =? k)%string eqn:E'; [|reflexivity].
      apply String.eqb_eq in E'. congruence.
    + destruct (k0 =? k)%string; [reflexivity|exact IH].
Qed.

Lemma lookupProp_fold_setProp k entries target :
  lookupProp k entries = None ->
  lookupProp k (fold_left (λ acc kv, setProp kv.1 kv.2 acc) entries target)
  = lookupProp k target.
Proof.
  revert target. induction entries as [|[k0 v0] entries IH]; intros target H; [reflexivity|].
  simpl in *. destruct (k0 =? k)%string eqn:E; [discriminate|].
  rewrite IH by exact H. apply lookupProp_setProp_ne.
  intros ->. now rewrite String.eqb_refl in E.
Qed.

(** A property the spread source does not own keeps the target's value. *)
Lemma lookupProp_spread k v target :
  lookupProp k (ownEntries v) = None ->
  lookupProp k (spread v target) = lookupProp k target.
Proof. apply lookupProp_fold_setProp. Qed.

(** ** The validator *)

Lemma requiredFieldsOk_total todo : exists b, requiredFieldsOk todo = Some b.
Proof.
  unfold requiredFieldsOk.
  destruct todo as [| |b|n|s|l|ps]; simpl;
    repeat match goal with
           | |- context [if ?c then _ else _] => destruct c; simpl
           end;
    eexists; reflexivity.
Qed.

Local Ltac absurd_case :=
  rewrite ?orb_true_r; simpl; intros; discriminate.

Lemma requiredFieldsOk_true todo :
  requiredFieldsOk todo = Some true ->
  exists ps id title completed,
    todo = VObject ps /\
    prop ps "id" = VString id /\ id <> EmptyString /\
    prop ps "title" = VString title /\ title <> EmptyString /\
    prop ps "completed" = VBool completed.
Proof.
  unfold requiredFieldsOk.
  destruct todo as [| |b|n|s|l|ps]; simpl.
  1-6: absurd_case.
  fold (prop ps "id") (prop ps "title") (prop ps "completed").
  destruct (prop ps "id") as [| |?|?|i|?|?] eqn:Hid; simpl; try solve [absurd_case].
  destruct (i =? "")%string eqn:Eid; simpl; [intros; discriminate|].
  destruct (prop ps "title") as [| |?|?|title|?|?] eqn:Htitle; simpl; try solve [absurd_case].
  destruct (title =? "")%string eqn:Et; simpl; [intros; discriminate|].
  destruct (prop ps "completed") as [| |c|?|?|?|?] eqn:Hc; simpl; try (intros; discriminate).
  intros _. exists ps, i, title, c.
  apply String.eqb_neq in Eid, Et. repeat split; assumption.
Qed.

Lemma requiredFieldsOk_object ps id title completed :
  prop ps "id" = VString id -> id <> EmptyString ->
  prop ps "title" = VString title -> title <> EmptyString ->
  prop ps "completed" = VBool completed ->
  requiredFieldsOk (VObject ps) = Some true.
Proof.
  intros Hid Hne Htitle Hne' Hc. unfold requiredFieldsOk. simpl.
  fold (prop ps "id") (prop ps "title") (prop ps "completed").
  rewrite Hid, Htitle, Hc. simpl.
  now rewrite !eqb_empty_false by assumption.
Qed.

Lemma isArray_itemsOf tags :
  (if isArray tags then tags else VArray []) = VArray (itemsOf tags).
Proof. destruct tags; reflexivity. Qed.

Lemma normalizeTodo_object h ps id title completed :
  prop ps "id" = VString id ->
  prop ps "title" = VString title ->
  prop ps "completed" = VBool completed ->
  normalizeTodo h (VObject ps) = Some (normalForm h ps id title completed).
Proof.
  intros Hid Htitle Hc. unfold normalizeTodo. simpl.
  fold (prop ps "id") (prop ps "title") (prop ps "completed") (prop ps "dueDate")
       (prop ps "createdAt") (prop ps "completedAt") (prop ps "priority")
       (prop ps "tags") (prop ps "description").
  rewrite Hid, Htitle, Hc. simpl. rewrite isArray_itemsOf.
  destruct completed; reflexivity.
Qed.

(** [validTodo] by cases: an object with a non-empty string [id], a
    non-empty string [title] and a boolean [completed] is kept and
    normalized, anything else is dropped. *)
Lemma validTodo_Some h todo r :
  validTodo h todo = Some r <->
  exists ps id title completed,
    todo = VObject ps /\
    prop ps "id" = VString id /\ id <> EmptyString /\
    prop ps "title" = VString title /\ title <> EmptyString /\
    prop ps "completed" = VBool completed /\
    r = normalForm h ps id title completed.
Proof.
  unfold validTodo. split.
  - destruct (requiredFieldsOk todo) as [[|]|] eqn:E; try (intros; discriminate).
    destruct (requiredFieldsOk_true _ E) as (ps & i & t & c & -> & Hi & Hne & Ht & Hne' & Hc).
    rewrite (normalizeTodo_object h ps i t c) by assumption.
    intros [= <-]. exists ps, i, t, c. repeat split; assumption.
  - intros (ps & i & t & c & -> & Hi & Hne & Ht & Hne' & Hc & ->).
    rewrite (requiredFieldsOk_object ps i t c) by assumption.
    now apply normalizeTodo_object.
Qed.

Lemma validateTodos_array h l :
  validateTodos h (VArray l) = Some (omap (validTodo h) l).
Proof.
  unfold validateTodos.
  assert (exists kept, filterE requiredFieldsOk l = Some kept /\
                       mapM (normalizeTodo h) kept = Some (omap (validTodo h) l))
    as (kept & -> & Hk); [|exact Hk].
  induction l as [|x l (kept & Hf & Hm)]; [exists []; split; reflexivity|].
  simpl. rewrite Hf. unfold validTodo at 1.
  destruct (requiredFieldsOk_total x) as [[|] E]; rewrite E; simpl.
  - destruct (requiredFieldsOk_true _ E) as (ps & i & t & c & -> & Hi & Hne & Ht & Hne' & Hc).
    exists (VObject ps :: kept). split; [reflexivity|].
    rewrite (normalizeTodo_object h ps i t c) by assumption.
    simpl. rewrite (normalizeTodo_object h ps i t c) by assumption.
    simpl. now rewrite Hm.
  - exists kept. split; [reflexivity|exact Hm].
Qed.

(** [validateTodos] returns on every input. *)
Lemma validateTodos_total h todos :
  validateTodos h todos = Some (omap (validTodo h) (itemsOf todos)).
Proof.
  destruct todos; try reflexivity. apply validateTodos_array.
Qed.

Lemma or_else_idem a b : or_else (or_else a b) b = or_else a b.
Proof.
  unfold or_else at 2 3. destruct (truthy a) eqn:E; unfold or_else.
  - now rewrite E.
  - now destruct (truthy b).
Qed.

Lemma truthy_or_else a b : truthy b = true -> truthy (or_else a b) = true.
Proof. intros H. unfold or_else. now destruct (truthy a) eqn:E. Qed.

Lemma normalForm_Normalized h ps id title completed :
  id <> EmptyString -> Normalized (normalForm h ps id title completed).
Proof.
  intros Hne. constructor.
  - exact Hne.
  - apply trim_idem.
  - apply or_else_idem.
  - apply truthy_or_else, truthy_nowISO.
  - apply or_else_idem.
  - now apply truthy_or_else.
  - apply or_else_idem.
Qed.

Lemma validTodo_Normalized h todo r : validTodo h todo = Some r -> Normalized r.
Proof.
  intros (ps & i & t & c & _ & _ & Hne & _ & _ & _ & ->)%validTodo_Some.
  now apply normalForm_Normalized.
Qed.

Lemma validateTodos_Normalized h todos l :
  validateTodos h todos = Some l -> Forall Normalized l.
Proof.
  rewrite validateTodos_total. intros [= <-].
  apply Forall_forall. intros r (x & _ & Hx)%list_elem_of_omap.
  eapply validTodo_Normalized, Hx.
Qed.

(** A normalized record passes the validator unchanged when its title is
    not empty, and is dropped when it is. *)
Lemma validTodo_Normalized_again h r :
  Normalized r ->
  validTodo h r =
  match getProp r "title" with
  | Some (VString EmptyString) => None
  | _ => Some r
  end.
Proof.
  intros [i t c d ca co p tg ds Hi Ht Hd Hca Hco Hp Hds]. simpl.
  destruct t as [|a t'] eqn:Et.
  - unfold validTodo, requiredFieldsOk. simpl.
    now rewrite eqb_empty_false by assumption.
  - rewrite <- Et in *. apply validTodo_Some.
    eexists _, i, t, c. split; [reflexivity|].
    repeat split; try reflexivity; try assumption; [subst t; discriminate|].
    unfold normalForm, prop. simpl. rewrite Ht, Hd, Hco, Hds.
    unfold or_else at 1 2. rewrite Hca, Hp. reflexivity.
Qed.

(** ** JSON *)

Lemma json_object ps : json (VObject ps) = VObject (jsonProps ps).
Proof. reflexivity. Qed.

Lemma jsonProps_cons k x ps :
  jsonProps ((k, x) :: ps) =
  match x with
  | VUndefined => jsonProps ps
  | _ => (k, json x) :: jsonProps ps
  end.
Proof. destruct x; reflexivity. Qed.

Lemma jsonProps_cons_defined k x ps :
  x <> VUndefined -> jsonProps ((k, x) :: ps) = (k, json x) :: jsonProps ps.
Proof. intros H. rewrite jsonProps_cons. now destruct x. Qed.

Lemma json_defined v : json v <> VUndefined.
Proof. destruct v as [| |?|[|?]|?|?|?]; discriminate. Qed.

(** Induction on values through the lists nested in them. *)
Lemma value_nested_ind (P : value -> Prop) :
  P VUndefined -> P VNull -> (forall b, P (VBool b)) -> (forall n, P (VNumber n)) ->
  (forall s, P (VString s)) ->
  (forall l, Forall P l -> P (VArray l)) ->
  (forall ps, Forall (fun kv => P kv.2) ps -> P (VObject ps)) ->
  forall v, P v.
Proof.
  intros Hu Hn Hb Hnum Hs Ha Ho.
  fix IH 1. intros [| |b|n|s|l|ps].
  - exact Hu.
  - exact Hn.
  - apply Hb.
  - apply Hnum.
  - apply Hs.
  - apply Ha. induction l as [|x l IHl]; constructor; [apply IH|exact IHl].
  - apply Ho. induction ps as [|[k x] ps IHps]; constructor; [apply IH|exact IHps].
Qed.

(** Serializing twice is serializing once: what is read back from
    [localStorage] is written back unchanged. *)
Lemma json_idem v : json (json v) = json v.
Proof.
  induction v as [| |b|[|z]|s|l IH|ps IH] using value_nested_ind; try reflexivity.
  - simpl. f_equal. induction IH as [|x l Hx _ IHl]; [reflexivity|].
    simpl. now rewrite Hx, IHl.
  - rewrite !json_object. f_equal.
    induction IH as [|[k x] ps Hx _ IHps]; [reflexivity|].
    rewrite jsonProps_cons. destruct x; try exact IHps;
      (rewrite jsonProps_cons_defined by apply json_defined);
      rewrite IHps; simpl in Hx |- *; congruence.
Qed.

(** A property of a serialized object is a serialized value. *)
Lemma lookupProp_jsonProps k ps x :
  lookupProp k (jsonProps ps) = Some x -> json x = x.
Proof.
  induction ps as [|[k' y] ps IH]; [discriminate|].
  rewrite jsonProps_cons.
  destruct y; try exact IH; simpl lookupProp;
    (destruct (k' =? k)%string; [|exact IH]);
    intros [= <-];
    first [ reflexivity
          | apply (json_idem (VNumber _))
          | apply (json_idem (VArray _))
          | apply (json_idem (VObject _)) ].
Qed.

Lemma truthy_json v : truthy (json v) = truthy v.
Proof. destruct v as [| |?|[|?]|?|?|?]; reflexivity. Qed.

Lemma truthy_defined v : truthy v = true -> v <> VUndefined.
Proof. now intros H ->. Qed.

Lemma or_else_defined v d : or_else v d = v -> d <> VUndefined -> v <> VUndefined.
Proof. intros H Hd ->. now apply Hd. Qed.

Lemma json_todoRecord id title completed dueDate createdAt completedAt priority tags description :
  dueDate <> VUndefined -> createdAt <> VUndefined -> completedAt <> VUndefined ->
  priority <> VUndefined -> description <> VUndefined ->
  json (todoRecord id title completed dueDate createdAt completedAt priority tags description)
  = todoRecord id title completed (json dueDate) (json createdAt) (json completedAt)
      (json priority) (map json tags) (json description).
Proof.
  intros. unfold todoRecord. rewrite json_object.
  rewrite !jsonProps_cons_defined by (assumption || discriminate). reflexivity.
Qed.

(** Serialization of a normalized record acts on its six free fields. *)
Lemma json_Normalized r :
  Normalized r ->
  exists id title completed dueDate createdAt completedAt priority tags description,
    r = todoRecord id title completed dueDate createdAt completedAt priority tags description /\
    json r = todoRecord id title completed (json dueDate) (json createdAt)
               (json completedAt) (json priority) (map json tags) (json description).
Proof.
  intros [i t c d ca co p tg ds Hi Ht Hd Hca Hco Hp Hds].
  exists i, t, c, d, ca, co, p, tg, ds. split; [reflexivity|].
  apply json_todoRecord.
  - now apply (or_else_defined _ _ Hd).
  - now apply truthy_defined.
  - now apply (or_else_defined _ _ Hco).
  - now apply truthy_defined.
  - now apply (or_else_defined _ _ Hds).
Qed.

Lemma or_else_json v d : json d = d -> or_else (json v) d = json (or_else v d).
Proof. intros Hd. unfold or_else. rewrite truthy_json. now destruct (truthy v). Qed.

Lemma Normalized_json r : Normalized r -> Normalized (json r).
Proof.
  intros H. destruct (json_Normalized r H) as (i & t & c & d & ca & co & p & tg & ds & -> & ->).
  inversion H; subst. constructor; try assumption.
  - rewrite or_else_json by reflexivity. congruence.
  - now rewrite truthy_json.
  - rewrite or_else_json by reflexivity. congruence.
  - now rewrite truthy_json.
  - rewrite or_else_json by reflexivity. congruence.
Qed.

(** The validator keeps serialized records serialized. *)
Lemma json_prop_or_else ps k d :
  jsonProps ps = ps -> json d = d -> json (or_else (prop ps k) d) = or_else (prop ps k) d.
Proof.
  intros Hps Hd. unfold prop, or_else.
  destruct (lookupProp k ps) as [x|] eqn:E; simpl; [|exact Hd].
  rewrite <- Hps in E. apply lookupProp_jsonProps in E.
  now destruct (truthy x).
Qed.

Lemma json_items_prop ps k :
  jsonProps ps = ps -> map json (itemsOf (prop ps k)) = itemsOf (prop ps k).
Proof.
  intros Hps. unfold prop.
  destruct (lookupProp k ps) as [x|] eqn:E; simpl; [|reflexivity].
  rewrite <- Hps in E. apply lookupProp_jsonProps in E.
  destruct x; try reflexivity. simpl in *. congruence.
Qed.

Lemma or_else_default_defined v d : d <> VUndefined -> or_else v d <> VUndefined.
Proof.
  intros Hd. unfold or_else. destruct (truthy v) eqn:E; [|exact Hd].
  now apply truthy_defined.
Qed.

Lemma validTodo_json h todo r :
  json todo = todo -> validTodo h todo = Some r -> json r = r.
Proof.
  intros Hj (ps & i & t & c & -> & _ & _ & _ & _ & _ & ->)%validTodo_Some.
  rewrite json_object in Hj. injection Hj as Hps.
  unfold normalForm. rewrite json_todoRecord by (apply or_else_default_defined; discriminate).
  rewrite !json_prop_or_else, json_items_prop by (assumption || reflexivity).
  reflexivity.
Qed.

(** ** Reading the list *)

Lemma validateTodos_bind h (raw : option value) :
  match raw ≫= validateTodos h with Some todos => todos | None => [] end
  = omap (validTodo h) (from_option itemsOf [] raw).
Proof.
  destruct raw as [v|]; [|reflexivity].
  change (Some v ≫= validateTodos h) with (validateTodos h v).
  now rewrite validateTodos_total.
Qed.

Lemma getTodos_rawTodos h st : getTodos h st = omap (validTodo h) (rawTodos st).
Proof.
  unfold getTodos. rewrite validateTodos_bind. f_equal.
  unfold rawTodos. destruct (usingMemoryFallback st); [reflexivity|].
  destruct (lsTodos st) as [| |v]; try reflexivity.
  destruct v as [| |?|[|?]|?|?|?]; reflexivity.
Qed.

Lemma getTodos_Normalized h st : Forall Normalized (getTodos h st).
Proof.
  rewrite getTodos_rawTodos. apply Forall_forall.
  intros r (x & _ & Hx)%list_elem_of_omap. eapply validTodo_Normalized, Hx.
Qed.

Lemma rawTodos_json st :
  usingMemoryFallback st = false -> Forall (fun t => json t = t) (rawTodos st).
Proof.
  intros Hd. unfold rawTodos. rewrite Hd.
  destruct (lsTodos st) as [| |v]; try constructor.
  destruct v as [| |?|[|?]|?|l|?]; try constructor.
  simpl. apply Forall_forall. intros x (y & -> & _)%list_elem_of_fmap.
  apply json_idem.
Qed.

(** In durable mode the todos read are fixed points of serialization. *)
Lemma getTodos_json h st :
  usingMemoryFallback st = false -> Forall (fun t => json t = t) (getTodos h st).
Proof.
  intros Hd. rewrite getTodos_rawTodos. apply Forall_forall.
  intros r (x & Hin & Hx)%list_elem_of_omap.
  eapply validTodo_json; [|exact Hx].
  pose proof (rawTodos_json st Hd) as Hraw.
  rewrite Forall_forall in Hraw. now apply Hraw.
Qed.

(** ** Writing the list *)

Lemma saveTodos_memory h w st todos :
  usingMemoryFallback st = true ->
  saveTodos h w st todos = (true, written h st todos, w).
Proof.
  intros Hm. unfold written, saveTodos, saveTodosWith.
  now rewrite validateTodos_total, Hm.
Qed.

Lemma saveTodos_nil h st todos :
  usingMemoryFallback st = false ->
  saveTodos h [] st todos = (true, written h st todos, []).
Proof.
  intros Hd. unfold written, saveTodos, saveTodosWith.
  now rewrite validateTodos_total, Hd.
Qed.

Lemma saveTodos_stored h w st todos :
  usingMemoryFallback st = false ->
  saveTodos h (Stored :: w) st todos = (true, written h st todos, w).
Proof.
  intros Hd. unfold written, saveTodos, saveTodosWith.
  now rewrite validateTodos_total, Hd.
Qed.

Lemma saveTodos_quota h w st todos :
  usingMemoryFallback st = false ->
  saveTodos h (Throws "QuotaExceededError" :: w) st todos =
  (false, (handleQuotaExceeded h w st).1, (handleQuotaExceeded h w st).2).
Proof.
  intros Hd. unfold saveTodos, saveTodosWith.
  rewrite validateTodos_total, Hd. cbn [String.eqb Ascii.eqb Bool.eqb].
  now destruct (handleQuotaExceeded h w st).
Qed.

Lemma saveTodos_throws h name w st todos :
  usingMemoryFallback st = false ->
  name <> "QuotaExceededError" ->
  saveTodos h (Throws name :: w) st todos = (false, st, w).
Proof.
  intros Hd Hn. unfold saveTodos, saveTodosWith.
  rewrite validateTodos_total, Hd.
  now rewrite (proj2 (String.eqb_neq _ _) Hn).
Qed.

(** A [saveTodos] that returns [true] has written the validated list. *)
Lemma saveTodos_true h w st todos st' w' :
  saveTodos h w st todos = (true, st', w') ->
  st' = written h st todos /\
  w' = if usingMemoryFallback st then w else tail w.
Proof.
  destruct (usingMemoryFallback st) eqn:Hm.
  - rewrite saveTodos_memory by exact Hm. now intros [= <- <-].
  - destruct w as [|[|name] w].
    + rewrite saveTodos_nil by exact Hm. now intros [= <- <-].
    + rewrite saveTodos_stored by exact Hm. now intros [= <- <-].
    + destruct (String.eqb_spec name "QuotaExceededError") as [->|Hn].
      * rewrite saveTodos_quota by exact Hm. intros; discriminate.
      * rewrite saveTodos_throws by assumption. intros; discriminate.
Qed.

Lemma filterE_total (f : value -> option bool) l :
  (forall x, x ∈ l -> exists b, f x = Some b) ->
  filterE f l = Some (filter (fun x => f x = Some true) l).
Proof.
  induction l as [|x l IH]; intros H; [reflexivity|].
  simpl. destruct (H x) as [b Hb]; [left|].
  rewrite Hb, IH by (intros y Hy; apply H; now right). simpl.
  rewrite filter_cons. destruct b; case_decide; congruence.
Qed.

Lemma keepRecent_Normalized h r : Normalized r -> exists b, keepRecent h r = Some b.
Proof.
  intros [i t c d ca co p tg ds _ _ _ _ _ _ _].
  unfold keepRecent. simpl. destruct c; simpl; eexists; reflexivity.
Qed.

(** What [saveTodos] does, whatever the recovery it calls. *)
Lemma saveTodosWith_no_throw recover h w st todos :
  usingMemoryFallback st = true \/ (forall name, head w <> Some (Throws name)) ->
  saveTodosWith recover h w st todos
  = (true, written h st todos, if usingMemoryFallback st then w else tail w).
Proof.
  intros Hw. unfold written, saveTodosWith. rewrite validateTodos_total.
  destruct (usingMemoryFallback st) eqn:Hm; [reflexivity|].
  destruct Hw as [?|Hw]; [discriminate|].
  destruct w as [|[|name] w]; try reflexivity. now destruct (Hw name).
Qed.

Lemma saveTodosWith_quota recover h w st todos :
  usingMemoryFallback st = false ->
  saveTodosWith recover h (Throws "QuotaExceededError" :: w) st todos =
  (false, (recover w st).1, (recover w st).2).
Proof.
  intros Hd. unfold saveTodosWith.
  rewrite validateTodos_total, Hd. cbn [String.eqb Ascii.eqb Bool.eqb].
  now destruct (recover w st).
Qed.

Lemma saveTodosWith_throws recover h name w st todos :
  usingMemoryFallback st = false ->
  name <> "QuotaExceededError" ->
  saveTodosWith recover h (Throws name :: w) st todos = (false, st, w).
Proof.
  intros Hd Hn. unfold saveTodosWith.
  rewrite validateTodos_total, Hd.
  now rewrite (proj2 (String.eqb_neq _ _) Hn).
Qed.

(** One round of the recovery: its [saveTodos] has room for one round
    less. *)
Lemma handleQuotaExceededAt_S depth h w st :
  handleQuotaExceededAt (S depth) h w st =
  if (length (recentTodos h st) <? length (getTodos h st))%nat
  then let r := saveTodosWith (handleQuotaExceededAt depth h) h w st
                  (VArray (recentTodos h st)) in
       (r.1.2, r.2)
  else (st, w).
Proof.
  cbn [handleQuotaExceededAt]. unfold handleQuotaExceededWith, recentTodos.
  rewrite filterE_total.
  - destruct (_ <? _)%nat; [|reflexivity].
    now destruct (saveTodosWith _ _ _ _ _) as [[? ?] ?].
  - intros x Hx. apply keepRecent_Normalized.
    pose proof (getTodos_Normalized h st) as HN.
    rewrite Forall_forall in HN. now apply HN.
Qed.

Lemma handleQuotaExceeded_eq h w st :
  handleQuotaExceeded h w st =
  if (length (recentTodos h st) <? length (getTodos h st))%nat
  then let r := saveTodosWith (handleQuotaExceededAt (stackRounds h) h) h w st
                  (VArray (recentTodos h st)) in
       (r.1.2, r.2)
  else (st, w).
Proof. apply handleQuotaExceededAt_S. Qed.

Lemma usingMemoryFallback_written h st todos :
  usingMemoryFallback (written h st todos) = usingMemoryFallback st.
Proof. unfold written. now destruct (usingMemoryFallback st) eqn:E. Qed.

(** When the writes keep failing for lack of space and a todo can be
    dropped, the rounds of recovery use up the call stack: the store
    falls back to memory with an empty list, after one failed write per
    round. *)
Lemma handleQuotaExceededAt_exhausted h depth : forall w st,
  usingMemoryFallback st = false ->
  (length (recentTodos h st) < length (getTodos h st))%nat ->
  handleQuotaExceededAt depth h
    (replicate depth (Throws "QuotaExceededError") ++ w)%list st
  = (useMemoryFallback st, w).
Proof.
  induction depth as [|depth IH]; intros w st Hm Hlt; [reflexivity|].
  rewrite handleQuotaExceededAt_S.
  apply Nat.ltb_lt in Hlt as Hltb. rewrite Hltb.
  cbn [replicate app]. rewrite saveTodosWith_quota by exact Hm.
  cbn [fst snd]. now rewrite IH.
Qed.

Lemma saveTodos_stack_exhausted h w st todos :
  usingMemoryFallback st = false ->
  (length (recentTodos h st) < length (getTodos h st))%nat ->
  saveTodos h
    (replicate (S (S (stackRounds h))) (Throws "QuotaExceededError") ++ w)%list st todos
  = (false, useMemoryFallback st, w).
Proof.
  intros Hm Hlt. cbn [replicate app]. rewrite saveTodos_quota by exact Hm.
  unfold handleQuotaExceeded.
  change (Throws "QuotaExceededError"
            :: (replicate (stackRounds h) (Throws "QuotaExceededError") ++ w)%list)
    with (replicate (S (stackRounds h)) (Throws "QuotaExceededError") ++ w)%list.
  now rewrite handleQuotaExceededAt_exhausted.
Qed.

(** ** What the store keeps *)

Lemma rawTodos_triggerStorageEvent st type data :
  rawTodos (triggerStorageEvent st type data) = rawTodos st.
Proof. reflexivity. Qed.

Lemma omap_persisted h st l :
  omap (persisted h st) l =
  if usingMemoryFallback st then omap (validTodo h) l
  else map json (omap (validTodo h) l).
Proof.
  unfold persisted.
  induction l as [|x l IH]; [now destruct (usingMemoryFallback st)|].
  cbn [omap list_omap] in *. rewrite IH.
  destruct (validTodo h x); simpl; now destruct (usingMemoryFallback st).
Qed.

Lemma rawTodos_written h st todos :
  rawTodos (written h st todos) = omap (persisted h st) (itemsOf todos).
Proof.
  rewrite omap_persisted. unfold written, validated.
  rewrite rawTodos_triggerStorageEvent.
  unfold rawTodos. destruct (usingMemoryFallback st) eqn:Hm; simpl; now rewrite Hm.
Qed.

(** ** Updating *)

Lemma findIndexE_Some p l i :
  findIndexE p l = Some (Some i) -> exists x, l !! i = Some x /\ p x = Some true.
Proof.
  revert i. induction l as [|y l IH]; intros i; simpl; [intros; discriminate|].
  destruct (p y) as [[|]|] eqn:E; simpl; try (intros; discriminate).
  - intros [= <-]. now exists y.
  - destruct (findIndexE p l) as [[j|]|]; simpl; try (intros; discriminate).
    intros [= <-]. now apply IH.
Qed.

Lemma hasId_Normalized id r :
  Normalized r -> hasId id r = Some true ->
  exists i, id = VString i /\ i <> EmptyString /\ getProp r "id" = Some id.
Proof.
  intros [i t c d ca co p tg ds Hi _ _ _ _ _ _]. unfold hasId. simpl.
  destruct id as [| |?|[|?]|s|?|?]; simpl; try (intros; discriminate).
  intros [= ->%String.eqb_eq]. now exists s.
Qed.

Lemma spread_todoRecord id title completed dueDate createdAt completedAt priority tags description :
  VObject
    (spread
       (todoRecord id title completed dueDate createdAt completedAt priority tags description)
       [])
  = todoRecord id title completed dueDate createdAt completedAt priority tags description.
Proof. reflexivity. Qed.

Lemma applyUpdates_Some h current id updates r :
  applyUpdates h current id updates = Some r ->
  exists ps completed,
    r = VObject ps /\
    getProp updates "completed" = Some completed /\
    lookupProp "id" ps = Some id /\
    (strictEq completed VUndefined = false ->
     lookupProp "completedAt" ps = Some (if truthy completed then nowISO h else VNull)) /\
    (forall k, k <> "id" -> k <> "updatedAt" -> k <> "completedAt" ->
               lookupProp k (ownEntries updates) = None ->
               lookupProp k ps = lookupProp k (spread current [])).
Proof.
  unfold applyUpdates.
  destruct (getProp updates "completed") as [completed|]; simpl; [|intros; discriminate].
  intros [= <-]. eexists _, completed. split; [reflexivity|]. split; [reflexivity|].
  destruct (strictEq completed VUndefined) eqn:E; simpl.
  - split; [|split; [intros; discriminate|]].
    + rewrite lookupProp_setProp_ne by discriminate. apply lookupProp_setProp_eq.
    + intros k H1 H2 H3 Hk.
      rewrite !lookupProp_setProp_ne by congruence. now apply lookupProp_spread.
  - split; [|split; [intros _; apply lookupProp_setProp_eq|]].
    + rewrite !lookupProp_setProp_ne by discriminate. apply lookupProp_setProp_eq.
    + intros k H1 H2 H3 Hk.
      rewrite !lookupProp_setProp_ne by congruence. now apply lookupProp_spread.
Qed.

(** A successful [updateTodo], taken apart. *)
Lemma updateTodo_success h w st id updates r st' w' :
  updateTodo h w st id updates = (r, st', w') ->
  r <> VNull ->
  exists index current,
    getTodos h st !! index = Some current /\
    hasId id current = Some true /\
    applyUpdates h current id updates = Some r /\
    rawTodos st' = omap (persisted h st) (<[index := r]> (getTodos h st)).
Proof.
  unfold updateTodo. intros H Hr.
  destruct (findIndexE (hasId id) (getTodos h st)) as [[index|]|] eqn:Hfind;
    try (injection H as <- _ _; congruence).
  destruct (findIndexE_Some _ _ _ Hfind) as (current & Hcur & Hid).
  rewrite Hcur in H. simpl in H.
  destruct (applyUpdates h current id updates) as [newTodo|] eqn:Happ;
    [|injection H as <- _ _; congruence].
  destruct (saveTodos h w st (VArray (<[index:=newTodo]> (getTodos h st))))
    as [[saved st1] w1] eqn:Hsave.
  destruct saved; [|injection H as <- _ _; congruence].
  injection H as <- <- <-.
  apply saveTodos_true in Hsave as [-> _].
  exists index, current. repeat split; try assumption.
  rewrite rawTodos_triggerStorageEvent. apply rawTodos_written.
Qed.

Lemma json_normalForm h ps id title completed :
  json (normalForm h ps id title completed) =
  todoRecord id (trim title) completed
    (json (or_else (prop ps "dueDate") VNull))
    (json (or_else (prop ps "createdAt") (nowISO h)))
    (json (or_else (prop ps "completedAt") VNull))
    (json (or_else (prop ps "priority") (VString "normal")))
    (map json (itemsOf (prop ps "tags")))
    (json (or_else (prop ps "description") (VString ""))).
Proof.
  unfold normalForm. apply json_todoRecord; apply or_else_default_defined; discriminate.
Qed.

Lemma persisted_Some h st todo kept :
  persisted h st todo = Some kept ->
  exists ps id title completed,
    todo = VObject ps /\
    prop ps "id" = VString id /\ id <> EmptyString /\
    prop ps "title" = VString title /\ title <> EmptyString /\
    prop ps "completed" = VBool completed /\
    kept = if usingMemoryFallback st then normalForm h ps id title completed
           else json (normalForm h ps id title completed).
Proof.
  unfold persisted. destruct (validTodo h todo) as [r|] eqn:E; simpl; [|intros; discriminate].
  intros [= <-].
  apply validTodo_Some in E as (ps & i & t & c & -> & Hi & Hne & Ht & Hne' & Hc & ->).
  exists ps, i, t, c. repeat split; assumption.
Qed.

Lemma prop_lookup ps k v : lookupProp k ps = Some v -> prop ps k = v.
Proof. unfold prop. now intros ->. Qed.

(** ** C1: the validator and blank titles *)

(** A record whose title is not empty but trims to the empty string is
    kept, with the empty title. *)
Lemma validTodo_blank_title h id title completed :
  id <> EmptyString -> title <> EmptyString -> trim title = EmptyString ->
  validTodo h (bareTodo id title completed)
  = Some (todoRecord id "" completed VNull (nowISO h) VNull (VString "normal") []
            (VString "")).
Proof.
  intros Hid Htitle Htrim. apply validTodo_Some.
  exists [("id", VString id); ("title", VString title); ("completed", VBool completed)],
    id, title, completed.
  repeat split; try assumption.
  unfold normalForm. now rewrite Htrim.
Qed.

(** C1, on the code.  A title of white space only passes the filter of
    [validateTodos], which tests it before trimming, and leaves the
    validator empty: a member of the result has an empty title.  The
    validator drops that member when it sees it again. *)
Theorem validateTodos_blank_title :
  validateTodos exampleHost (VArray [bareTodo "a" " " false])
  = Some [todoRecord "a" "" false VNull (nowISO exampleHost) VNull
            (VString "normal") [] (VString "")] /\
  validateTodos exampleHost
    (VArray [todoRecord "a" "" false VNull (nowISO exampleHost) VNull
               (VString "normal") [] (VString "")])
  = Some [].
Proof. split; vm_compute; reflexivity. Qed.

(** ** C2: adding a todo with a blank title *)

(** When no write fails, [addTodo] returns the record it built whenever
    it could build it; the title is not examined. *)
Lemma addTodo_returns_newTodo h st todoData newTodo :
  newTodoOf h todoData = Some newTodo ->
  (addTodo h [] st todoData).1.1 = newTodo.
Proof.
  intros Hnew. unfold addTodo. rewrite Hnew.
  destruct (usingMemoryFallback st) eqn:Hm.
  - now rewrite saveTodos_memory.
  - now rewrite saveTodos_nil.
Qed.

(** C2, on the code.  [addTodo] with a title of white space only returns
    the new record, with an empty title, and announces it, although
    [saveTodos] has dropped it from the list it wrote. *)
Theorem addTodo_blank_title_returned :
  let '(r, st', _) := addTodo exampleHost [] emptyStore (VObject [("title", VString "   ")]) in
  r = todoRecord "1709210096789k3j9x0q2a" "" false VNull (nowISO exampleHost) VNull
        (VString "normal") [] (VString "") /\
  r <> VNull /\
  head (dispatched st') = Some ("todo_added", r) /\
  getTodos exampleHost st' = [] /\
  getTodo exampleHost st' (VString "1709210096789k3j9x0q2a") = Some VNull.
Proof. vm_compute. repeat split. discriminate. Qed.

(** ** C3: the migration *)

Lemma migrateTodo_Normalized h k migrated r :
  Normalized r -> migrateTodo h (k, migrated) r = Some (k, migrated, r).
Proof.
  intros [i t c d ca co p tg ds Hi _ _ Hca _ _ _].
  unfold migrateTodo. simpl. rewrite eqb_empty_false by exact Hi. simpl.
  rewrite Hca. reflexivity.
Qed.

Lemma migrateAll_Normalized h k migrated l :
  Forall Normalized l -> migrateAll h (k, migrated) l = Some (migrated, l).
Proof.
  induction 1 as [|r l Hr _ IH]; [reflexivity|].
  cbn [migrateAll]. rewrite (migrateTodo_Normalized h k migrated r Hr). simpl.
  rewrite IH. reflexivity.
Qed.

(** [performMigrations] reads the todos through [getTodos], whose
    validator has already dropped or completed every record the
    migration looks for: it never sets [migrated], never saves. *)
Lemma performMigrations_noop h w st fromVersion :
  performMigrations h w st fromVersion = Some (st, w).
Proof.
  unfold performMigrations.
  destruct (beforeVersion1 fromVersion); [|reflexivity].
  now rewrite (migrateAll_Normalized h O false _ (getTodos_Normalized h st)).
Qed.

(** C3, on the code.  Initialization of a store of version 0.9.0 with
    legacy records enters the migration, backfills nothing and does not
    save the list: the item of the todos is as it was, no [todos_updated]
    event was sent, the legacy records stay invisible to [getTodos]; only
    the version of the settings is raised. *)
Theorem initializeStorage_migrates_nothing :
  let '(st', _) := initializeStorage exampleHost [] legacyStore in
  beforeVersion1 (VString "0.9.0") = true /\
  lsTodos st' = lsTodos legacyStore /\
  map fst (dispatched st') = ["settings_updated"] /\
  getTodos exampleHost st' = [] /\
  getProp (getSettings st') "version" = Some (VString "1.0.0").
Proof. vm_compute. repeat split. Qed.

(** ** C4: completedAt follows the completed flag *)



(** ** C5: what an update leaves alone *)

Lemma json_fixed_createdAt r :
  Normalized r -> json r = r ->
  exists createdAt, getProp r "createdAt" = Some createdAt /\
                    truthy createdAt = true /\ json createdAt = createdAt.
Proof.
  intros [i t c d ca co p tg ds Hi Ht Hd Hca Hco Hp Hds] Hj.
  rewrite json_todoRecord in Hj
    by first [ now apply truthy_defined
             | eapply or_else_defined; [eassumption|discriminate] ].
  injection Hj as _ Hjca _ _ _ _.
  exists ca. auto.
Qed.

(** C5, as the code has it.  A successful [updateTodo] leaves the [id] of
    the record unchanged, in the returned record and in the record the
    store keeps, even when the partial has an [id] key; [createdAt] is
    left unchanged when the partial has no [createdAt] key of its own. *)
Theorem updateTodo_keeps_id h w st id updates r st' w' :
  updateTodo h w st id updates = (r, st', w') ->
  r <> VNull ->
  exists index old,
    getTodos h st !! index = Some old /\
    getProp old "id" = Some id /\
    rawTodos st' = omap (persisted h st) (<[index := r]> (getTodos h st)) /\
    getProp r "id" = Some id /\
    (lookupProp "createdAt" (ownEntries updates) = None ->
     getProp r "createdAt" = getProp old "createdAt") /\
    (forall kept, persisted h st r = Some kept ->
       getProp kept "id" = Some id /\
       (lookupProp "createdAt" (ownEntries updates) = None ->
        getProp kept "createdAt" = getProp old "createdAt")).
Proof.
  intros Hupd Hr.
  destruct (updateTodo_success _ _ _ _ _ _ _ _ Hupd Hr)
    as (index & old & Hold & Hid & Happ & Hraw).
  assert (Normalized old) as HN.
  { pose proof (getTodos_Normalized h st) as HF. rewrite Forall_forall in HF.
    apply HF. eapply list_elem_of_lookup_2, Hold. }
  destruct (hasId_Normalized _ _ HN Hid) as (i & -> & Hi & Hoid).
  apply applyUpdates_Some in Happ as (qs & completed & -> & _ & Hqid & _ & Hother).
  assert (lookupProp "createdAt" (ownEntries updates) = None ->
          Some (prop qs "createdAt") = getProp old "createdAt") as Hca.
  { intros Hno. unfold prop. rewrite Hother by (discriminate || assumption).
    inversion HN; subst. reflexivity. }
  exists index, old.
  split; [exact Hold|]. split; [exact Hoid|]. split; [exact Hraw|].
  split; [simpl; now rewrite Hqid|]. split.
  - intros Hno. rewrite <- Hca by exact Hno. reflexivity.
  - intros kept (qs' & i' & t & c & [= <-] & Hi' & _ & _ & _ & _ & ->)%persisted_Some.
    rewrite (prop_lookup _ _ _ Hqid) in Hi'. injection Hi' as <-.
    split.
    + destruct (usingMemoryFallback st); [reflexivity|].
      now rewrite json_normalForm.
    + intros Hno. specialize (Hca Hno).
      destruct (usingMemoryFallback st) eqn:Hm.
      * destruct HN as [i0 t0 c0 d ca co p tg ds Hi0 Ht Hd Htr Hco Hp Hds].
        simpl in Hca. injection Hca as Hca.
        unfold normalForm. simpl. rewrite Hca. unfold or_else.
        now rewrite Htr.
      * assert (json old = old) as Hj.
        { pose proof (getTodos_json h st Hm) as HF. rewrite Forall_forall in HF.
          apply HF. eapply list_elem_of_lookup_2, Hold. }
        destruct (json_fixed_createdAt old HN Hj) as (ca & Hget & Htr & Hjca).
        rewrite Hget in *. injection Hca as Hca.
        rewrite json_normalForm. simpl. rewrite Hca. unfold or_else.
        now rewrite Htr, Hjca.
Qed.

Lemma updateTodo_keeps_id_witness :
  getProp (updateTodo exampleHost [] datedStore (VString "a") renamingUpdate).1.1 "id"
  = Some (VString "a") /\
  exists old,
    getProp old "id" = Some (VString "a") /\
    getProp (updateTodo exampleHost [] datedStore (VString "a") renamingUpdate).1.1 "createdAt"
    = getProp old "createdAt".
Proof.
  destruct (updateTodo_keeps_id exampleHost [] datedStore (VString "a") renamingUpdate
              (updateTodo exampleHost [] datedStore (VString "a") renamingUpdate).1.1
              _ _ ltac:(vm_compute; reflexivity) ltac:(vm_compute; discriminate))
    as (index & old & Hold & Hoid & _ & Hid & Hca & _).
  split; [exact Hid|]. exists old. split; [exact Hoid|exact (Hca eq_refl)].
Defined.

(** C5 as stated fails: a [createdAt] in the partial replaces the stored
    one. *)
Lemma updateTodo_createdAt_not_immutable :
  ~ (forall h w st id updates r st' w' old new,
       updateTodo h w st id updates = (r, st', w') ->
       r <> VNull ->
       getTodo h st id = Some old ->
       getTodo h st' id = Some new ->
       getProp new "id" = getProp old "id" /\
       getProp new "createdAt" = getProp old "createdAt").
Proof.
  intros H.
  specialize (H exampleHost [] datedStore (VString "a")
                (VObject [("createdAt", VString "1999-12-31T00:00:00.000Z")])
                _ _ _ _ _
                ltac:(vm_compute; reflexivity) ltac:(vm_compute; discriminate)
                ltac:(vm_compute; reflexivity) ltac:(vm_compute; reflexivity)).
  vm_compute in H. destruct H as [_ H]. discriminate H.
Qed.

(** ** C6: updatedAt *)

Lemma getTodos_no_updatedAt h st r :
  r ∈ getTodos h st -> getProp r "updatedAt" = Some VUndefined.
Proof.
  intros Hin. pose proof (getTodos_Normalized h st) as HF.
  rewrite Forall_forall in HF. now destruct (HF r Hin).
Qed.

(** C6, on the code.  [updateTodo] returns a record with [updatedAt], but
    the validator run by [saveTodos] writes the nine fields only: the
    record read back by [getTodo] and [getTodos] has no [updatedAt]. *)
Theorem updateTodo_updatedAt_not_persisted :
  let '(r, st', _) :=
    updateTodo exampleHost [] (storeOf [bareTodo "a" "Write report" false]) (VString "a")
      (VObject [("title", VString "Write the report")]) in
  getProp r "updatedAt" = Some (VString "2024-02-29T12:34:56.789Z") /\
  (getTodo exampleHost st' (VString "a") ≫= fun t => getProp t "title")
    = Some (VString "Write the report") /\
  (getTodo exampleHost st' (VString "a") ≫= fun t => getProp t "updatedAt")
    = Some VUndefined /\
  Forall (fun t => getProp t "updatedAt" = Some VUndefined) (getTodos exampleHost st').
Proof.
  vm_compute. repeat split. repeat constructor.
Qed.

(** ** C7: quota recovery *)

Lemma keepRecent_completedLongAgo h todo :
  completedLongAgo h todo -> keepRecent h todo = Some false.
Proof.
  intros (co & ca & d & Hc & Hco & Hca & Hd & Hlt).
  unfold keepRecent. rewrite Hc, Hco, Hca. simpl. rewrite Hd.
  f_equal. rewrite Z.gtb_ltb. apply Z.ltb_ge. lia.
Qed.

(** In durable mode a todo read from the store is a fixed point of
    validation and serialization, unless its title is empty. *)
Lemma getTodos_fixed h st x :
  usingMemoryFallback st = false ->
  x ∈ getTodos h st ->
  (getProp x "title" = Some (VString "") /\ validTodo h x = None /\ persisted h st x = None) \/
  (getProp x "title" <> Some (VString "") /\ validTodo h x = Some x /\ persisted h st x = Some x).
Proof.
  intros Hm Hin.
  pose proof (getTodos_Normalized h st) as HN. rewrite Forall_forall in HN.
  pose proof (getTodos_json h st Hm) as HJ. rewrite Forall_forall in HJ.
  specialize (HN x Hin). specialize (HJ x Hin).
  pose proof (validTodo_Normalized_again h x HN) as Hv. unfold persisted.
  destruct (getProp x "title") as [[| |?|?|[|c s]|?|?]|];
    rewrite Hv; cbn [mbind option_bind]; rewrite ?Hm, ?HJ;
    first [ left; repeat split; reflexivity
          | right; repeat split; (reflexivity || discriminate) ].
Qed.

Lemma getTodos_written_sublist h st l :
  usingMemoryFallback st = false ->
  (forall x, x ∈ l -> x ∈ getTodos h st) ->
  forall todo,
    todo ∈ getTodos h (written h st (VArray l)) <->
    todo ∈ l /\ getProp todo "title" <> Some (VString "").
Proof.
  intros Hm Hsub todo.
  rewrite getTodos_rawTodos, rawTodos_written. cbn [itemsOf].
  rewrite list_elem_of_omap. split.
  - intros (y & (x & Hx & Hpx)%list_elem_of_omap & Hy).
    destruct (getTodos_fixed h st x Hm (Hsub x Hx)) as [(_ & _ & Hp) | (Ht & Hv & Hp)];
      rewrite Hp in Hpx; [discriminate|].
    injection Hpx as <-. rewrite Hv in Hy. injection Hy as <-. now split.
  - intros [Hin Ht].
    destruct (getTodos_fixed h st todo Hm (Hsub todo Hin)) as [(Ht' & _) | (_ & Hv & Hp)];
      [contradiction|].
    exists todo. split; [|exact Hv].
    apply list_elem_of_omap. now exists todo.
Qed.

(** The thirty-day test of the recovery keeps the todos that are not
    completed and those completed less than thirty days ago, and no
    other. *)
Lemma keepRecent_kept h todo :
  stillPending todo \/ completedRecently h todo -> keepRecent h todo = Some true.
Proof.
  unfold keepRecent.
  intros [Hp | (co & ca & d & Hc & Hco & Hca & Hd & Hlt)].
  - unfold stillPending in Hp. now rewrite Hp.
  - rewrite Hc, Hco, Hca. cbn [mbind option_bind truthy negb]. rewrite Hd.
    f_equal. apply Z.gtb_lt. lia.
Qed.

Lemma keepRecent_Normalized_kept h todo :
  Normalized todo -> keepRecent h todo = Some true ->
  stillPending todo \/ completedRecently h todo.
Proof.
  intros [i t c d ca co p tg ds _ _ _ _ _ _ _]. unfold keepRecent.
  destruct c; simpl; [|intros _; now left].
  destruct (dateTime h _) as [date|] eqn:Hd; [|intros; discriminate].
  intros [= Hgt%Z.gtb_lt]. right. exists co, ca, date. repeat split; [exact Hd|lia].
Qed.

Lemma recentTodos_kept h st todo :
  todo ∈ recentTodos h st <->
  todo ∈ getTodos h st /\ (stillPending todo \/ completedRecently h todo).
Proof.
  unfold recentTodos. rewrite list_elem_of_filter.
  pose proof (getTodos_Normalized h st) as HN. rewrite Forall_forall in HN.
  split.
  - intros [Hk Hin]. split; [exact Hin|]. now apply keepRecent_Normalized_kept; auto.
  - intros [Hin Hkept]. split; [now apply keepRecent_kept|exact Hin].
Qed.

(** The recovery, when its own write succeeds: the store then holds only
    todos it held before, none of them completed more than thirty days
    ago; every todo that is not completed, or was completed less than
    thirty days ago, is still there (unless its title is empty); and if
    a todo was completed that long ago, the reduced list has been written
    and announced. *)
Lemma handleQuotaExceeded_cleanup h w st :
  usingMemoryFallback st = false ->
  (forall name, head w <> Some (Throws name)) ->
  (forall todo, todo ∈ getTodos h (handleQuotaExceeded h w st).1 ->
     todo ∈ getTodos h st /\ ~ completedLongAgo h todo) /\
  (forall todo, todo ∈ getTodos h st ->
     stillPending todo \/ completedRecently h todo ->
     getProp todo "title" <> Some (VString "") ->
     todo ∈ getTodos h (handleQuotaExceeded h w st).1) /\
  ((exists todo, todo ∈ getTodos h st /\ completedLongAgo h todo) ->
   rawTodos (handleQuotaExceeded h w st).1
   = omap (persisted h st) (recentTodos h st) /\
   head (dispatched (handleQuotaExceeded h w st).1)
   = Some ("todos_updated", VArray (validated h (VArray (recentTodos h st)))) /\
   (handleQuotaExceeded h w st).2 = tail w).
Proof.
  intros Hm Hw.
  assert (forall todo, todo ∈ getTodos h st -> completedLongAgo h todo ->
            (length (recentTodos h st) <? length (getTodos h st))%nat = true) as Hshort.
  { intros todo Hin Hago%keepRecent_completedLongAgo. apply Nat.ltb_lt.
    unfold recentTodos.
    apply (length_filter_lt (fun x => keepRecent h x = Some true) _ todo Hin).
    congruence. }
  rewrite handleQuotaExceeded_eq.
  destruct (length (recentTodos h st) <? length (getTodos h st))%nat eqn:Hlt.
  - rewrite saveTodosWith_no_throw by now right. rewrite Hm.
    cbn [fst snd].
    assert (forall x, x ∈ recentTodos h st -> x ∈ getTodos h st) as Hsub
      by (intros x Hx; now apply list_elem_of_filter in Hx).
    pose proof (getTodos_written_sublist h st (recentTodos h st) Hm Hsub) as Hiff.
    split; [|split].
    + intros todo [Hin _]%Hiff. split; [now apply Hsub|].
      apply list_elem_of_filter in Hin as [Hk _].
      intros Hago%keepRecent_completedLongAgo. congruence.
    + intros todo Hin Hk Ht. apply Hiff. split; [|exact Ht].
      now apply recentTodos_kept.
    + intros _. split; [apply rawTodos_written|]. split; reflexivity.
  - cbn [fst snd]. split; [|split].
    + intros todo Hin. split; [exact Hin|].
      intros Hago. specialize (Hshort todo Hin Hago). discriminate.
    + intros todo Hin _ _. exact Hin.
    + intros (todo & Hin & Hago). specialize (Hshort todo Hin Hago). discriminate.
Qed.

(** C7.  In durable mode, when the write of [addTodo] fails for lack of
    space and the next write succeeds, [addTodo] returns [null] after the
    recovery has run, as does the [saveTodos] of any other mutation.  The
    store then holds only todos it held before, none of them completed
    more than thirty days ago.  Every todo that is not completed, and
    every todo completed less than thirty days ago (by its [completedAt],
    or by its [createdAt] when there is no [completedAt]), is still there
    (unless its title is empty).  If a todo was completed more than
    thirty days ago, the reduced list has been written and announced; and
    the reduced list is the earlier list, in its order, restricted to the
    todos that are not completed or were completed less than thirty days
    ago. *)
Theorem addTodo_quota_recovery h w st todoData newTodo r st' w' :
  usingMemoryFallback st = false ->
  newTodoOf h todoData = Some newTodo ->
  (forall name, head w <> Some (Throws name)) ->
  addTodo h (Throws "QuotaExceededError" :: w) st todoData = (r, st', w') ->
  r = VNull /\
  (forall todos,
     saveTodos h (Throws "QuotaExceededError" :: w) st todos = (false, st', w')) /\
  (forall todo, todo ∈ getTodos h st' ->
     todo ∈ getTodos h st /\ ~ completedLongAgo h todo) /\
  (forall todo, todo ∈ getTodos h st ->
     stillPending todo \/ completedRecently h todo ->
     getProp todo "title" <> Some (VString "") -> todo ∈ getTodos h st') /\
  ((exists todo, todo ∈ getTodos h st /\ completedLongAgo h todo) ->
   rawTodos st' = omap (persisted h st) (recentTodos h st) /\
   head (dispatched st') = Some ("todos_updated", VArray (validated h (VArray (recentTodos h st)))) /\
   w' = tail w) /\
  recentTodos h st `sublist_of` getTodos h st /\
  (forall todo,
     todo ∈ recentTodos h st <->
     todo ∈ getTodos h st /\ (stillPending todo \/ completedRecently h todo)).
Proof.
  intros Hm Hnew Hw Hadd.
  unfold addTodo in Hadd. rewrite Hnew in Hadd.
  rewrite saveTodos_quota in Hadd by exact Hm. injection Hadd as <- <- <-.
  split; [reflexivity|].
  split; [intros todos; now apply saveTodos_quota|].
  destruct (handleQuotaExceeded_cleanup h w st Hm Hw) as (H1 & H2 & H3).
  repeat (split; [assumption|]).
  split; [apply sublist_filter|]. apply recentTodos_kept.
Qed.

Lemma addTodo_quota_recovery_witness :
  quotaRun.1.1 = VNull /\
  rawTodos quotaRun.1.2
  = omap (persisted exampleHost staleStore) (recentTodos exampleHost staleStore).
Proof.
  destruct (addTodo_quota_recovery exampleHost [] staleStore
              (VObject [("title", VString "Plan trip")])
              (todoRecord "1709210096789k3j9x0q2a" "Plan trip" false VNull
                 (nowISO exampleHost) VNull (VString "normal") [] (VString ""))
              quotaRun.1.1 quotaRun.1.2 quotaRun.2)
    as (Hr & _ & _ & _ & Hwritten & _).
  - reflexivity.
  - vm_compute. reflexivity.
  - intros name. simpl. discriminate.
  - vm_compute. reflexivity.
  - split; [exact Hr|]. apply Hwritten.
    exists (todoRecord "old" "File taxes" true VNull (VString "2020-01-01T00:00:00.000Z")
              (VString "2020-01-01T00:00:00.000Z") (VString "normal") [] (VString "")).
    split.
    + vm_compute. left.
    + exists (VString "2020-01-01T00:00:00.000Z"), (VString "2020-01-01T00:00:00.000Z"),
        1577836800000.
      repeat split; try reflexivity.
Defined.

(** ** C8: a recovery that cannot save *)

(** C8, on the code.  The write of [addTodo] fails for lack of space, the
    recovery removes the stale todo from its list and its own write
    fails too: [saveTodos] returns [false] to [handleQuotaExceeded],
    which ignores it; the store stays on [localStorage], with the item
    unchanged. *)
Theorem addTodo_failed_recovery_keeps_backend :
  let '(r, st', w') :=
    addTodo exampleHost [Throws "QuotaExceededError"; Throws "UnknownError"] staleStore
      (VObject [("title", VString "Plan trip")]) in
  length (recentTodos exampleHost staleStore) = 1%nat /\
  length (getTodos exampleHost staleStore) = 2%nat /\
  r = VNull /\
  w' = [] /\
  usingMemoryFallback st' = false /\
  lsTodos st' = lsTodos staleStore.
Proof. vm_compute. repeat split. Qed.

(** ** C9: add, then get *)

(** C9 as stated fails: [addTodo] returns the record it built, the store
    keeps the validator's image of it; a [tags] that is not an array is
    returned as given and stored as the empty array. *)
Lemma addTodo_getTodo_not_equal :
  ~ (forall h w st todoData r st' w' id,
       addTodo h w st todoData = (r, st', w') ->
       r <> VNull ->
       getProp r "id" = Some id ->
       getTodo h st' id = Some r).
Proof.
  intros H.
  specialize (H exampleHost [] emptyStore
                (VObject [("title", VString "Buy milk"); ("tags", VString "shopping")])
                _ _ _ _
                ltac:(vm_compute; reflexivity) ltac:(vm_compute; discriminate)
                ltac:(vm_compute; reflexivity)).
  vm_compute in H. discriminate H.
Qed.

Lemma newTodoOf_Some h todoData newTodo :
  newTodoOf h todoData = Some newTodo ->
  exists title dueDate priority tags description,
    getProp todoData "title" = Some (VString title) /\
    getProp todoData "dueDate" = Some dueDate /\
    getProp todoData "priority" = Some priority /\
    getProp todoData "tags" = Some tags /\
    getProp todoData "description" = Some description /\
    newTodo =
      VObject
        [ ("id", generateId h 0);
          ("title", VString (trim title));
          ("completed", VBool false);
          ("dueDate", or_else dueDate VNull);
          ("createdAt", nowISO h);
          ("completedAt", VNull);
          ("priority", or_else priority (VString "normal"));
          ("tags", or_else tags (VArray []));
          ("description", or_else description (VString "")) ].
Proof.
  unfold newTodoOf.
  destruct (getProp todoData "title") as [[| |?|?|title|?|?]|]; simpl;
    try (intros; discriminate).
  destruct (getProp todoData "dueDate") as [dueDate|]; simpl; [|intros; discriminate].
  destruct (getProp todoData "priority") as [priority|]; simpl; [|intros; discriminate].
  destruct (getProp todoData "tags") as [tags|]; simpl; [|intros; discriminate].
  destruct (getProp todoData "description") as [description|]; simpl; [|intros; discriminate].
  intros [= <-]. exists title, dueDate, priority, tags, description.
  repeat split; reflexivity.
Qed.

Lemma json_or_else_stable x d :
  (truthy x = true -> json x = x) -> json d = d -> json (or_else x d) = or_else x d.
Proof. intros Hx Hd. unfold or_else. destruct (truthy x); auto. Qed.

(** C9, as the code has it.  When the title is not empty after trimming,
    [tags] is absent (falsy) or an array and, in durable mode, the
    optional fields survive serialization, a successful [addTodo]
    followed by [getTodo] with the returned [id] yields the returned
    record. *)
Theorem addTodo_then_getTodo h h' w st todoData r st' w' id :
  addTodo h w st todoData = (r, st', w') ->
  r <> VNull ->
  (forall title, getProp todoData "title" = Some (VString title) -> trim title <> EmptyString) ->
  (forall tags, getProp todoData "tags" = Some tags -> truthy tags = true -> isArray tags = true) ->
  (usingMemoryFallback st = false -> survivesJSON todoData) ->
  getProp r "id" = Some id ->
  getTodo h' st' id = Some r.
Proof.
  intros Hadd Hr Htitle Htags Hjson Hid.
  unfold addTodo in Hadd.
  destruct (newTodoOf h todoData) as [nt|] eqn:Hnew; [|injection Hadd as <- _ _; congruence].
  destruct (saveTodos h w st (VArray (nt :: getTodos h st))) as [[saved st1] w1] eqn:Hsave.
  destruct saved; [|injection Hadd as <- _ _; congruence].
  injection Hadd as <- <- <-.
  apply saveTodos_true in Hsave as [-> _].
  apply newTodoOf_Some in Hnew as (title & d & p & tg & ds & Ht & Hd & Hp & Htg & Hds & ->).
  specialize (Htitle _ Ht). specialize (Htags _ Htg).
  assert (exists l, or_else tg (VArray []) = VArray l) as [l Hl].
  { unfold or_else. destruct (truthy tg); [|now exists []].
    destruct tg; try discriminate (Htags eq_refl). eauto. }
  rewrite Hl in *. unfold generateId in *.
  set (i := (intToString (now h) ++ random36 h 0)%string) in *.
  change (VObject _) with
    (todoRecord i (trim title) false (or_else d VNull) (nowISO h) VNull
       (or_else p (VString "normal")) l (or_else ds (VString ""))) in *.
  set (nt := todoRecord _ _ _ _ _ _ _ _ _) in *.
  assert (Normalized nt) as HN.
  { constructor.
    - apply append_nonempty_l, intToString_nonempty.
    - apply trim_idem.
    - apply or_else_idem.
    - apply truthy_nowISO.
    - reflexivity.
    - now apply truthy_or_else.
    - apply or_else_idem. }
  assert (forall hh, validTodo hh nt = Some nt) as Hvalid.
  { intros hh. rewrite validTodo_Normalized_again by exact HN. simpl.
    now destruct (trim title). }
  assert (persisted h st nt = Some nt) as Hkept.
  { unfold persisted. rewrite Hvalid. cbn [mbind option_bind].
    destruct (usingMemoryFallback st) eqn:Hm; [reflexivity|].
    specialize (Hjson eq_refl). unfold survivesJSON in Hjson.
    rewrite !Forall_cons in Hjson. destruct Hjson as (Jd & Jp & Jt & Jds & _).
    unfold nt.
    rewrite json_todoRecord
      by first [ discriminate
               | apply or_else_default_defined; discriminate
               | apply truthy_defined, truthy_nowISO ].
    rewrite !json_or_else_stable by (reflexivity || auto).
    assert (json (or_else tg (VArray [])) = or_else tg (VArray [])) as Jl
      by (apply json_or_else_stable; [auto|reflexivity]).
    rewrite Hl in Jl. simpl in Jl. injection Jl as ->. reflexivity. }
  unfold getTodo. rewrite getTodos_rawTodos, rawTodos_triggerStorageEvent, rawTodos_written.
  cbn [itemsOf omap list_omap]. rewrite Hkept.
  cbn [omap list_omap]. rewrite Hvalid.
  cbn [findE]. simpl in Hid. injection Hid as <-.
  unfold hasId. simpl. now rewrite String.eqb_refl.
Qed.

Lemma addTodo_then_getTodo_witness :
  getTodo exampleHost
    (addTodo exampleHost [] (storeOf [bareTodo "a" "Write report" false]) milkData).1.2
    (VString "1709210096789k3j9x0q2a")
  = Some (addTodo exampleHost [] (storeOf [bareTodo "a" "Write report" false]) milkData).1.1.
Proof.
  apply (addTodo_then_getTodo exampleHost exampleHost []
           (storeOf [bareTodo "a" "Write report" false]) milkData _ _
           (addTodo exampleHost [] (storeOf [bareTodo "a" "Write report" false]) milkData).2).
  - vm_compute. reflexivity.
  - vm_compute. discriminate.
  - vm_compute. intros title [= <-]. discriminate.
  - vm_compute. intros tags [= <-] _. reflexivity.
  - intros _. repeat constructor; vm_compute; intros x [= <-]; discriminate || reflexivity.
  - vm_compute. reflexivity.
Defined.

(** ** C10: what saveTodos writes *)

Lemma persisted_fieldNames h st todo r :
  persisted h st todo = Some r ->
  requiredFieldsOk todo = Some true /\ fieldNames r = todoFields.
Proof.
  intros (ps & i & t & c & -> & Hi & Hne & Ht & Hne' & Hc & ->)%persisted_Some.
  split; [now apply (requiredFieldsOk_object ps i t c)|].
  destruct (usingMemoryFallback st); [reflexivity|].
  now rewrite json_normalForm.
Qed.

Lemma saveTodosWith_rawTodos recover h w st todos :
  (forall w', rawTodos (recover w' st).1 = rawTodos st \/
              exists l, rawTodos (recover w' st).1 = omap (persisted h st) l) ->
  rawTodos (saveTodosWith recover h w st todos).1.2 = rawTodos st \/
  exists l, rawTodos (saveTodosWith recover h w st todos).1.2 = omap (persisted h st) l.
Proof.
  intros Hrec. destruct (usingMemoryFallback st) eqn:Hm.
  - rewrite saveTodosWith_no_throw by now left.
    right. eexists. apply rawTodos_written.
  - destruct w as [|[|name] w].
    + rewrite saveTodosWith_no_throw by (right; discriminate).
      right. eexists. apply rawTodos_written.
    + rewrite saveTodosWith_no_throw by (right; discriminate).
      right. eexists. apply rawTodos_written.
    + destruct (String.eqb_spec name "QuotaExceededError") as [->|Hn].
      * rewrite saveTodosWith_quota by exact Hm. apply Hrec.
      * rewrite saveTodosWith_throws by assumption. now left.
Qed.

(** Whatever its outcome, the recovery leaves the stored list as it was
    or replaces it by a list that went through the validator: the list
    it saved, or the empty list of the memory fallback. *)
Lemma handleQuotaExceededAt_rawTodos h depth : forall w st,
  rawTodos (handleQuotaExceededAt depth h w st).1 = rawTodos st \/
  exists l, rawTodos (handleQuotaExceededAt depth h w st).1 = omap (persisted h st) l.
Proof.
  induction depth as [|depth IH]; intros w st.
  - right. now exists [].
  - rewrite handleQuotaExceededAt_S.
    destruct (_ <? _)%nat; cbn [fst snd]; [|now left].
    apply saveTodosWith_rawTodos. intros w'. apply IH.
Qed.

(** Whatever its outcome, [saveTodos] leaves the stored list as it was
    or replaces it by a list that went through the validator. *)
Lemma saveTodos_rawTodos h w : forall st todos,
  rawTodos (saveTodos h w st todos).1.2 = rawTodos st \/
  exists l, rawTodos (saveTodos h w st todos).1.2 = omap (persisted h st) l.
Proof.
  intros st todos. unfold saveTodos. apply saveTodosWith_rawTodos.
  intros w'. apply handleQuotaExceededAt_rawTodos.
Qed.

Lemma saveTodos_storesValidated h w st todos :
  storesValidated h st (saveTodos h w st todos).1.2.
Proof. apply saveTodos_rawTodos. Qed.

Lemma addTodo_storesValidated h w st todoData :
  storesValidated h st (addTodo h w st todoData).1.2.
Proof.
  unfold addTodo. destruct (newTodoOf h todoData) as [newTodo|]; [|now left].
  pose proof (saveTodos_storesValidated h w st (VArray (newTodo :: getTodos h st))) as H.
  destruct (saveTodos h w st _) as [[[|] st1] w1]; exact H.
Qed.

Lemma updateTodo_storesValidated h w st id updates :
  storesValidated h st (updateTodo h w st id updates).1.2.
Proof.
  unfold updateTodo.
  destruct (findIndexE (hasId id) (getTodos h st)) as [[index|]|]; try now left.
  destruct (applyUpdates h _ id updates) as [newTodo|]; [|now left].
  pose proof (saveTodos_storesValidated h w st
                (VArray (<[index := newTodo]> (getTodos h st)))) as H.
  destruct (saveTodos h w st _) as [[[|] st1] w1]; exact H.
Qed.

Lemma deleteTodo_storesValidated h w st id :
  storesValidated h st (deleteTodo h w st id).1.2.
Proof.
  unfold deleteTodo.
  destruct (findIndexE (hasId id) (getTodos h st)) as [[index|]|]; try now left.
  pose proof (saveTodos_storesValidated h w st (VArray (delete index (getTodos h st)))) as H.
  destruct (saveTodos h w st _) as [[[|] st1] w1]; exact H.
Qed.

Lemma handleQuotaExceeded_storesValidated h w st :
  storesValidated h st (handleQuotaExceeded h w st).1.
Proof.
  apply handleQuotaExceededAt_rawTodos.
Qed.

(** C10.  A record the store keeps for an input record comes from one
    that passes the required-field checks and has exactly the nine
    fields, whatever other keys the input had; a [saveTodos] that returns
    [true] has stored such records for its argument; and whatever they
    return, [saveTodos], [addTodo], [updateTodo], [deleteTodo], the quota
    cleanup and the migration leave the stored list as it was or replace
    it by a list of such records. *)
Theorem mutations_store_nine_fields h w st :
  (forall todo r, persisted h st todo = Some r ->
     requiredFieldsOk todo = Some true /\ fieldNames r = todoFields) /\
  (forall todos st' w', saveTodos h w st todos = (true, st', w') ->
     rawTodos st' = omap (persisted h st) (itemsOf todos)) /\
  (forall todos, storesValidated h st (saveTodos h w st todos).1.2) /\
  (forall todoData, storesValidated h st (addTodo h w st todoData).1.2) /\
  (forall id updates, storesValidated h st (updateTodo h w st id updates).1.2) /\
  (forall id, storesValidated h st (deleteTodo h w st id).1.2) /\
  storesValidated h st (handleQuotaExceeded h w st).1 /\
  (forall fromVersion st' w',
     performMigrations h w st fromVersion = Some (st', w') -> storesValidated h st st').
Proof.
  split; [apply persisted_fieldNames|].
  split; [intros todos st' w' [-> _]%saveTodos_true; apply rawTodos_written|].
  split; [apply saveTodos_storesValidated|].
  split; [apply addTodo_storesValidated|].
  split; [apply updateTodo_storesValidated|].
  split; [apply deleteTodo_storesValidated|].
  split; [apply handleQuotaExceeded_storesValidated|].
  intros fromVersion st' w'. rewrite performMigrations_noop. intros [= <- _]. now left.
Qed.

Lemma mutations_store_nine_fields_witness :
  map fieldNames (rawTodos (saveTodos exampleHost [] emptyStore messyTodos).1.2)
  = [todoFields].
Proof.
  destruct (mutations_store_nine_fields exampleHost [] emptyStore) as (_ & Hsave & _).
  rewrite (Hsave messyTodos (saveTodos exampleHost [] emptyStore messyTodos).1.2 []
             ltac:(vm_compute; reflexivity)).
  vm_compute. reflexivity.
Defined.

(** * Further properties *)

(** ** Validation is stable *)

Lemma validTodo_hasTitle h r :
  Normalized r -> validTodo h r = if hasTitle r then Some r else None.
Proof.
  intros HN. rewrite (validTodo_Normalized_again h r HN). unfold hasTitle.
  now destruct (getProp r "title") as [[| |?|?|[|? ?]|?|?]|].
Qed.

Lemma omap_validTodo_Normalized h l :
  Forall Normalized l -> omap (validTodo h) l = filter (fun x => hasTitle x = true) l.
Proof.
  induction 1 as [|x l Hx _ IH]; [reflexivity|].
  cbn [omap list_omap]. rewrite filter_cons, (validTodo_hasTitle h x Hx).
  fold (omap (validTodo h) l). rewrite IH.
  destruct (hasTitle x); case_decide; congruence.
Qed.

(** X1.  Validating the result of a validation again, at any later time,
    changes nothing except that records with an empty title are dropped. *)
Theorem validateTodos_twice h h' todos :
  validateTodos h todos ≫= (fun l => validateTodos h' (VArray l))
  = Some (filter (fun x => hasTitle x = true) (validated h todos)).
Proof.
  rewrite validateTodos_total. cbn [mbind option_bind]. fold (validated h todos).
  rewrite validateTodos_array. f_equal. apply omap_validTodo_Normalized.
  eapply validateTodos_Normalized, validateTodos_total.
Qed.

(** ** Save, then read *)

Lemma persisted_Normalized h st todo kept :
  persisted h st todo = Some kept -> Normalized kept.
Proof.
  unfold persisted. destruct (validTodo h todo) as [r|] eqn:E; [|intros; discriminate].
  cbn [mbind option_bind]. intros [= <-].
  apply validTodo_Normalized in E.
  destruct (usingMemoryFallback st); [exact E|now apply Normalized_json].
Qed.

Lemma rawTodos_written_Normalized h st todos :
  Forall Normalized (rawTodos (written h st todos)).
Proof.
  rewrite rawTodos_written. apply Forall_forall.
  intros x (y & _ & Hy)%list_elem_of_omap. eapply persisted_Normalized, Hy.
Qed.

(** X2.  After a [saveTodos] that returns [true], [getTodos] at any later
    time returns the records the store keeps for the argument, those
    with an empty title left out. *)
Theorem saveTodos_then_getTodos h h' w st todos st' w' :
  saveTodos h w st todos = (true, st', w') ->
  getTodos h' st' =
  filter (fun x => hasTitle x = true) (omap (persisted h st) (itemsOf todos)).
Proof.
  intros [-> _]%saveTodos_true.
  rewrite getTodos_rawTodos, <- rawTodos_written.
  apply omap_validTodo_Normalized, rawTodos_written_Normalized.
Qed.

Lemma saveTodos_then_getTodos_witness :
  getTodos exampleHost (saveTodos exampleHost [] emptyStore messyTodos).1.2
  = filter (fun x => hasTitle x = true)
      (omap (persisted exampleHost emptyStore) (itemsOf messyTodos)).
Proof.
  apply (saveTodos_then_getTodos exampleHost exampleHost [] emptyStore messyTodos
           _ (saveTodos exampleHost [] emptyStore messyTodos).2).
  vm_compute. reflexivity.
Defined.

(** What a later [getTodos] shows of a list written by [saveTodos]. *)
Lemma getTodos_written h h' st todos :
  getTodos h' (written h st todos) = omap (shown h h' st) (itemsOf todos).
Proof.
  rewrite getTodos_rawTodos, rawTodos_written. unfold shown.
  induction (itemsOf todos) as [|x l IH]; [reflexivity|].
  cbn [omap list_omap]. destruct (persisted h st x) as [kept|]; cbn [mbind option_bind].
  - cbn [omap list_omap]. destruct (validTodo h' kept); now rewrite <- IH.
  - exact IH.
Qed.

(** A todo read from the store is shown again as it is when it is saved
    back, unless its title is empty. *)
Lemma shown_stored h0 h h' st x :
  x ∈ getTodos h0 st -> shown h h' st x = if hasTitle x then Some x else None.
Proof.
  intros Hin.
  pose proof (getTodos_Normalized h0 st) as HN. rewrite Forall_forall in HN.
  specialize (HN x Hin).
  unfold shown, persisted. rewrite (validTodo_hasTitle h x HN).
  destruct (hasTitle x) eqn:Ht; [|reflexivity]. cbn [mbind option_bind].
  destruct (usingMemoryFallback st) eqn:Hm.
  - now rewrite (validTodo_hasTitle h' x HN), Ht.
  - pose proof (getTodos_json h0 st Hm) as HJ. rewrite Forall_forall in HJ.
    rewrite (HJ x Hin). now rewrite (validTodo_hasTitle h' x HN), Ht.
Qed.

Lemma omap_shown_stored h0 h h' st (l : list value) :
  (forall x, x ∈ l -> x ∈ getTodos h0 st) ->
  omap (shown h h' st) l = filter (fun x => hasTitle x = true) l.
Proof.
  induction l as [|x l IH]; intros Hsub; [reflexivity|].
  cbn [omap list_omap]. rewrite filter_cons.
  rewrite (shown_stored h0 h h' st x) by (apply Hsub; left).
  fold (omap (shown h h' st) l). rewrite IH by (intros y Hy; apply Hsub; now right).
  destruct (hasTitle x); case_decide; congruence.
Qed.

(** ** Looking a todo up *)

Lemma hasId_Normalized_total id r :
  Normalized r -> exists b, hasId id r = Some b.
Proof. intros [i t c d ca co p tg ds _ _ _ _ _ _ _]. unfold hasId. simpl. eauto. Qed.

Lemma hasId_true id todo :
  hasId id todo = Some true -> getProp todo "id" = Some id.
Proof.
  unfold hasId. destruct (getProp todo "id") as [v|]; [|intros; discriminate].
  cbn [mbind option_bind]. intros [= H]. f_equal.
  destruct v as [| |x|[|x]|x|?|?], id as [| |y|[|y]|y|?|?]; try discriminate H;
    try reflexivity; simpl in H.
  - now apply Bool.eqb_prop in H as ->.
  - now apply Z.eqb_eq in H as ->.
  - now apply String.eqb_eq in H as ->.
Qed.

(** [find] and [findIndex] agree on the stored todos: the index found is
    that of the first todo with the [id], and [find] returns that todo. *)
Lemma find_findIndex id l :
  Forall Normalized l ->
  (findIndexE (hasId id) l = Some None /\ findE (hasId id) l = Some VUndefined /\
   forall x, x ∈ l -> hasId id x = Some false) \/
  (exists index x,
     findIndexE (hasId id) l = Some (Some index) /\ findE (hasId id) l = Some x /\
     l !! index = Some x /\ hasId id x = Some true /\
     forall j y, (j < index)%nat -> l !! j = Some y -> hasId id y = Some false).
Proof.
  induction 1 as [|x l Hx _ IH].
  - left. repeat split. intros x Hx. inversion Hx.
  - destruct (hasId_Normalized_total id x Hx) as [[|] Hb]; cbn [findIndexE findE];
      rewrite Hb; cbn [mbind option_bind].
    + right. exists O, x. repeat split; try assumption.
      intros j y Hj. lia.
    + destruct IH as [(Hi & Hf & Hall) | (index & y & Hi & Hf & Hl & Hy & Hfirst)].
      * left. rewrite Hi, Hf. repeat split.
        intros y [->|Hy]%elem_of_cons; auto.
      * right. exists (S index), y. rewrite Hi, Hf. repeat split; try assumption.
        intros [|j] z Hj Hz; simpl in Hz; [congruence|].
        eapply Hfirst; [|exact Hz]. lia.
Qed.

(** X3.  [getTodo] never throws: it returns [null], or the first stored
    todo whose [id] is the argument. *)
Theorem getTodo_total h st id :
  getTodo h st id = Some VNull /\ (forall x, x ∈ getTodos h st -> hasId id x = Some false) \/
  exists index todo,
    getTodo h st id = Some todo /\
    getTodos h st !! index = Some todo /\
    getProp todo "id" = Some id /\
    forall j y, (j < index)%nat -> getTodos h st !! j = Some y -> hasId id y = Some false.
Proof.
  unfold getTodo.
  destruct (find_findIndex id _ (getTodos_Normalized h st))
    as [(_ & -> & Hall) | (index & x & _ & -> & Hl & Hx & Hfirst)].
  - left. split; [reflexivity|exact Hall].
  - right. exists index, x. cbn [mbind option_bind].
    pose proof (getTodos_Normalized h st) as HN. rewrite Forall_forall in HN.
    assert (or_else x VNull = x) as ->.
    { assert (Normalized x) as [] by (eapply HN, list_elem_of_lookup_2, Hl).
      reflexivity. }
    repeat split; try assumption. now apply hasId_true.
Qed.

Lemma getTodo_null_absent h st id :
  getTodo h st id = Some VNull ->
  findIndexE (hasId id) (getTodos h st) = Some None.
Proof.
  unfold getTodo.
  destruct (find_findIndex id _ (getTodos_Normalized h st))
    as [(Hi & _) | (index & x & _ & -> & Hl & _)]; [intros _; exact Hi|].
  cbn [mbind option_bind].
  pose proof (getTodos_Normalized h st) as HN. rewrite Forall_forall in HN.
  assert (Normalized x) as [] by (eapply HN, list_elem_of_lookup_2, Hl).
  intros; discriminate.
Qed.

Lemma findE_all_false (p : value -> option bool) (l : list value) :
  (forall x, x ∈ l -> p x = Some false) -> findE p l = Some VUndefined.
Proof.
  induction l as [|x l IH]; intros H; [reflexivity|].
  cbn [findE]. rewrite (H x) by left. cbn [mbind option_bind].
  apply IH. intros y Hy. apply H. now right.
Qed.

(** ** Mutations that change nothing *)

(** X4.  When [getTodo(id)] is [null], [deleteTodo(id)] returns [false]
    and [updateTodo(id, updates)] returns [null]; neither touches the
    store or attempts a write. *)
Theorem absent_id_changes_nothing h w st id updates :
  getTodo h st id = Some VNull ->
  deleteTodo h w st id = (false, st, w) /\
  updateTodo h w st id updates = (VNull, st, w).
Proof.
  intros Hi%getTodo_null_absent. unfold deleteTodo, updateTodo. now rewrite Hi.
Qed.

Lemma absent_id_changes_nothing_witness :
  deleteTodo exampleHost [Throws "QuotaExceededError"] staleStore (VString "nobody")
  = (false, staleStore, [Throws "QuotaExceededError"]) /\
  updateTodo exampleHost [Throws "QuotaExceededError"] staleStore (VString "nobody")
    (VObject [("title", VString "x")])
  = (VNull, staleStore, [Throws "QuotaExceededError"]).
Proof.
  apply (absent_id_changes_nothing exampleHost [Throws "QuotaExceededError"] staleStore
           (VString "nobody") (VObject [("title", VString "x")])).
  vm_compute. reflexivity.
Defined.

(** X5.  [updateTodo] with [null] or [undefined] for the partial returns
    [null] and leaves the store as it is, whether the [id] exists or not:
    reading [updates.completed] throws after the merge and before the
    save. *)
Theorem updateTodo_without_partial h w st id updates :
  updates = VNull \/ updates = VUndefined ->
  updateTodo h w st id updates = (VNull, st, w).
Proof.
  intros Hu. unfold updateTodo.
  destruct (findIndexE (hasId id) (getTodos h st)) as [[index|]|]; try reflexivity.
  now destruct Hu as [-> | ->].
Qed.

Lemma updateTodo_without_partial_witness :
  updateTodo exampleHost [] staleStore (VString "old") VNull = (VNull, staleStore, []).
Proof.
  apply (updateTodo_without_partial exampleHost [] staleStore (VString "old") VNull).
  left. reflexivity.
Defined.

Lemma newTodoOf_None h todoData :
  (forall s, getProp todoData "title" <> Some (VString s)) ->
  newTodoOf h todoData = None.
Proof.
  intros H. unfold newTodoOf.
  destruct (getProp todoData "title") as [[| |?|?|s|?|?]|]; try reflexivity.
  now destruct (H s).
Qed.

(** X6.  [addTodo] with an argument that has no string [title] ([null],
    [undefined], a primitive, an object without [title] or with a title
    of another type) returns [null] without touching the store or
    attempting a write. *)
Theorem addTodo_without_title h w st todoData :
  (forall s, getProp todoData "title" <> Some (VString s)) ->
  addTodo h w st todoData = (VNull, st, w).
Proof. intros H. unfold addTodo. now rewrite (newTodoOf_None h todoData H). Qed.

Lemma addTodo_without_title_witness :
  addTodo exampleHost [] staleStore (VObject [("title", VNumber (Num 7))])
  = (VNull, staleStore, []).
Proof.
  apply (addTodo_without_title exampleHost [] staleStore (VObject [("title", VNumber (Num 7))])).
  intros s. simpl. discriminate.
Defined.

(** X7.  In durable mode, when the write throws an error other than
    [QuotaExceededError], [addTodo] and [updateTodo] return [null],
    [deleteTodo] returns [false], and the store is as it was. *)
Theorem write_error_changes_nothing h name w st :
  usingMemoryFallback st = false ->
  name <> "QuotaExceededError" ->
  (forall todoData, (addTodo h (Throws name :: w) st todoData).1 = (VNull, st)) /\
  (forall id updates, (updateTodo h (Throws name :: w) st id updates).1 = (VNull, st)) /\
  (forall id, (deleteTodo h (Throws name :: w) st id).1 = (false, st)).
Proof.
  intros Hm Hn. split; [|split].
  - intros todoData. unfold addTodo.
    destruct (newTodoOf h todoData); [|reflexivity].
    now rewrite saveTodos_throws.
  - intros id updates. unfold updateTodo.
    destruct (findIndexE _ _) as [[index|]|]; try reflexivity.
    destruct (applyUpdates _ _ _ _); [|reflexivity].
    now rewrite saveTodos_throws.
  - intros id. unfold deleteTodo.
    destruct (findIndexE _ _) as [[index|]|]; try reflexivity.
    now rewrite saveTodos_throws.
Qed.

Lemma write_error_changes_nothing_witness :
  (deleteTodo exampleHost [Throws "SecurityError"] staleStore (VString "old")).1
  = (false, staleStore).
Proof.
  apply (write_error_changes_nothing exampleHost "SecurityError" [] staleStore).
  - reflexivity.
  - discriminate.
Defined.

(** ** Deleting *)

Lemma getTodos_triggerStorageEvent h st type data :
  getTodos h (triggerStorageEvent st type data) = getTodos h st.
Proof. reflexivity. Qed.

(** X8.  A [deleteTodo] that returns [true] has removed the first todo
    with the [id]: a later [getTodos] returns the earlier list without it
    (and without the todos whose title is empty), the removed record has
    been announced, and [getTodo(id)] is [null] afterwards when no other
    todo had the same [id]. *)
Theorem deleteTodo_removes_first h h' w st id st' w' :
  deleteTodo h w st id = (true, st', w') ->
  exists index deleted,
    getTodos h st !! index = Some deleted /\
    getProp deleted "id" = Some id /\
    (forall j y, (j < index)%nat -> getTodos h st !! j = Some y -> hasId id y = Some false) /\
    getTodos h' st' = filter (fun x => hasTitle x = true) (delete index (getTodos h st)) /\
    head (dispatched st') = Some ("todo_deleted", deleted) /\
    ((forall j y, j <> index -> getTodos h st !! j = Some y -> hasId id y = Some false) ->
     getTodo h' st' id = Some VNull).
Proof.
  unfold deleteTodo. intros H.
  destruct (find_findIndex id _ (getTodos_Normalized h st))
    as [(Hi & _) | (index & x & Hi & _ & Hl & Hx & Hfirst)]; rewrite Hi in H;
    [discriminate|].
  rewrite Hl in H. cbn [default from_option] in H.
  destruct (saveTodos h w st (VArray (delete index (getTodos h st))))
    as [[[|] st1] w1] eqn:Hsave; [|discriminate].
  injection H as <- <-. apply saveTodos_true in Hsave as [-> _].
  exists index, x.
  assert (getTodos h' (triggerStorageEvent
            (written h st (VArray (delete index (getTodos h st)))) "todo_deleted" x)
          = filter (fun y => hasTitle y = true) (delete index (getTodos h st))) as Hget.
  { rewrite getTodos_triggerStorageEvent, getTodos_written. cbn [itemsOf].
    apply (omap_shown_stored h). intros y Hy. eapply list_elem_of_delete_inv, Hy. }
  split; [exact Hl|]. split; [now apply hasId_true|]. split; [exact Hfirst|].
  split; [exact Hget|]. split; [reflexivity|].
  intros Hunique. unfold getTodo. rewrite Hget, findE_all_false; [reflexivity|].
  intros y [_ Hy]%list_elem_of_filter.
  apply list_elem_of_lookup in Hy as [j Hj].
  rewrite list_lookup_delete in Hj.
  destruct (decide (j < index)%nat); eapply Hunique; try exact Hj; lia.
Qed.

Lemma deleteTodo_removes_first_witness :
  exists index deleted,
    getTodos exampleHost staleStore !! index = Some deleted /\
    getProp deleted "id" = Some (VString "old") /\
    (forall j y, (j < index)%nat -> getTodos exampleHost staleStore !! j = Some y ->
                 hasId (VString "old") y = Some false) /\
    getTodos exampleHost (deleteTodo exampleHost [] staleStore (VString "old")).1.2
    = filter (fun x => hasTitle x = true) (delete index (getTodos exampleHost staleStore)) /\
    head (dispatched (deleteTodo exampleHost [] staleStore (VString "old")).1.2)
    = Some ("todo_deleted", deleted) /\
    ((forall j y, j <> index -> getTodos exampleHost staleStore !! j = Some y ->
                  hasId (VString "old") y = Some false) ->
     getTodo exampleHost (deleteTodo exampleHost [] staleStore (VString "old")).1.2
       (VString "old") = Some VNull).
Proof.
  apply (deleteTodo_removes_first exampleHost exampleHost [] staleStore (VString "old") _
           (deleteTodo exampleHost [] staleStore (VString "old")).2).
  vm_compute. reflexivity.
Defined.

(** ** Adding *)

Lemma or_else_same a : or_else a a = a.
Proof. unfold or_else. now destruct (truthy a). Qed.

(** The list after a successful [addTodo]. *)
Lemma addTodo_first h h' w st todoData r st' w' :
  addTodo h w st todoData = (r, st', w') ->
  r <> VNull ->
  (forall title, getProp todoData "title" = Some (VString title) -> trim title <> EmptyString) ->
  exists first,
    getTodos h' st' = first :: filter (fun x => hasTitle x = true) (getTodos h st) /\
    getProp first "id" = getProp r "id" /\
    getProp first "title" = getProp r "title" /\
    getProp first "createdAt" = getProp r "createdAt" /\
    getProp first "completed" = Some (VBool false) /\
    getProp first "completedAt" = Some VNull.
Proof.
  intros Hadd Hr Htitle. unfold addTodo in Hadd.
  destruct (newTodoOf h todoData) as [nt|] eqn:Hnew; [|injection Hadd as <- _ _; congruence].
  destruct (saveTodos h w st (VArray (nt :: getTodos h st))) as [[saved st1] w1] eqn:Hsave.
  destruct saved; [|injection Hadd as <- _ _; congruence].
  injection Hadd as <- <- <-.
  apply saveTodos_true in Hsave as [-> _].
  apply newTodoOf_Some in Hnew as (title & d & p & tg & ds & Ht & _ & _ & _ & _ & ->).
  specialize (Htitle _ Ht). unfold generateId.
  set (i := (intToString (now h) ++ random36 h 0)%string).
  match goal with |- context [VObject ?l :: _] => set (ps := l) end.
  assert (validTodo h (VObject ps) = Some (normalForm h ps i (trim title) false)) as Hv.
  { apply validTodo_Some. exists ps, i, (trim title), false.
    repeat split; try reflexivity; [|exact Htitle].
    apply append_nonempty_l, intToString_nonempty. }
  assert (exists kept,
            persisted h st (VObject ps) = Some kept /\
            getProp kept "id" = Some (VString i) /\
            getProp kept "title" = Some (VString (trim title)) /\
            getProp kept "createdAt" = Some (nowISO h) /\
            getProp kept "completed" = Some (VBool false) /\
            getProp kept "completedAt" = Some VNull) as (kept & Hk & Kid & Kt & Kca & Kc & Kco).
  { unfold persisted. rewrite Hv. cbn [mbind option_bind].
    destruct (usingMemoryFallback st); eexists; (split; [reflexivity|]).
    - unfold normalForm, prop. simpl. rewrite trim_idem, or_else_same. repeat split.
    - rewrite json_normalForm. unfold prop. simpl.
      rewrite trim_idem, or_else_same. repeat split. }
  exists kept.
  rewrite getTodos_triggerStorageEvent, getTodos_written. cbn [itemsOf omap list_omap].
  unfold shown at 1. rewrite Hk. cbn [mbind option_bind].
  rewrite (validTodo_hasTitle h' kept (persisted_Normalized _ _ _ _ Hk)).
  assert (hasTitle kept = true) as ->.
  { unfold hasTitle. rewrite Kt. now destruct (trim title). }
  fold (omap (shown h h' st) (getTodos h st)).
  rewrite (omap_shown_stored h h h' st) by auto.
  repeat split; assumption.
Qed.

(** X9.  After a successful [addTodo] with a title that is not blank, a
    later [getTodos] returns the new todo first, with the returned [id],
    title and creation time, not completed, followed by the earlier list
    (without the todos whose title is empty). *)
Theorem addTodo_prepends h h' w st todoData r st' w' :
  addTodo h w st todoData = (r, st', w') ->
  r <> VNull ->
  (forall title, getProp todoData "title" = Some (VString title) -> trim title <> EmptyString) ->
  exists first,
    getTodos h' st' = first :: filter (fun x => hasTitle x = true) (getTodos h st) /\
    getProp first "id" = getProp r "id" /\
    getProp first "title" = getProp r "title" /\
    getProp first "createdAt" = getProp r "createdAt" /\
    getProp first "completed" = Some (VBool false) /\
    getProp first "completedAt" = Some VNull.
Proof. apply addTodo_first. Qed.

Lemma addTodo_prepends_witness :
  exists first,
    getTodos exampleHost (addTodo exampleHost [] staleStore milkData).1.2
    = first :: filter (fun x => hasTitle x = true) (getTodos exampleHost staleStore) /\
    getProp first "id" = getProp (addTodo exampleHost [] staleStore milkData).1.1 "id" /\
    getProp first "title" = getProp (addTodo exampleHost [] staleStore milkData).1.1 "title" /\
    getProp first "createdAt"
    = getProp (addTodo exampleHost [] staleStore milkData).1.1 "createdAt" /\
    getProp first "completed" = Some (VBool false) /\
    getProp first "completedAt" = Some VNull.
Proof.
  apply (addTodo_prepends exampleHost exampleHost [] staleStore milkData _ _
           (addTodo exampleHost [] staleStore milkData).2).
  - vm_compute. reflexivity.
  - vm_compute. discriminate.
  - vm_compute. intros title [= <-]. discriminate.
Defined.

(** ** Updating, seen from the list *)

(** A successful [updateTodo] changes the list at one place only: a
    later [getTodos] returns the todos before the first one with the
    [id], then what the store shows of the merged record, if anything,
    then the todos after it (todos with an empty title are dropped). *)
Lemma updateTodo_list h h' w st id updates r st' w' :
  updateTodo h w st id updates = (r, st', w') ->
  r <> VNull ->
  exists index old,
    getTodos h st !! index = Some old /\
    getProp old "id" = Some id /\
    getTodos h' st' =
      (filter (fun x => hasTitle x = true) (take index (getTodos h st))
       ++ option_list (shown h h' st r)
       ++ filter (fun x => hasTitle x = true) (drop (S index) (getTodos h st)))%list.
Proof.
  unfold updateTodo. intros H Hr.
  destruct (find_findIndex id _ (getTodos_Normalized h st))
    as [(Hi & _) | (index & x & Hi & _ & Hl & Hx & _)]; rewrite Hi in H;
    [injection H as <- _ _; congruence|].
  destruct (applyUpdates h _ id updates) as [newTodo|];
    [|injection H as <- _ _; congruence].
  destruct (saveTodos h w st (VArray (<[index := newTodo]> (getTodos h st))))
    as [[[|] st1] w1] eqn:Hsave; [|injection H as <- _ _; congruence].
  injection H as <- <- <-. apply saveTodos_true in Hsave as [-> _].
  exists index, x. split; [exact Hl|]. split; [now apply hasId_true|].
  rewrite getTodos_triggerStorageEvent, getTodos_written. cbn [itemsOf].
  rewrite insert_take_drop by (eapply lookup_lt_Some, Hl).
  rewrite omap_app. cbn [omap list_omap].
  fold (omap (shown h h' st) (drop (S index) (getTodos h st))).
  rewrite !(omap_shown_stored h h h' st).
  - f_equal. now destruct (shown h h' st newTodo).
  - intros y Hy. eapply subseteq_drop, Hy.
  - intros y Hy. eapply subseteq_take, Hy.
Qed.

(** The list after a successful [updateTodo], with the index the search
    found, which is the first one whose todo has the [id], and the merged
    record. *)
Lemma updateTodo_first h h' w st id updates r st' w' :
  updateTodo h w st id updates = (r, st', w') ->
  r <> VNull ->
  exists index old,
    findIndexE (hasId id) (getTodos h st) = Some (Some index) /\
    getTodos h st !! index = Some old /\
    hasId id old = Some true /\
    (forall j y, (j < index)%nat -> getTodos h st !! j = Some y -> hasId id y = Some false) /\
    applyUpdates h old id updates = Some r /\
    getTodos h' st' =
      (filter (fun x => hasTitle x = true) (take index (getTodos h st))
       ++ option_list (shown h h' st r)
       ++ filter (fun x => hasTitle x = true) (drop (S index) (getTodos h st)))%list.
Proof.
  unfold updateTodo. intros H Hr.
  destruct (find_findIndex id _ (getTodos_Normalized h st))
    as [(Hi & _) | (index & x & Hi & _ & Hl & Hx & Hfirst)]; rewrite Hi in H;
    [injection H as <- _ _; congruence|].
  destruct (applyUpdates h _ id updates) as [newTodo|] eqn:Happ;
    [|injection H as <- _ _; congruence].
  rewrite Hl in Happ. change (default VUndefined (Some x)) with x in Happ.
  destruct (saveTodos h w st (VArray (<[index := newTodo]> (getTodos h st))))
    as [[[|] st1] w1] eqn:Hsave; [|injection H as <- _ _; congruence].
  injection H as <- <- <-. apply saveTodos_true in Hsave as [-> _].
  exists index, x. split; [exact Hi|]. split; [exact Hl|]. split; [exact Hx|].
  split; [exact Hfirst|]. split; [exact Happ|].
  rewrite getTodos_triggerStorageEvent, getTodos_written. cbn [itemsOf].
  rewrite insert_take_drop by (eapply lookup_lt_Some, Hl).
  rewrite omap_app. cbn [omap list_omap].
  fold (omap (shown h h' st) (drop (S index) (getTodos h st))).
  rewrite !(omap_shown_stored h h h' st).
  - f_equal. now destruct (shown h h' st newTodo).
  - intros y Hy. eapply subseteq_drop, Hy.
  - intros y Hy. eapply subseteq_take, Hy.
Qed.

(** X10.  A successful [updateTodo] changes the list at one place only,
    the first todo with the [id]: no todo before it has the [id], and a
    later [getTodos] returns the todos before it, then what the store
    shows of the merged record, if anything, then the todos after it
    (todos with an empty title are dropped). *)
Theorem updateTodo_changes_one h h' w st id updates r st' w' :
  updateTodo h w st id updates = (r, st', w') ->
  r <> VNull ->
  exists index old,
    getTodos h st !! index = Some old /\
    getProp old "id" = Some id /\
    (forall j y, (j < index)%nat -> getTodos h st !! j = Some y -> hasId id y = Some false) /\
    getTodos h' st' =
      (filter (fun x => hasTitle x = true) (take index (getTodos h st))
       ++ option_list (shown h h' st r)
       ++ filter (fun x => hasTitle x = true) (drop (S index) (getTodos h st)))%list.
Proof.
  intros Hupd Hr.
  destruct (updateTodo_first h h' w st id updates r st' w' Hupd Hr)
    as (index & old & _ & Hl & Hid & Hfirst & _ & Hlist).
  exists index, old. split; [exact Hl|]. split; [now apply hasId_true|].
  split; [exact Hfirst|exact Hlist].
Qed.

Lemma updateTodo_changes_one_witness :
  exists index old,
    getTodos exampleHost datedStore !! index = Some old /\
    getProp old "id" = Some (VString "a") /\
    (forall j y, (j < index)%nat -> getTodos exampleHost datedStore !! j = Some y ->
                 hasId (VString "a") y = Some false) /\
    getTodos exampleHost
      (updateTodo exampleHost [] datedStore (VString "a") renamingUpdate).1.2 =
      (filter (fun x => hasTitle x = true) (take index (getTodos exampleHost datedStore))
       ++ option_list
            (shown exampleHost exampleHost datedStore
               (updateTodo exampleHost [] datedStore (VString "a") renamingUpdate).1.1)
       ++ filter (fun x => hasTitle x = true)
            (drop (S index) (getTodos exampleHost datedStore)))%list.
Proof.
  apply (updateTodo_changes_one exampleHost exampleHost [] datedStore (VString "a")
           renamingUpdate _ _
           (updateTodo exampleHost [] datedStore (VString "a") renamingUpdate).2).
  - vm_compute. reflexivity.
  - vm_compute. discriminate.
Defined.

Lemma lookupProp_None_notin k (entries : list (string * value)) :
  k ∉ map fst entries -> lookupProp k entries = None.
Proof.
  induction entries as [|[k0 v0] entries IH]; [reflexivity|].
  cbn [map fst lookupProp]. intros Hnot.
  destruct (String.eqb_spec k0 k) as [->|Hne].
  - destruct Hnot. left.
  - apply IH. intros Hin. apply Hnot. now right.
Qed.

Lemma lookupProp_fold_setProp_NoDup k v entries target :
  NoDup (map fst entries) ->
  lookupProp k entries = Some v ->
  lookupProp k (fold_left (λ acc kv, setProp kv.1 kv.2 acc) entries target) = Some v.
Proof.
  revert target. induction entries as [|[k0 v0] entries IH]; intros target Hnd Hk;
    [discriminate|].
  cbn [map fst] in Hnd. apply NoDup_cons in Hnd as [Hnot Hnd].
  cbn [lookupProp] in Hk. cbn [fold_left fst snd].
  destruct (String.eqb_spec k0 k) as [->|Hne].
  - injection Hk as ->.
    rewrite lookupProp_fold_setProp by now apply lookupProp_None_notin.
    apply lookupProp_setProp_eq.
  - now apply IH.
Qed.

(** A property of the partial, other than the three [updateTodo] sets
    itself, is a property of the merged record. *)
Lemma applyUpdates_overrides h current id ps r k v :
  applyUpdates h current id (VObject ps) = Some r ->
  NoDup (map fst ps) ->
  k <> "id" -> k <> "updatedAt" -> k <> "completedAt" ->
  lookupProp k ps = Some v ->
  exists qs, r = VObject qs /\ lookupProp k qs = Some v.
Proof.
  unfold applyUpdates. cbn [getProp mbind option_bind].
  intros [= <-] Hnd H1 H2 H3 Hk. eexists. split; [reflexivity|].
  destruct (negb _); rewrite !lookupProp_setProp_ne by congruence;
    now apply lookupProp_fold_setProp_NoDup.
Qed.

(** X11.  An [updateTodo] whose partial sets [title] to something that is
    not a non-empty string, or [completed] to something that is not a
    boolean, returns the merged record like any successful update, but
    the validator run by [saveTodos] drops that record: afterwards the
    todo is gone from the list, as after a [deleteTodo]. *)
Theorem updateTodo_can_remove h h' w st id ps r st' w' :
  NoDup (map fst ps) ->
  (exists title, lookupProp "title" ps = Some title /\
                 (truthy title = false \/ typeof title <> "string")) \/
  (exists completed, lookupProp "completed" ps = Some completed /\
                     typeof completed <> "boolean") ->
  updateTodo h w st id (VObject ps) = (r, st', w') ->
  r <> VNull ->
  exists index old,
    getTodos h st !! index = Some old /\
    getProp old "id" = Some id /\
    getTodos h' st' = filter (fun x => hasTitle x = true) (delete index (getTodos h st)).
Proof.
  intros Hnd Hbad Hupd Hr.
  assert (shown h h' st r = None) as Hshown.
  { destruct (updateTodo_success _ _ _ _ _ _ _ _ Hupd Hr) as (_ & current & _ & _ & Happ & _).
    unfold shown, persisted.
    destruct (validTodo h r) as [x|] eqn:Hv; [exfalso|reflexivity].
    apply validTodo_Some in Hv as (qs & i & t & c & -> & _ & _ & Ht & Hne & Hc & _).
    destruct Hbad as [(title & Hk & Hbad) | (completed & Hk & Hbad)].
    - destruct (applyUpdates_overrides h current id ps _ "title" title Happ Hnd
                  ltac:(discriminate) ltac:(discriminate) ltac:(discriminate) Hk)
        as (qs' & [= <-] & Hq).
      rewrite (prop_lookup _ _ _ Hq) in Ht. subst title.
      destruct Hbad as [Hbad | Hbad]; [|now apply Hbad].
      simpl in Hbad. now rewrite eqb_empty_false in Hbad.
    - destruct (applyUpdates_overrides h current id ps _ "completed" completed Happ Hnd
                  ltac:(discriminate) ltac:(discriminate) ltac:(discriminate) Hk)
        as (qs' & [= <-] & Hq).
      rewrite (prop_lookup _ _ _ Hq) in Hc. subst completed. now apply Hbad. }
  destruct (updateTodo_list h h' _ _ _ _ _ _ _ Hupd Hr) as (index & old & Hl & Hid & Hget).
  exists index, old. split; [exact Hl|]. split; [exact Hid|].
  rewrite Hget, Hshown, delete_take_drop, filter_app. reflexivity.
Qed.

Lemma updateTodo_can_remove_witness :
  exists index old,
    getTodos exampleHost staleStore !! index = Some old /\
    getProp old "id" = Some (VString "old") /\
    getTodos exampleHost
      (updateTodo exampleHost [] staleStore (VString "old") blankingUpdate).1.2
    = filter (fun x => hasTitle x = true) (delete index (getTodos exampleHost staleStore)).
Proof.
  apply (updateTodo_can_remove exampleHost exampleHost [] staleStore (VString "old")
           [("title", VString "")]
           (updateTodo exampleHost [] staleStore (VString "old") blankingUpdate).1.1
           (updateTodo exampleHost [] staleStore (VString "old") blankingUpdate).1.2
           (updateTodo exampleHost [] staleStore (VString "old") blankingUpdate).2).
  - repeat constructor. intros H. inversion H.
  - left. exists (VString ""). split; [reflexivity|]. left. reflexivity.
  - vm_compute. reflexivity.
  - vm_compute. discriminate.
Defined.

(** ** Searching *)

Lemma isWhiteSpace_lowerChar c : isWhiteSpace (lowerChar c) = isWhiteSpace c.
Proof.
  destruct c as [[] [] [] [] [] [] [] []]; reflexivity.
Qed.

Lemma trimStart_toLowerCase s : trimStart (toLowerCase s) = toLowerCase (trimStart s).
Proof.
  induction s as [|c r IH]; [reflexivity|].
  cbn [toLowerCase trimStart]. rewrite isWhiteSpace_lowerChar.
  now destruct (isWhiteSpace c).
Qed.

Lemma trimEnd_toLowerCase s : trimEnd (toLowerCase s) = toLowerCase (trimEnd s).
Proof.
  induction s as [|c r IH]; [reflexivity|].
  cbn [toLowerCase]. rewrite !trimEnd_cons, IH, isWhiteSpace_lowerChar.
  destruct (trimEnd r); cbn [toLowerCase]; [|reflexivity].
  now destruct (isWhiteSpace c).
Qed.

(** Lower-casing and trimming commute. *)
Lemma trim_toLowerCase s : trim (toLowerCase s) = toLowerCase (trim s).
Proof. unfold trim. now rewrite trimStart_toLowerCase, trimEnd_toLowerCase. Qed.

(** X12.  A query that is blank (empty after trimming) makes
    [searchTodos] return the whole list, whatever the stored todos. *)
Theorem searchTodos_blank h st query :
  trim query = EmptyString ->
  searchTodos h st (VString query) = Some (getTodos h st).
Proof.
  intros Hq. unfold searchTodos. cbn [callToLowerCase mbind option_bind].
  now rewrite trim_toLowerCase, Hq.
Qed.

Lemma searchTodos_blank_witness :
  searchTodos exampleHost staleStore (VString "   ") = Some (getTodos exampleHost staleStore).
Proof. apply searchTodos_blank. reflexivity. Defined.

Lemma someE_strings (searchTerm : string) (tags : list value) :
  Forall (fun tag => exists s, tag = VString s) tags ->
  exists b,
    someE (fun tag => tag' ← callToLowerCase tag; Some (includes tag' searchTerm)) tags
    = Some b.
Proof.
  induction 1 as [|tag tags [s ->] _ [b IH]]; [now exists false|].
  cbn [someE callToLowerCase mbind option_bind].
  destruct (includes (toLowerCase s) searchTerm); eauto.
Qed.

Lemma matchesSearch_searchable searchTerm r :
  Normalized r -> searchable r ->
  exists b, matchesSearch searchTerm r = Some b /\
    (forall title, getProp r "title" = Some (VString title) ->
       includes (toLowerCase title) searchTerm = true -> b = true).
Proof.
  intros [i t c d ca co p tg ds _ _ _ _ _ _ _] [[s Hs] Htags].
  simpl in Hs. injection Hs as ->.
  specialize (Htags tg eq_refl).
  unfold matchesSearch. simpl.
  destruct (includes (toLowerCase t) searchTerm) eqn:Et.
  - exists true. split; [reflexivity|auto].
  - destruct (includes (toLowerCase s) searchTerm).
    + exists true. split; [reflexivity|auto].
    + destruct (someE_strings searchTerm tg Htags) as [b Hb]. exists b.
      split; [exact Hb|]. intros title [= <-]. congruence.
Qed.

(** X13.  When every stored todo has a string description and string
    tags, [searchTodos] returns on every string query: the result is a
    sublist of [getTodos] (same order, nothing added) and contains every
    todo whose lower-cased title contains the lower-cased, trimmed
    query. *)
Theorem searchTodos_finds_titles h st query :
  (forall todo, todo ∈ getTodos h st -> searchable todo) ->
  exists found,
    searchTodos h st (VString query) = Some found /\
    found `sublist_of` getTodos h st /\
    (forall todo title,
       todo ∈ getTodos h st ->
       getProp todo "title" = Some (VString title) ->
       includes (toLowerCase title) (trim (toLowerCase query)) = true ->
       todo ∈ found).
Proof.
  intros Hs. unfold searchTodos. cbn [callToLowerCase mbind option_bind].
  set (term := trim (toLowerCase query)).
  destruct (negb (truthy (VString term))).
  - exists (getTodos h st). split; [reflexivity|]. split; [reflexivity|auto].
  - pose proof (getTodos_Normalized h st) as HN. rewrite Forall_forall in HN.
    rewrite filterE_total.
    + eexists. split; [reflexivity|]. split; [apply sublist_filter|].
      intros todo title Hin Ht Hinc. apply list_elem_of_filter. split; [|exact Hin].
      destruct (matchesSearch_searchable term todo (HN _ Hin) (Hs _ Hin)) as (b & -> & Hb).
      f_equal. eapply Hb; eassumption.
    + intros x Hx.
      destruct (matchesSearch_searchable term x (HN _ Hx) (Hs _ Hx)) as (b & Hb & _).
      eauto.
Qed.

Lemma searchTodos_finds_titles_witness :
  exists found,
    searchTodos exampleHost meetingStore (VString " MEET ") = Some found /\
    found `sublist_of` getTodos exampleHost meetingStore /\
    (forall todo title,
       todo ∈ getTodos exampleHost meetingStore ->
       getProp todo "title" = Some (VString title) ->
       includes (toLowerCase title) (trim (toLowerCase " MEET ")) = true ->
       todo ∈ found).
Proof.
  apply (searchTodos_finds_titles exampleHost meetingStore " MEET ").
  intros todo Hin. vm_compute in Hin.
  repeat (apply elem_of_cons in Hin as [-> | Hin]);
    [| |inversion Hin];
    (split; [eexists; reflexivity|]);
    intros tags [= <-]; repeat constructor; eauto.
Defined.

Lemma filterE_None (f : value -> option bool) (l : list value) x :
  x ∈ l -> f x = None -> filterE f l = None.
Proof.
  intros Hin Hx. induction Hin as [x l|x y l _ IH]; cbn [filterE].
  - now rewrite Hx.
  - rewrite (IH Hx). now destruct (f y).
Qed.

(** X14.  A stored todo whose description is not a string makes
    [searchTodos] throw on every query that is not blank and that its
    title does not contain. *)
Theorem searchTodos_throws h st query todo title description :
  trim query <> EmptyString ->
  todo ∈ getTodos h st ->
  getProp todo "title" = Some (VString title) ->
  includes (toLowerCase title) (trim (toLowerCase query)) = false ->
  getProp todo "description" = Some description ->
  (forall s, description <> VString s) ->
  searchTodos h st (VString query) = None.
Proof.
  intros Hq Hin Ht Hinc Hd Hns. unfold searchTodos. cbn [callToLowerCase mbind option_bind].
  rewrite trim_toLowerCase. cbn [truthy].
  assert (toLowerCase (trim query) <> EmptyString) as Hne
    by (destruct (trim query); [congruence|discriminate]).
  rewrite (eqb_empty_false _ Hne). cbn [negb].
  apply (filterE_None _ _ todo Hin).
  unfold matchesSearch. rewrite Ht. cbn [callToLowerCase mbind option_bind].
  rewrite <- trim_toLowerCase, Hinc, Hd. cbn [mbind option_bind].
  destruct description; try reflexivity. now destruct (Hns s).
Qed.

Lemma searchTodos_throws_witness :
  searchTodos exampleHost numberedStore (VString "milk") = None.
Proof.
  apply (searchTodos_throws exampleHost numberedStore "milk"
           (todoRecord "n" "Pay rent" false VNull (nowISO exampleHost) VNull
              (VString "normal") [] (VNumber (Num 42)))
           "Pay rent" (VNumber (Num 42))).
  - discriminate.
  - vm_compute. left.
  - reflexivity.
  - reflexivity.
  - reflexivity.
  - discriminate.
Defined.

(** ** Filtering *)

Lemma isCompleted_Normalized r : Normalized r -> isCompleted r = Some (completedOf r).
Proof. now intros []. Qed.

Lemma isPending_Normalized r : Normalized r -> isPending r = Some (negb (completedOf r)).
Proof. now intros []. Qed.

Lemma isOverdue_Normalized h r :
  Normalized r ->
  exists b, isOverdue h r = Some b /\
    (b = true ->
     completedOf r = false /\
     exists dueDate t, getProp r "dueDate" = Some dueDate /\
                       dateTime h dueDate = Some t /\ t < now h).
Proof.
  intros [i t c d ca co p tg ds _ _ _ _ _ _ _]. unfold isOverdue, completedOf. simpl.
  destruct c; [exists false; split; [reflexivity|discriminate]|].
  destruct (truthy d); simpl; [|exists false; split; [reflexivity|discriminate]].
  destruct (dateTime h d) as [t'|] eqn:E; [|exists false; split; [reflexivity|discriminate]].
  eexists. split; [reflexivity|]. intros Hlt%Z.ltb_lt. split; [reflexivity|].
  exists d, t'. auto.
Qed.

Lemma isDueToday_Normalized h z r :
  Normalized r ->
  exists b, isDueToday h z r = Some b /\
    (b = true ->
     completedOf r = false /\
     exists dueDate, getProp r "dueDate" = Some dueDate /\
                     dateString h z dueDate = toDateString z (now h)).
Proof.
  intros [i t c d ca co p tg ds _ _ _ _ _ _ _]. unfold isDueToday, completedOf. simpl.
  destruct c; [exists false; split; [reflexivity|discriminate]|].
  destruct (truthy d); simpl; [|exists false; split; [reflexivity|discriminate]].
  eexists. split; [reflexivity|]. intros Heq%String.eqb_eq. split; [reflexivity|].
  exists d. auto.
Qed.

Lemma filterE_Forall (P : value -> Prop) (f : value -> option bool) (l : list value) :
  Forall P l -> (forall x, P x -> exists b, f x = Some b) ->
  filterE f l = Some (filter (fun x => f x = Some true) l).
Proof.
  intros HP Hf. apply filterE_total. intros x Hx. apply Hf.
  rewrite Forall_forall in HP. now apply HP.
Qed.

Lemma completed_pending_Permutation (l : list value) :
  Forall Normalized l ->
  (filter (fun x => isCompleted x = Some true) l
   ++ filter (fun x => isPending x = Some true) l)%list ≡ₚ l.
Proof.
  induction 1 as [|x l Hx _ IH]; [reflexivity|].
  rewrite !filter_cons, (isCompleted_Normalized x Hx), (isPending_Normalized x Hx).
  destruct (completedOf x); repeat case_decide; try congruence; cbn [negb] in *;
    try congruence.
  - cbn [app]. now rewrite IH.
  - rewrite <- Permutation_middle. now rewrite IH.
Qed.

(** X15.  On validated todos the filters [completed] and [pending] return
    without throwing and split the list: together they are a permutation
    of it, the first holds the completed todos only, the second the
    others only. *)
Theorem filterTodos_partition h z (todos : list value) :
  Forall Normalized todos ->
  exists done open,
    filterTodos h z todos (VString "completed") = Some done /\
    filterTodos h z todos (VString "pending") = Some open /\
    (done ++ open)%list ≡ₚ todos /\
    (forall x, x ∈ done -> completedOf x = true) /\
    (forall x, x ∈ open -> completedOf x = false).
Proof.
  intros HN. unfold filterTodos. cbn [strictEq String.eqb Ascii.eqb Bool.eqb].
  rewrite (filterE_Forall Normalized isCompleted todos HN)
    by (intros x Hx; rewrite isCompleted_Normalized by exact Hx; eauto).
  rewrite (filterE_Forall Normalized isPending todos HN)
    by (intros x Hx; rewrite isPending_Normalized by exact Hx; eauto).
  eexists _, _. split; [reflexivity|]. split; [reflexivity|].
  split; [now apply completed_pending_Permutation|].
  rewrite Forall_forall in HN.
  split; intros x [Hx Hin]%list_elem_of_filter.
  - rewrite isCompleted_Normalized in Hx by auto. congruence.
  - rewrite isPending_Normalized in Hx by auto. injection Hx.
    now destruct (completedOf x).
Qed.

Lemma filterTodos_partition_witness :
  exists done open,
    filterTodos exampleHost {| toDateString := fun _ => "Thu Feb 29 2024" |}
      (getTodos exampleHost staleStore) (VString "completed") = Some done /\
    filterTodos exampleHost {| toDateString := fun _ => "Thu Feb 29 2024" |}
      (getTodos exampleHost staleStore) (VString "pending") = Some open /\
    (done ++ open)%list ≡ₚ getTodos exampleHost staleStore /\
    (forall x, x ∈ done -> completedOf x = true) /\
    (forall x, x ∈ open -> completedOf x = false).
Proof.
  apply filterTodos_partition. apply getTodos_Normalized.
Defined.



(** ** Statistics *)

Lemma length_filter_le (P Q : value -> Prop) `{forall x, Decision (P x)}
    `{forall x, Decision (Q x)} (l : list value) :
  (forall x, x ∈ l -> P x -> Q x) ->
  (length (filter P l) <= length (filter Q l))%nat.
Proof.
  induction l as [|x l IH]; intros HPQ; [reflexivity|].
  assert (length (filter P l) <= length (filter Q l))%nat as IH'
    by (apply IH; intros y Hy; apply HPQ; now right).
  rewrite !filter_cons.
  destruct (decide (P x)) as [HP|HP]; destruct (decide (Q x)) as [HQ|HQ];
    cbn [length]; try lia.
  destruct HQ. apply HPQ; [left|exact HP].
Qed.

Lemma countE_Normalized (f : value -> option bool) (l : list value) :
  Forall Normalized l -> (forall x, Normalized x -> exists b, f x = Some b) ->
  TodoApp.countE f l = Some (length (filter (fun x => f x = Some true) l)).
Proof.
  intros HN Hf. unfold TodoApp.countE. now rewrite (filterE_Forall Normalized f l HN Hf).
Qed.

(** X17.  [getStats] of the application controller never throws, and its
    numbers agree: completed and pending add up to the total, the
    overdue todos and the todos due today are among the pending ones,
    and no count exceeds the total. *)
Theorem getStats_consistent h z st :
  exists stats,
    TodoApp.getStats h z st = Some stats /\
    TodoApp.total stats = length (getTodos h st) /\
    (TodoApp.completed stats + TodoApp.pending stats = TodoApp.total stats)%nat /\
    (TodoApp.overdue stats <= TodoApp.pending stats)%nat /\
    (TodoApp.dueToday stats <= TodoApp.pending stats)%nat /\
    (TodoApp.createdThisWeek stats <= TodoApp.total stats)%nat.
Proof.
  pose proof (getTodos_Normalized h st) as HN.
  unfold TodoApp.getStats.
  rewrite (countE_Normalized isCompleted _ HN)
    by (intros x Hx; rewrite isCompleted_Normalized by exact Hx; eauto).
  rewrite (countE_Normalized isPending _ HN)
    by (intros x Hx; rewrite isPending_Normalized by exact Hx; eauto).
  rewrite (countE_Normalized (TodoApp.statOverdue h) _ HN)
    by (intros x Hx; destruct (isOverdue_Normalized h x Hx) as (b & Hb & _); eauto).
  rewrite (countE_Normalized (TodoApp.statDueToday h z) _ HN)
    by (intros x Hx; destruct (isDueToday_Normalized h z x Hx) as (b & Hb & _); eauto).
  rewrite (countE_Normalized (TodoApp.isCreatedThisWeek h) _ HN)
    by (intros x [i t c d ca co p tg ds _ _ _ _ _ _ _]; unfold TodoApp.isCreatedThisWeek;
        simpl; eauto).
  cbn [mbind option_bind]. eexists. split; [reflexivity|]. cbn.
  split; [reflexivity|].
  rewrite Forall_forall in HN.
  split; [|split; [|split]].
  - rewrite <- length_app. apply Permutation_length, completed_pending_Permutation.
    now apply Forall_forall.
  - apply length_filter_le. intros x Hin Hx.
    destruct (isOverdue_Normalized h x (HN x Hin)) as (b & Hb & Hprop).
    rewrite isPending_Normalized by auto.
    change (TodoApp.statOverdue h x) with (isOverdue h x) in Hx.
    destruct Hprop as [-> _]; [congruence|reflexivity].
  - apply length_filter_le. intros x Hin Hx.
    destruct (isDueToday_Normalized h z x (HN x Hin)) as (b & Hb & Hprop).
    rewrite isPending_Normalized by auto.
    change (TodoApp.statDueToday h z x) with (isDueToday h z x) in Hx.
    destruct Hprop as [-> _]; [congruence|reflexivity].
  - apply length_filter.
Qed.

(** ** Settings *)

Lemma setProp_keeps k k' v (ps : list (string * value)) :
  lookupProp k ps <> None -> lookupProp k (setProp k' v ps) <> None.
Proof.
  intros H. destruct (String.eqb_spec k k') as [->|Hne].
  - now rewrite lookupProp_setProp_eq.
  - now rewrite lookupProp_setProp_ne.
Qed.

Lemma fold_setProp_keeps k (entries target : list (string * value)) :
  lookupProp k target <> None ->
  lookupProp k (fold_left (λ acc kv, setProp kv.1 kv.2 acc) entries target) <> None.
Proof.
  revert target. induction entries as [|[k0 v0] entries IH]; intros target H; [exact H|].
  cbn [fold_left fst snd]. now apply IH, setProp_keeps.
Qed.

Lemma spread_defaults : spread getDefaultSettings [] = defaultProps.
Proof. reflexivity. Qed.

(** The settings [getSettings] reads from [localStorage], before the
    merge with the defaults. *)
Lemma getSettings_durable st :
  usingMemoryFallback st = false ->
  exists settings, getSettings st = VObject (spread settings defaultProps) \/
                   getSettings st = getDefaultSettings.
Proof.
  intros Hm. unfold getSettings. rewrite Hm, spread_defaults.
  destruct (lsSettings st) as [| |v].
  - exists getDefaultSettings. now left.
  - exists VNull. now right.
  - exists (json v). destruct v; (now left) || (now right).
Qed.

(** X18.  In durable mode [getSettings] returns an object that has every
    default setting, whatever [localStorage] holds for the settings:
    nothing, a text that is not JSON, or any JSON value. *)
Theorem getSettings_has_defaults st k :
  usingMemoryFallback st = false ->
  lookupProp k defaultProps <> None ->
  exists ps, getSettings st = VObject ps /\ lookupProp k ps <> None.
Proof.
  intros Hm Hk. destruct (getSettings_durable st Hm) as (settings & [-> | ->]).
  - eexists. split; [reflexivity|]. now apply fold_setProp_keeps.
  - exists defaultProps. split; [reflexivity|exact Hk].
Qed.

Lemma getSettings_has_defaults_witness :
  exists ps, getSettings garbledStore = VObject ps /\ lookupProp "sortOrder" ps <> None.
Proof.
  apply (getSettings_has_defaults garbledStore "sortOrder").
  - reflexivity.
  - vm_compute. discriminate.
Defined.

Lemma jsonProps_keys (ps : list (string * value)) k :
  k ∈ map fst (jsonProps ps) -> k ∈ map fst ps.
Proof.
  induction ps as [|[k0 x] ps IH]; [auto|].
  rewrite jsonProps_cons. cbn [map fst].
  destruct x; cbn [map fst]; rewrite ?elem_of_cons; intuition.
Qed.

Lemma jsonProps_NoDup (ps : list (string * value)) :
  NoDup (map fst ps) -> NoDup (map fst (jsonProps ps)).
Proof.
  induction ps as [|[k0 x] ps IH]; [auto|].
  cbn [map fst]. intros [Hnot Hnd]%NoDup_cons. rewrite jsonProps_cons.
  destruct x; cbn [map fst]; auto;
    (apply NoDup_cons; split; [intros Hin; now apply Hnot, jsonProps_keys|auto]).
Qed.

(** What [getSettings] returns for a settings item that holds an object. *)
Lemma getSettings_parsed_object st qs k :
  usingMemoryFallback st = false ->
  lsSettings st = JsonText (VObject qs) ->
  NoDup (map fst qs) ->
  getProp (getSettings st) k
  = Some (match lookupProp k (jsonProps qs) with
          | Some v => v
          | None => prop defaultProps k
          end).
Proof.
  intros Hm Hls Hnd. unfold getSettings. rewrite Hm, Hls, spread_defaults.
  cbn [JSON_parse]. rewrite json_object. cbn [getProp]. f_equal.
  unfold spread. cbn [ownEntries].
  destruct (lookupProp k (jsonProps qs)) as [v|] eqn:E.
  - now rewrite (lookupProp_fold_setProp_NoDup k v) by (auto using jsonProps_NoDup).
  - now rewrite lookupProp_fold_setProp by exact E.
Qed.

(** X19.  When the settings item holds a JSON object, [getSettings]
    returns, for every name, the stored value if the object has one and
    the default otherwise. *)
Theorem getSettings_merges st qs k :
  usingMemoryFallback st = false ->
  lsSettings st = JsonText (VObject qs) ->
  NoDup (map fst qs) ->
  getProp (getSettings st) k
  = Some (match lookupProp k (jsonProps qs) with
          | Some v => v
          | None => prop defaultProps k
          end).
Proof. apply getSettings_parsed_object. Qed.

Lemma getSettings_merges_witness :
  getProp (getSettings darkStore) "theme" = Some (VString "dark") /\
  getProp (getSettings darkStore) "sortBy" = Some (VString "createdAt").
Proof.
  split.
  - apply (getSettings_merges darkStore [("theme", VString "dark")] "theme");
      [reflexivity|reflexivity|].
    repeat constructor. intros H. inversion H.
  - apply (getSettings_merges darkStore [("theme", VString "dark")] "sortBy");
      [reflexivity|reflexivity|].
    repeat constructor. intros H. inversion H.
Defined.

Lemma setProp_keys k v (ps : list (string * value)) k' :
  k' ∈ map fst (setProp k v ps) -> k' = k \/ k' ∈ map fst ps.
Proof.
  induction ps as [|[k0 v0] ps IH]; cbn [setProp map fst].
  - rewrite elem_of_cons. intros [->|H]; [now left|inversion H].
  - destruct (String.eqb_spec k0 k) as [->|Hne]; cbn [map fst];
      rewrite !elem_of_cons; intuition.
Qed.

Lemma setProp_NoDup k v (ps : list (string * value)) :
  NoDup (map fst ps) -> NoDup (map fst (setProp k v ps)).
Proof.
  induction ps as [|[k0 v0] ps IH]; cbn [setProp map fst].
  - intros _. apply NoDup_singleton.
  - intros [Hnot Hnd]%NoDup_cons.
    destruct (String.eqb_spec k0 k) as [->|Hne]; cbn [map fst].
    + now apply NoDup_cons.
    + apply NoDup_cons. split; [|auto].
      intros [->|Hin]%setProp_keys; [now apply Hne|now apply Hnot].
Qed.

Lemma fold_setProp_NoDup (entries target : list (string * value)) :
  NoDup (map fst target) ->
  NoDup (map fst (fold_left (λ acc kv, setProp kv.1 kv.2 acc) entries target)).
Proof.
  revert target. induction entries as [|[k0 v0] entries IH]; intros target H; [exact H|].
  cbn [fold_left fst snd]. now apply IH, setProp_NoDup.
Qed.

Lemma lookupProp_fold_setProp_eq k (entries target : list (string * value)) :
  NoDup (map fst entries) ->
  lookupProp k (fold_left (λ acc kv, setProp kv.1 kv.2 acc) entries target)
  = match lookupProp k entries with
    | Some v => Some v
    | None => lookupProp k target
    end.
Proof.
  intros Hnd. destruct (lookupProp k entries) as [v|] eqn:E.
  - now apply lookupProp_fold_setProp_NoDup.
  - now apply lookupProp_fold_setProp.
Qed.

Lemma lookupProp_jsonProps_NoDup k (ps : list (string * value)) :
  NoDup (map fst ps) ->
  lookupProp k (jsonProps ps)
  = match lookupProp k ps with
    | Some VUndefined | None => None
    | Some v => Some (json v)
    end.
Proof.
  induction ps as [|[k0 x] ps IH]; [reflexivity|].
  cbn [map fst]. intros [Hnot Hnd]%NoDup_cons.
  rewrite jsonProps_cons. cbn [lookupProp].
  destruct (String.eqb_spec k0 k) as [->|Hne].
  - destruct x; cbn [lookupProp]; rewrite ?String.eqb_refl; try reflexivity.
    apply lookupProp_None_notin. intros Hin. now apply Hnot, jsonProps_keys.
  - destruct x; cbn [lookupProp];
      try (destruct (String.eqb_spec k0 k) as [?|_]; [contradiction|]); auto.
Qed.

Lemma defaultProps_stable k d :
  lookupProp k defaultProps = Some d -> d <> VUndefined /\ json d = d.
Proof.
  assert (H : Forall (fun kv : string * value => kv.2 <> VUndefined /\ json kv.2 = kv.2)
                defaultProps).
  { repeat constructor; discriminate. }
  induction H as [|[k0 v0] ps Hx _ IH]; [discriminate|].
  cbn [lookupProp]. destruct (k0 =? k)%string; [|exact IH].
  intros [= <-]. exact Hx.
Qed.

(** Distinct literal names. *)
Ltac distinct_names :=
  cbn;
  repeat (apply NoDup_cons_2;
          [let H := fresh in
           intros H;
           repeat (apply elem_of_cons in H as [H|H]; [discriminate H|]);
           inversion H|]);
  apply NoDup_nil_2.

Lemma defaultProps_NoDup : NoDup (map fst defaultProps).
Proof. distinct_names. Qed.

(** What [getSettings] returns after a successful [saveSettings]. *)
Lemma getSettings_saved w st settings st' w' k :
  NoDup (map fst (ownEntries settings)) ->
  saveSettings w st settings = (true, st', w') ->
  getProp (getSettings st') k
  = Some (match lookupProp k (ownEntries settings) with
          | Some v =>
              if usingMemoryFallback st then v
              else match v with
                   | VUndefined => prop defaultProps k
                   | _ => json v
                   end
          | None => prop defaultProps k
          end).
Proof.
  intros Hnd Hsave.
  assert (Hmerged : NoDup (map fst (spread settings defaultProps)))
    by apply fold_setProp_NoDup, defaultProps_NoDup.
  assert (Hlook : lookupProp k (spread settings defaultProps)
                  = match lookupProp k (ownEntries settings) with
                    | Some v => Some v
                    | None => lookupProp k defaultProps
                    end)
    by now apply lookupProp_fold_setProp_eq.
  unfold saveSettings in Hsave. rewrite spread_defaults in Hsave.
  destruct (usingMemoryFallback st) eqn:Hm.
  - injection Hsave as <- <-. unfold getSettings.
    cbn [triggerStorageEvent withMemorySettings usingMemoryFallback memorySettings].
    rewrite Hm. cbn [getProp]. f_equal. unfold spread at 1. cbn [ownEntries].
    rewrite lookupProp_fold_setProp_eq by exact Hmerged. rewrite Hlook.
    unfold prop. destruct (lookupProp k (ownEntries settings)); [reflexivity|].
    now destruct (lookupProp k defaultProps).
  - assert (Hst' : st' = triggerStorageEvent
                     (withLsSettings st (JsonText (VObject (spread settings defaultProps))))
                     "settings_updated" (VObject (spread settings defaultProps))).
    { destruct w as [|[|name] w0]; injection Hsave; congruence. }
    rewrite (getSettings_parsed_object st' (spread settings defaultProps) k);
      [|subst st'; exact Hm|subst st'; reflexivity|exact Hmerged].
    f_equal. rewrite lookupProp_jsonProps_NoDup by exact Hmerged. rewrite Hlook.
    destruct (lookupProp k (ownEntries settings)) as [v|].
    + now destruct v.
    + unfold prop. destruct (lookupProp k defaultProps) as [d|] eqn:Ed; [|reflexivity].
      destruct (defaultProps_stable k d Ed) as [Hd Hj]. cbn [default].
      rewrite Hj. now destruct d.
Qed.

(** X20.  After a [saveSettings(settings)] that returns [true],
    [getSettings] gives for every name the saved value when [settings]
    has one and the default otherwise.  In durable mode the saved value
    comes back as JSON carries it, and a saved [undefined] comes back as
    the default. *)
Theorem saveSettings_then_getSettings w st settings st' w' k :
  NoDup (map fst (ownEntries settings)) ->
  saveSettings w st settings = (true, st', w') ->
  getProp (getSettings st') k
  = Some (match lookupProp k (ownEntries settings) with
          | Some v =>
              if usingMemoryFallback st then v
              else match v with
                   | VUndefined => prop defaultProps k
                   | _ => json v
                   end
          | None => prop defaultProps k
          end).
Proof. apply getSettings_saved. Qed.

Lemma saveSettings_then_getSettings_witness :
  getProp (getSettings
             (saveSettings [Stored] emptyStore
                (VObject [("theme", VString "dark"); ("sortBy", VUndefined)])).1.2)
          "sortBy"
  = Some (VString "createdAt").
Proof.
  apply (saveSettings_then_getSettings [Stored] emptyStore
           (VObject [("theme", VString "dark"); ("sortBy", VUndefined)])
           (saveSettings [Stored] emptyStore
              (VObject [("theme", VString "dark"); ("sortBy", VUndefined)])).1.2
           [] "sortBy").
  - distinct_names.
  - reflexivity.
Defined.

(** ** Initialization and reset *)

Lemma getTodos_same h st st' :
  usingMemoryFallback st' = usingMemoryFallback st ->
  memoryTodos st' = memoryTodos st ->
  lsTodos st' = lsTodos st ->
  getTodos h st' = getTodos h st.
Proof. intros H1 H2 H3. unfold getTodos. now rewrite H1, H2, H3. Qed.

(** [saveSettings] does not touch the todos. *)
Lemma saveSettings_todos w st settings :
  usingMemoryFallback (saveSettings w st settings).1.2 = usingMemoryFallback st /\
  memoryTodos (saveSettings w st settings).1.2 = memoryTodos st /\
  lsTodos (saveSettings w st settings).1.2 = lsTodos st.
Proof.
  unfold saveSettings. destruct (usingMemoryFallback st) eqn:E; [now rewrite <- E|].
  destruct w as [|[|name] w]; cbn; auto.
Qed.

Lemma saveSettings_ok w st settings :
  (forall name, head w <> Some (Throws name)) ->
  (saveSettings w st settings).1.1 = true /\ (saveSettings w st settings).2 = tail w \/
  usingMemoryFallback st = true.
Proof.
  intros Hw. unfold saveSettings. destruct (usingMemoryFallback st); [now right|left].
  destruct w as [|[|name] w]; auto. now destruct (Hw name).
Qed.

(** [handleVersionMigration] does not touch the todos. *)
Lemma handleVersionMigration_todos h w st :
  usingMemoryFallback (handleVersionMigration h w st).1 = usingMemoryFallback st /\
  memoryTodos (handleVersionMigration h w st).1 = memoryTodos st /\
  lsTodos (handleVersionMigration h w st).1 = lsTodos st.
Proof.
  unfold handleVersionMigration.
  destruct (getProp (getSettings st) "version") as [v|]; [|auto].
  destruct (negb _); [|auto].
  rewrite performMigrations_noop.
  destruct (assignProp _ _ _) as [settings'|]; [|auto].
  pose proof (saveSettings_todos w st settings') as H.
  now destruct (saveSettings w st settings') as [[? ?] ?].
Qed.

Lemma getTodos_NoItem h st :
  usingMemoryFallback st = false -> lsTodos st = NoItem -> getTodos h st = [].
Proof. intros Hm Hls. unfold getTodos. now rewrite Hm, Hls. Qed.

(** Saving the empty list into a store that has no item for the todos. *)
Lemma saveTodos_nothing h h' w st :
  usingMemoryFallback st = false ->
  lsTodos st = NoItem ->
  usingMemoryFallback (saveTodos h w st (VArray [])).1.2 = false /\
  getTodos h' (saveTodos h w st (VArray [])).1.2 = [] /\
  lsSettings (saveTodos h w st (VArray [])).1.2 = lsSettings st.
Proof.
  intros Hm Hls.
  assert (Hwritten : usingMemoryFallback (written h st (VArray [])) = false /\
                     getTodos h' (written h st (VArray [])) = [] /\
                     lsSettings (written h st (VArray [])) = lsSettings st).
  { split; [|split].
    - unfold written. now rewrite Hm.
    - now rewrite getTodos_written.
    - unfold written. now rewrite Hm. }
  destruct w as [|[|name] w].
  - now rewrite saveTodos_nil.
  - now rewrite saveTodos_stored.
  - destruct (String.eqb_spec name "QuotaExceededError") as [->|Hn].
    + rewrite saveTodos_quota by exact Hm. cbn [fst snd].
      rewrite handleQuotaExceeded_eq. unfold recentTodos.
      rewrite (getTodos_NoItem h st Hm Hls). cbn [fst snd filter list_filter length Nat.ltb Nat.leb].
      auto using getTodos_NoItem.
    + rewrite saveTodos_throws by assumption. cbn [fst snd].
      auto using getTodos_NoItem.
Qed.

(** The settings [getSettings] returns in durable mode are an object
    whose names are distinct. *)
Lemma getSettings_object st :
  usingMemoryFallback st = false ->
  exists ps, getSettings st = VObject ps /\ NoDup (map fst ps).
Proof.
  intros Hm. destruct (getSettings_durable st Hm) as (settings & [-> | ->]).
  - eexists. split; [reflexivity|]. apply fold_setProp_NoDup, defaultProps_NoDup.
  - exists defaultProps. split; [reflexivity|apply defaultProps_NoDup].
Qed.

Lemma or_else_version v :
  strictEq (or_else v (VString "0.0.0")) version = true -> v = version.
Proof.
  unfold or_else, version. destruct (truthy v); [|discriminate].
  destruct v as [| |?|[|?]|s|?|?]; try discriminate.
  cbn [strictEq]. now intros ->%String.eqb_eq.
Qed.

(** After [handleVersionMigration], when its [saveSettings] does not
    fail, the settings carry the current version. *)
Lemma handleVersionMigration_version h w st :
  usingMemoryFallback st = false ->
  (forall name, head w <> Some (Throws name)) ->
  getProp (getSettings (handleVersionMigration h w st).1) "version" = Some version.
Proof.
  intros Hm Hw. unfold handleVersionMigration.
  destruct (getSettings_object st Hm) as (ps & Hps & Hnd).
  destruct (getProp (getSettings st) "version") as [v|] eqn:Ev;
    [|rewrite Hps in Ev; discriminate].
  destruct (strictEq (or_else v (VString "0.0.0")) version) eqn:Eq; cbn [negb].
  - apply or_else_version in Eq. now rewrite <- Eq.
  - rewrite performMigrations_noop. rewrite Hps. cbn [assignProp].
    destruct (saveSettings_ok w st (VObject (setProp "version" version ps)) Hw)
      as [[Hok Hrest]|Hmem]; [|congruence].
    destruct (saveSettings w st _) as [[ok st''] w''] eqn:Es.
    cbn [fst snd] in *. subst ok.
    rewrite (getSettings_saved w st (VObject (setProp "version" version ps))
               st'' w'' "version");
      [|cbn [ownEntries]; now apply setProp_NoDup|exact Es].
    cbn [ownEntries]. now rewrite lookupProp_setProp_eq, Hm.
Qed.

Lemma head_tail_Stored (w : list SetItemOutcome) :
  Forall (fun o => o = Stored) w ->
  (forall name, head w <> Some (Throws name)) /\ Forall (fun o => o = Stored) (tail w).
Proof.
  intros H. destruct H as [|o w Ho H]; [split; [discriminate|constructor]|].
  subst o. split; [discriminate|exact H].
Qed.

(** X21.  Initialization of the durable store keeps the todos: when the
    probe write does not throw, the store stays durable and [getTodos]
    returns what it returned before, whatever the later writes do; when
    the probe write throws, the store switches to memory with an empty
    list and the default settings and leaves both items of
    [localStorage] as they were. *)
Theorem initializeStorage_keeps_todos h h' w st :
  usingMemoryFallback st = false ->
  match head w with
  | Some (Throws _) =>
      usingMemoryFallback (initializeStorage h w st).1 = true /\
      getTodos h' (initializeStorage h w st).1 = [] /\
      getSettings (initializeStorage h w st).1 = getDefaultSettings /\
      lsTodos (initializeStorage h w st).1 = lsTodos st /\
      lsSettings (initializeStorage h w st).1 = lsSettings st
  | _ =>
      usingMemoryFallback (initializeStorage h w st).1 = false /\
      getTodos h' (initializeStorage h w st).1 = getTodos h' st
  end.
Proof.
  intros Hm.
  assert (Hgo : forall w1,
    usingMemoryFallback
      (let '(st, w) :=
         match lsTodos st with
         | NoItem => let '(_, st', w') := saveTodos h w1 st (VArray []) in (st', w')
         | _ => (st, w1)
         end in
       let '(st, w) :=
         match lsSettings st with
         | NoItem =>
             let '(_, st', w') := saveSettings w st getDefaultSettings in (st', w')
         | _ => (st, w)
         end in
       handleVersionMigration h w st).1 = false /\
    getTodos h'
      (let '(st, w) :=
         match lsTodos st with
         | NoItem => let '(_, st', w') := saveTodos h w1 st (VArray []) in (st', w')
         | _ => (st, w1)
         end in
       let '(st, w) :=
         match lsSettings st with
         | NoItem =>
             let '(_, st', w') := saveSettings w st getDefaultSettings in (st', w')
         | _ => (st, w)
         end in
       handleVersionMigration h w st).1 = getTodos h' st).
  { intros w1.
    assert (H1 : exists st1 w2,
      match lsTodos st with
      | NoItem => let '(_, st', w') := saveTodos h w1 st (VArray []) in (st', w')
      | _ => (st, w1)
      end = (st1, w2) /\
      usingMemoryFallback st1 = false /\ getTodos h' st1 = getTodos h' st).
    { destruct (lsTodos st) eqn:Hls; try (now exists st, w1).
      destruct (saveTodos_nothing h h' w1 st Hm Hls) as (Ha & Hb & _).
      destruct (saveTodos h w1 st (VArray [])) as [[ok st1] w2].
      exists st1, w2. cbn [fst snd] in *.
      now rewrite (getTodos_NoItem h' st Hm Hls). }
    destruct H1 as (st1 & w2 & -> & Hm1 & Hg1).
    assert (H2 : exists st2 w3,
      match lsSettings st1 with
      | NoItem =>
          let '(_, st', w') := saveSettings w2 st1 getDefaultSettings in (st', w')
      | _ => (st1, w2)
      end = (st2, w3) /\
      usingMemoryFallback st2 = false /\ getTodos h' st2 = getTodos h' st).
    { destruct (lsSettings st1); try (now exists st1, w2).
      destruct (saveSettings_todos w2 st1 getDefaultSettings) as (Ha & Hb & Hc).
      destruct (saveSettings w2 st1 getDefaultSettings) as [[ok st2] w3].
      exists st2, w3. cbn [fst snd] in *.
      split; [reflexivity|]. split; [congruence|].
      rewrite <- Hg1. now apply getTodos_same. }
    destruct H2 as (st2 & w3 & -> & Hm2 & Hg2).
    destruct (handleVersionMigration_todos h w3 st2) as (Ha & Hb & Hc).
    split; [congruence|]. rewrite <- Hg2. now apply getTodos_same. }
  unfold initializeStorage.
  destruct w as [|[|name] w1]; cbn [head isStorageAvailable negb tail].
  - apply Hgo.
  - apply Hgo.
  - repeat split.
Qed.

Lemma initializeStorage_keeps_todos_witness :
  usingMemoryFallback (initializeStorage exampleHost [Stored; Throws "Error"] datedStore).1
  = false /\
  getTodos exampleHost (initializeStorage exampleHost [Stored; Throws "Error"] datedStore).1
  = getTodos exampleHost datedStore.
Proof.
  apply (initializeStorage_keeps_todos exampleHost exampleHost
           [Stored; Throws "Error"] datedStore).
  reflexivity.
Defined.

(** X22.  After an initialization in which no write fails, the settings
    carry the current version, whatever the settings item held before. *)
Theorem initializeStorage_sets_version h w st :
  usingMemoryFallback st = false ->
  Forall (fun o => o = Stored) w ->
  getProp (getSettings (initializeStorage h w st).1) "version" = Some version.
Proof.
  intros Hm Hw. unfold initializeStorage.
  assert (Hav : isStorageAvailable w = (true, tail w)).
  { destruct Hw as [|o w Ho _]; [reflexivity|now subst o]. }
  rewrite Hav. cbn [negb].
  apply head_tail_Stored in Hw as [_ Hw1].
  assert (H1 : exists st1 w2,
    match lsTodos st with
    | NoItem =>
        let '(_, st', w') := saveTodos h (tail w) st (VArray []) in (st', w')
    | _ => (st, tail w)
    end = (st1, w2) /\
    usingMemoryFallback st1 = false /\ Forall (fun o => o = Stored) w2).
  { destruct (lsTodos st) eqn:Hls; try (now exists st, (tail w)).
    destruct (saveTodos_nothing h h (tail w) st Hm Hls) as (Ha & _ & _).
    destruct (tail w) as [|o w2] eqn:Et.
    - rewrite saveTodos_nil in * by exact Hm. eexists _, _. split; [reflexivity|]. auto.
    - apply head_tail_Stored in Hw1 as Hw2. destruct Hw2 as [_ Hw2].
      inversion Hw1; subst.
      rewrite saveTodos_stored in * by exact Hm. eexists _, _. split; [reflexivity|]. auto. }
  destruct H1 as (st1 & w2 & -> & Hm1 & Hw2).
  assert (H2 : exists st2 w3,
    match lsSettings st1 with
    | NoItem =>
        let '(_, st', w') := saveSettings w2 st1 getDefaultSettings in (st', w')
    | _ => (st1, w2)
    end = (st2, w3) /\
    usingMemoryFallback st2 = false /\ Forall (fun o => o = Stored) w3).
  { destruct (lsSettings st1); try (now exists st1, w2).
    destruct (saveSettings_todos w2 st1 getDefaultSettings) as (Ha & _ & _).
    apply head_tail_Stored in Hw2 as [Hh Hw3].
    destruct (saveSettings_ok w2 st1 getDefaultSettings Hh) as [[_ Hrest]|Hmem];
      [|congruence].
    destruct (saveSettings w2 st1 getDefaultSettings) as [[ok st2] w3].
    exists st2, w3. cbn [fst snd] in *. subst w3.
    split; [reflexivity|]. split; [congruence|exact Hw3]. }
  destruct H2 as (st2 & w3 & -> & Hm2 & Hw3).
  apply handleVersionMigration_version; [exact Hm2|].
  now apply head_tail_Stored in Hw3 as [Hh _].
Qed.

Lemma initializeStorage_sets_version_witness :
  getProp (getSettings (initializeStorage exampleHost [] legacyStore).1) "version"
  = Some version.
Proof.
  apply (initializeStorage_sets_version exampleHost [] legacyStore).
  - reflexivity.
  - constructor.
Defined.

(** Initialization of a durable store that has neither item. *)
Lemma initializeStorage_fresh h h' w st :
  usingMemoryFallback st = false ->
  lsTodos st = NoItem ->
  lsSettings st = NoItem ->
  getTodos h' (initializeStorage h w st).1 = [] /\
  getSettings (initializeStorage h w st).1 = getDefaultSettings.
Proof.
  intros Hm Hls Hset.
  assert (Hgo : forall w1,
    getTodos h'
      (let '(st, w) :=
         match lsTodos st with
         | NoItem => let '(_, st', w') := saveTodos h w1 st (VArray []) in (st', w')
         | _ => (st, w1)
         end in
       let '(st, w) :=
         match lsSettings st with
         | NoItem =>
             let '(_, st', w') := saveSettings w st getDefaultSettings in (st', w')
         | _ => (st, w)
         end in
       handleVersionMigration h w st).1 = [] /\
    getSettings
      (let '(st, w) :=
         match lsTodos st with
         | NoItem => let '(_, st', w') := saveTodos h w1 st (VArray []) in (st', w')
         | _ => (st, w1)
         end in
       let '(st, w) :=
         match lsSettings st with
         | NoItem =>
             let '(_, st', w') := saveSettings w st getDefaultSettings in (st', w')
         | _ => (st, w)
         end in
       handleVersionMigration h w st).1 = getDefaultSettings).
  { intros w1. rewrite Hls.
    destruct (saveTodos_nothing h h' w1 st Hm Hls) as (Hm1 & Hg1 & Hs1).
    destruct (saveTodos h w1 st (VArray [])) as [[ok st1] w2]. cbn [fst snd] in *.
    rewrite Hs1, Hset.
    destruct (saveSettings_todos w2 st1 getDefaultSettings) as (Ha & Hb & Hc).
    assert (Hgs : getSettings (saveSettings w2 st1 getDefaultSettings).1.2
                  = getDefaultSettings).
    { unfold saveSettings. rewrite Hm1.
      destruct w2 as [|[|name] w2]; cbn [fst snd]; unfold getSettings;
        cbn [usingMemoryFallback lsSettings triggerStorageEvent withLsSettings];
        rewrite Hm1, ?Hs1, ?Hset; reflexivity. }
    destruct (saveSettings w2 st1 getDefaultSettings) as [[ok2 st2] w3].
    cbn [fst snd] in *.
    assert (Hv : handleVersionMigration h w3 st2 = (st2, w3)).
    { unfold handleVersionMigration. now rewrite Hgs. }
    rewrite Hv. cbn [fst]. split; [|exact Hgs].
    rewrite <- Hg1. now apply getTodos_same. }
  unfold initializeStorage.
  destruct w as [|[|name] w1]; cbn [head isStorageAvailable negb tail].
  - apply Hgo.
  - apply Hgo.
  - split; reflexivity.
Qed.

(** X23.  [clearAll] returns [true] and leaves an empty list of todos and
    the default settings, in memory mode and in durable mode, whatever
    the writes of the initialization it runs do; the last event sent is
    [storage_cleared]. *)
Theorem clearAll_resets h h' w st :
  (clearAll h w st).1.1 = true /\
  getTodos h' (clearAll h w st).1.2 = [] /\
  getSettings (clearAll h w st).1.2 = getDefaultSettings /\
  head (dispatched (clearAll h w st).1.2) = Some ("storage_cleared", VUndefined).
Proof.
  unfold clearAll. destruct (usingMemoryFallback st) eqn:Hm.
  - cbn [fst snd]. repeat split.
    + unfold getTodos. cbn. now rewrite Hm.
    + unfold getSettings. cbn. now rewrite Hm.
  - destruct (initializeStorage_fresh h h' w
                (withLsSettings (withLsTodos st NoItem) NoItem)) as [Hg Hs];
      [exact Hm|reflexivity|reflexivity|].
    destruct (initializeStorage h w _) as [st' w']. cbn [fst snd] in *.
    repeat split; assumption.
Qed.

(** ** The application controller *)

(** A [saveTodos] whose write does not throw. *)
Lemma saveTodos_no_throw h w st todos :
  (forall name, head w <> Some (Throws name)) ->
  saveTodos h w st todos
  = (true, written h st todos, if usingMemoryFallback st then w else tail w).
Proof.
  intros Hw. destruct (usingMemoryFallback st) eqn:Hm.
  - now apply saveTodos_memory.
  - destruct w as [|[|name] w].
    + now apply saveTodos_nil.
    + now apply saveTodos_stored.
    + now destruct (Hw name).
Qed.

Lemma cleanupOldTodos_eq h w st :
  TodoApp.cleanupOldTodos h w st =
  if (length (recentTodos h st) <? length (getTodos h st))%nat
  then (true, (saveTodos h w st (VArray (recentTodos h st))).1.2,
        (saveTodos h w st (VArray (recentTodos h st))).2)
  else (false, st, w).
Proof.
  unfold TodoApp.cleanupOldTodos, recentTodos.
  rewrite (filterE_Forall Normalized) by (auto using getTodos_Normalized, keepRecent_Normalized).
  destruct (_ <? _)%nat; [|reflexivity].
  now destruct (saveTodos _ _ _ _) as [[? ?] ?].
Qed.

Lemma filter_shorter (P : value -> Prop) `{forall x, Decision (P x)} (l : list value) :
  (length (filter P l) < length l)%nat <-> exists x, x ∈ l /\ ~ P x.
Proof.
  induction l as [|x l IH].
  - split; [cbn; lia|]. intros (x & Hx & _). inversion Hx.
  - rewrite filter_cons. pose proof (length_filter P l) as Hle.
    case_decide as HP; cbn [length].
    + split.
      * intros Hlt. destruct (proj1 IH) as (y & Hy & HPy); [lia|].
        exists y. split; [now right|exact HPy].
      * intros (y & [->|Hy]%elem_of_cons & HPy); [contradiction|].
        assert (length (filter P l) < length l)%nat by (apply IH; eauto). lia.
    + split; [|lia]. intros _. exists x. split; [left|exact HP].
Qed.

(** X24.  The periodic cleanup of the application, when its write does
    not throw: it saves exactly when some stored todo fails the
    thirty-day test, the list shown afterwards is the todos that pass
    the test (without those whose title is empty), and no todo completed
    more than thirty days ago is left. *)
Theorem cleanupOldTodos_removes_stale h h' w st :
  (forall name, head w <> Some (Throws name)) ->
  ((TodoApp.cleanupOldTodos h w st).1.1 = true <->
   exists todo, todo ∈ getTodos h st /\ keepRecent h todo = Some false) /\
  getTodos h' (TodoApp.cleanupOldTodos h w st).1.2
  = (if (TodoApp.cleanupOldTodos h w st).1.1
     then filter (fun x => hasTitle x = true) (recentTodos h st)
     else getTodos h' st) /\
  (forall todo, todo ∈ getTodos h (TodoApp.cleanupOldTodos h w st).1.2 ->
     ~ completedLongAgo h todo).
Proof.
  intros Hw.
  pose proof (getTodos_Normalized h st) as HN. rewrite Forall_forall in HN.
  assert (Hstale : (length (recentTodos h st) < length (getTodos h st))%nat <->
                   exists todo, todo ∈ getTodos h st /\ keepRecent h todo = Some false).
  { unfold recentTodos. rewrite filter_shorter. split.
    - intros (x & Hx & Hk). exists x. split; [exact Hx|].
      destruct (keepRecent_Normalized h x (HN x Hx)) as [[|] Hb]; congruence.
    - intros (x & Hx & Hk). exists x. split; [exact Hx|congruence]. }
  assert (Hafter : forall h0,
    getTodos h0 (written h st (VArray (recentTodos h st)))
    = filter (fun x => hasTitle x = true) (recentTodos h st)).
  { intros h0. rewrite getTodos_written. cbn [itemsOf].
    apply (omap_shown_stored h). unfold recentTodos.
    intros x Hx. apply list_elem_of_filter in Hx. tauto. }
  rewrite cleanupOldTodos_eq, saveTodos_no_throw by exact Hw.
  destruct (Nat.ltb_spec (length (recentTodos h st)) (length (getTodos h st))) as [Hlt|Hge];
    cbn [fst snd].
  - split; [|split].
    + split; [intros _; now apply Hstale|reflexivity].
    + apply Hafter.
    + intros todo. rewrite Hafter. unfold recentTodos.
      intros [_ [Hk _]%list_elem_of_filter]%list_elem_of_filter Hold.
      apply keepRecent_completedLongAgo in Hold. congruence.
  - split; [|split].
    + split; [discriminate|]. intros Hex. apply Hstale in Hex. lia.
    + reflexivity.
    + intros todo Hin Hold. apply keepRecent_completedLongAgo in Hold.
      assert (length (recentTodos h st) < length (getTodos h st))%nat; [|lia].
      apply Hstale. eauto.
Qed.

Lemma cleanupOldTodos_removes_stale_witness :
  getTodos exampleHost (TodoApp.cleanupOldTodos exampleHost [] staleStore).1.2
  = (if (TodoApp.cleanupOldTodos exampleHost [] staleStore).1.1
     then filter (fun x => hasTitle x = true) (recentTodos exampleHost staleStore)
     else getTodos exampleHost staleStore).
Proof.
  apply (cleanupOldTodos_removes_stale exampleHost exampleHost [] staleStore).
  discriminate.
Defined.

Lemma importable_total todo : exists b, TodoApp.importable todo = Some b.
Proof.
  unfold TodoApp.importable. destruct (truthy todo) eqn:Ht; cbn [negb]; [|eauto].
  destruct todo as [| |?|?|?|?|ps]; try discriminate; cbn [getProp mbind option_bind];
    try (cbn; eauto; fail).
  destruct (negb _); cbn [mbind option_bind]; eauto.
Qed.

Lemma importTodos_eq h w st text :
  TodoApp.importTodos h w st text =
  match JSON_parse text with
  | None => (TodoApp.RejectedSyntaxError, st, w)
  | Some (VArray imported) =>
      if (length (filter (fun x => TodoApp.importable x = Some true) imported) =? 0)%nat
      then (TodoApp.RejectedNoValidTodos, st, w)
      else
        (TodoApp.Resolved
           (length (filter (fun x => TodoApp.importable x = Some true) imported)),
         (saveTodos h w st
            (VArray (filter (fun x => TodoApp.importable x = Some true) imported
                     ++ getTodos h st)%list)).1.2,
         (saveTodos h w st
            (VArray (filter (fun x => TodoApp.importable x = Some true) imported
                     ++ getTodos h st)%list)).2)
  | Some _ => (TodoApp.RejectedInvalidFileFormat, st, w)
  end.
Proof.
  unfold TodoApp.importTodos.
  destruct (JSON_parse text) as [[| |?|?|?|imported|?]|]; try reflexivity.
  rewrite filterE_total by (intros x _; apply importable_total).
  destruct (_ =? _)%nat; [reflexivity|].
  now destruct (saveTodos _ _ _ _) as [[? ?] ?].
Qed.

(** X25.  An import whose file holds an array with at least one record
    that has a string [title] and a boolean [completed], when the write
    does not throw: the promise resolves with the number of those
    records, and the list shown afterwards is what the store shows of
    them (the validator of [saveTodos] drops those without a string [id]
    or with a blank title), followed by the earlier list (without the
    todos whose title is empty). *)
Theorem importTodos_merges h h' w st text (imported : list value) :
  JSON_parse text = Some (VArray imported) ->
  filter (fun x => TodoApp.importable x = Some true) imported <> [] ->
  (forall name, head w <> Some (Throws name)) ->
  (TodoApp.importTodos h w st text).1.1
  = TodoApp.Resolved (length (filter (fun x => TodoApp.importable x = Some true) imported)) /\
  getTodos h' (TodoApp.importTodos h w st text).1.2
  = (omap (shown h h' st) (filter (fun x => TodoApp.importable x = Some true) imported)
     ++ filter (fun x => hasTitle x = true) (getTodos h st))%list.
Proof.
  intros Hparse Hvalid Hw. rewrite importTodos_eq, Hparse.
  destruct (filter _ imported) as [|x valid] eqn:E; [congruence|].
  cbn [length Nat.eqb]. rewrite saveTodos_no_throw by exact Hw. cbn [fst snd].
  split; [reflexivity|].
  rewrite getTodos_written. cbn [itemsOf]. rewrite omap_app. f_equal.
  now apply (omap_shown_stored h).
Qed.

Lemma importTodos_merges_witness :
  (TodoApp.importTodos exampleHost [] datedStore (JsonText (VArray importedRecords))).1.1
  = TodoApp.Resolved
      (length (filter (fun x => TodoApp.importable x = Some true) importedRecords)) /\
  getTodos exampleHost
    (TodoApp.importTodos exampleHost [] datedStore (JsonText (VArray importedRecords))).1.2
  = (omap (shown exampleHost exampleHost datedStore)
       (filter (fun x => TodoApp.importable x = Some true) importedRecords)
     ++ filter (fun x => hasTitle x = true) (getTodos exampleHost datedStore))%list.
Proof.
  apply (importTodos_merges exampleHost exampleHost [] datedStore
           (JsonText (VArray importedRecords)) importedRecords).
  - reflexivity.
  - vm_compute. discriminate.
  - discriminate.
Defined.

(** X26.  The import does not look at the result of [saveTodos]: in
    durable mode, when the write throws an error other than the quota
    error, the promise still resolves with the number of accepted
    records, and the store is as it was. *)
Theorem importTodos_ignores_failed_write h name w st text (imported : list value) :
  usingMemoryFallback st = false ->
  name <> "QuotaExceededError" ->
  JSON_parse text = Some (VArray imported) ->
  filter (fun x => TodoApp.importable x = Some true) imported <> [] ->
  TodoApp.importTodos h (Throws name :: w) st text
  = (TodoApp.Resolved (length (filter (fun x => TodoApp.importable x = Some true) imported)),
     st, w).
Proof.
  intros Hm Hname Hparse Hvalid. rewrite importTodos_eq, Hparse.
  destruct (filter _ imported) as [|x valid] eqn:E; [congruence|].
  cbn [length Nat.eqb]. now rewrite saveTodos_throws by assumption.
Qed.

Lemma importTodos_ignores_failed_write_witness :
  TodoApp.importTodos exampleHost [Throws "SecurityError"] datedStore
    (JsonText (VArray importedRecords))
  = (TodoApp.Resolved
       (length (filter (fun x => TodoApp.importable x = Some true) importedRecords)),
     datedStore, []).
Proof.
  apply (importTodos_ignores_failed_write exampleHost "SecurityError" [] datedStore
           (JsonText (VArray importedRecords)) importedRecords).
  - reflexivity.
  - discriminate.
  - reflexivity.
  - vm_compute. discriminate.
Defined.

(** X27.  An import that rejects leaves the store alone and attempts no
    write; it rejects exactly when the text is not JSON, is not an
    array, or has no record with a string [title] and a boolean
    [completed], and the filter itself never throws. *)
Theorem importTodos_rejects h w st text :
  match JSON_parse text with
  | None => TodoApp.importTodos h w st text = (TodoApp.RejectedSyntaxError, st, w)
  | Some (VArray imported) =>
      match filter (fun x => TodoApp.importable x = Some true) imported with
      | [] => TodoApp.importTodos h w st text = (TodoApp.RejectedNoValidTodos, st, w)
      | valid => (TodoApp.importTodos h w st text).1.1 = TodoApp.Resolved (length valid)
      end
  | Some _ => TodoApp.importTodos h w st text = (TodoApp.RejectedInvalidFileFormat, st, w)
  end.
Proof.
  rewrite importTodos_eq.
  destruct (JSON_parse text) as [[| |?|?|?|imported|?]|]; try reflexivity.
  now destruct (filter _ imported).
Qed.

(** ** The user interface *)

Lemma addTodo_newTodoOf h w st todoData r st' w' :
  addTodo h w st todoData = (r, st', w') -> r <> VNull -> newTodoOf h todoData = Some r.
Proof.
  unfold addTodo. destruct (newTodoOf h todoData) as [nt|]; [|intros [= <- _ _]; congruence].
  destruct (saveTodos _ _ _ _) as [[[|] st1] w1]; intros [= <- _ _]; congruence.
Qed.

(** X28.  The form of the user interface stores no todo with an empty
    title: when it reports success the trimmed title is not empty, and a
    later [getTodos] returns first a todo with that title, not completed,
    followed by the earlier list (without the todos whose title is
    empty). *)
Theorem form_adds_titled_todo h h' w st titleValue dueDateValue n st' w' :
  TodoUI.addTodo h w st titleValue dueDateValue = (n, st', w') ->
  TodoUI.type n = "success" ->
  trim titleValue <> EmptyString /\
  exists first,
    getTodos h' st' = first :: filter (fun x => hasTitle x = true) (getTodos h st) /\
    getProp first "title" = Some (VString (trim titleValue)) /\
    getProp first "completed" = Some (VBool false).
Proof.
  unfold TodoUI.addTodo. cbn [truthy].
  destruct (String.eqb_spec (trim titleValue) "") as [Hblank|Hne]; cbn [negb].
  - intros [= <- _ _]. discriminate.
  - destruct (addTodo h w st _) as [[newTodo st1] w1] eqn:Hadd.
    destruct (truthy newTodo) eqn:Ht; intros [= <- <- <-]; [intros _|discriminate].
    split; [exact Hne|].
    assert (Hr : newTodo <> VNull) by (intros ->; discriminate).
    destruct (addTodo_first h h' w st _ newTodo st1 w1 Hadd Hr)
      as (first & Hl & _ & Htitle & _ & Hc & _).
    { cbn. intros title [= <-]. now rewrite trim_idem. }
    exists first. split; [exact Hl|]. split; [|exact Hc].
    rewrite Htitle.
    apply (addTodo_newTodoOf _ _ _ _ _ _ _ Hadd) in Hr.
    apply newTodoOf_Some in Hr as (title & d & p & tg & ds & Htt & _ & _ & _ & _ & ->).
    cbn in Htt. injection Htt as <-. cbn. now rewrite trim_idem.
Qed.

Lemma form_adds_titled_todo_witness :
  trim "  Buy milk " <> EmptyString /\
  exists first,
    getTodos exampleHost (TodoUI.addTodo exampleHost [] datedStore "  Buy milk " "").1.2
    = first :: filter (fun x => hasTitle x = true) (getTodos exampleHost datedStore) /\
    getProp first "title" = Some (VString (trim "  Buy milk ")) /\
    getProp first "completed" = Some (VBool false).
Proof.
  apply (form_adds_titled_todo exampleHost exampleHost [] datedStore "  Buy milk " ""
           (TodoUI.addTodo exampleHost [] datedStore "  Buy milk " "").1.1
           (TodoUI.addTodo exampleHost [] datedStore "  Buy milk " "").1.2
           (TodoUI.addTodo exampleHost [] datedStore "  Buy milk " "").2).
  - now destruct (TodoUI.addTodo exampleHost [] datedStore "  Buy milk " "") as [[? ?] ?].
  - vm_compute. reflexivity.
Defined.

Lemma toggled_Normalized h todo :
  Normalized todo ->
  Normalized (toggled h todo) /\ hasTitle (toggled h todo) = hasTitle todo.
Proof.
  intros [i t c d ca co p tg ds Hi Ht Hd Hca Hco Hp Hds].
  split; [|reflexivity].
  change (Normalized (todoRecord i t (negb c) d ca (if c then VNull else nowISO h) p tg ds)).
  constructor; try assumption.
  destruct c; [reflexivity|]. unfold or_else. now rewrite truthy_nowISO.
Qed.

Lemma toggled_json h todo :
  Normalized todo -> json todo = todo -> json (toggled h todo) = toggled h todo.
Proof.
  intros HN Hj.
  destruct (json_Normalized _ (proj1 (toggled_Normalized h todo HN)))
    as (i' & t' & c' & d' & ca' & co' & p' & tg' & ds' & Heq & ->).
  destruct (json_Normalized _ HN) as (i & t & c & d & ca & co & p & tg & ds & -> & Hjson).
  rewrite Hjson in Hj. injection Hj as Hd Hca Hco Hp Htg Hds.
  rewrite Heq. cbn in Heq. injection Heq as <- <- <- <- <- <- <- <- <-.
  rewrite Hd, Hca, Hp, Htg, Hds. now destruct c.
Qed.

(** What the store shows of a todo merged with a flipped [completed]. *)
Lemma shown_toggled h h' st todo id r :
  todo ∈ getTodos h st ->
  getProp todo "id" = Some id ->
  applyUpdates h todo id (VObject [("completed", VBool (negb (completedOf todo)))]) = Some r ->
  getProp r "completed" = Some (VBool (negb (completedOf todo))) /\
  shown h h' st r = if hasTitle todo then Some (toggled h todo) else None.
Proof.
  intros Hin Hid Happ.
  pose proof (getTodos_Normalized h st) as HN. rewrite Forall_forall in HN.
  specialize (HN todo Hin).
  destruct (toggled_Normalized h todo HN) as [HNt Htitle].
  assert (Hjson : usingMemoryFallback st = false -> json (toggled h todo) = toggled h todo).
  { intros Hm. apply toggled_json; [exact HN|].
    pose proof (getTodos_json h st Hm) as HJ. rewrite Forall_forall in HJ. now apply HJ. }
  assert (Hvalid : getProp r "completed" = Some (VBool (negb (completedOf todo))) /\
                   validTodo h r = if hasTitle todo then Some (toggled h todo) else None).
  { clear Hjson HNt Htitle.
    destruct HN as [i t c d ca co p tg ds Hi Ht Hd Hca Hco Hp Hds].
    cbn in Hid. injection Hid as <-.
    unfold applyUpdates in Happ. cbn in Happ. injection Happ as <-.
    split; [now destruct c|].
    destruct t as [|a t'] eqn:Et.
    - unfold validTodo, requiredFieldsOk. destruct c; cbn;
        now rewrite eqb_empty_false by assumption.
    - rewrite <- Et in *.
      assert (hasTitle (todoRecord i t c d ca co p tg ds) = true) as -> by now subst t.
      apply validTodo_Some. destruct c; cbn.
      + eexists _, i, t, false. split; [reflexivity|].
        repeat split; try reflexivity; try assumption; [subst t; discriminate|].
        unfold normalForm, prop. cbn. rewrite Ht, Hd, Hds.
        unfold or_else. now rewrite ?Hca, ?Hp, ?truthy_nowISO.
      + eexists _, i, t, true. split; [reflexivity|].
        repeat split; try reflexivity; try assumption; [subst t; discriminate|].
        unfold normalForm, prop. cbn. rewrite Ht, Hd, Hds.
        unfold or_else. now rewrite ?Hca, ?Hp, ?truthy_nowISO. }
  destruct Hvalid as [Hc Hv]. split; [exact Hc|].
  unfold shown, persisted. rewrite Hv.
  destruct (hasTitle todo) eqn:E; [|reflexivity]. cbn [mbind option_bind].
  destruct (usingMemoryFallback st) eqn:Hm.
  - now rewrite (validTodo_hasTitle h' _ HNt), Htitle.
  - now rewrite Hjson, (validTodo_hasTitle h' _ HNt), Htitle.
Qed.

(** X29.  A toggle in the user interface that shows a notification has
    flipped the first todo with the [id]: no todo before it has the
    [id], the message tells the new state, and a later [getTodos] returns
    the earlier list with that todo's [completed] negated and its
    [completedAt] set to the time of the toggle, or to [null] when it is
    reopened (todos whose title is empty are dropped, the toggled one
    included). *)
Theorem toggleTodo_flips h h' w st id n st' w' :
  TodoUI.toggleTodo h w st id = Some (Some n, st', w') ->
  exists index todo,
    getTodos h st !! index = Some todo /\
    getProp todo "id" = Some id /\
    (forall j y, (j < index)%nat -> getTodos h st !! j = Some y -> hasId id y = Some false) /\
    TodoUI.message n = (if completedOf todo then "Todo reopened!" else "Todo completed!") /\
    getTodos h' st'
    = filter (fun x => hasTitle x = true) (<[index := toggled h todo]> (getTodos h st)).
Proof.
  unfold TodoUI.toggleTodo, getTodo.
  pose proof (getTodos_Normalized h st) as HN. rewrite Forall_forall in HN.
  destruct (find_findIndex id _ (getTodos_Normalized h st))
    as [(_ & -> & _) | (index & x & Hi & -> & Hl & Hx & Hfirst)];
    cbn [mbind option_bind].
  - cbn. intros; discriminate.
  - assert (Hin : x ∈ getTodos h st) by (eapply list_elem_of_lookup_2, Hl).
    assert (Hobj : or_else x VNull = x /\ truthy x = true /\
                   exists c, getProp x "completed" = Some (VBool c) /\ completedOf x = c).
    { destruct (HN x Hin). repeat split. eexists. split; reflexivity. }
    destruct Hobj as (-> & -> & c & Hc & Hcx). cbn [negb]. rewrite Hc.
    cbn [mbind option_bind truthy].
    destruct (updateTodo h w st id _) as [[updated st1] w1] eqn:Hupd.
    destruct (truthy updated) eqn:Ht; [|intros; discriminate].
    assert (Hr : updated <> VNull) by (intros ->; discriminate).
    destruct (updateTodo_first h h' w st id _ updated st1 w1 Hupd Hr)
      as (index' & old & Hi' & Hl' & _ & _ & Happ & Hlist).
    assert (index' = index) as -> by congruence.
    assert (old = x) as -> by congruence.
    rewrite <- Hcx in Happ.
    destruct (shown_toggled h h' st x id updated Hin (hasId_true _ _ Hx) Happ)
      as [Hcompleted Hshown].
    rewrite Hcompleted. cbn [mbind option_bind truthy].
    intros [= <- <- <-]. exists index, x.
    split; [exact Hl|]. split; [now apply hasId_true|]. split; [exact Hfirst|]. split.
    + cbn. rewrite Hcx. now destruct c.
    + rewrite Hlist, Hshown.
      rewrite insert_take_drop by (eapply lookup_lt_Some, Hl).
      rewrite filter_app, filter_cons.
      destruct (toggled_Normalized h x (HN x Hin)) as [_ ->].
      destruct (hasTitle x); case_decide; try congruence; reflexivity.
Qed.

Lemma toggleTodo_flips_witness :
  exists index todo,
    getTodos exampleHost datedStore !! index = Some todo /\
    getProp todo "id" = Some (VString "a") /\
    (forall j y, (j < index)%nat -> getTodos exampleHost datedStore !! j = Some y ->
                 hasId (VString "a") y = Some false) /\
    "Todo completed!" = (if completedOf todo then "Todo reopened!" else "Todo completed!") /\
    getTodos exampleHost toggledStore
    = filter (fun x => hasTitle x = true)
        (<[index := toggled exampleHost todo]> (getTodos exampleHost datedStore)).
Proof.
  apply (toggleTodo_flips exampleHost exampleHost [] datedStore (VString "a")
           {| TodoUI.message := "Todo completed!"; TodoUI.type := "success" |}
           toggledStore []).
  vm_compute. reflexivity.
Defined.

(** X30.  A toggle in the user interface never throws, though [getTodo]
    and the reads of [completed] have no [try] around them; for an [id]
    that no stored todo has it shows nothing, changes nothing and
    attempts no write. *)
Theorem toggleTodo_total h w st id :
  exists r,
    TodoUI.toggleTodo h w st id = Some r /\
    (getTodo h st id = Some VNull -> r = (None, st, w)).
Proof.
  unfold TodoUI.toggleTodo, getTodo.
  pose proof (getTodos_Normalized h st) as HN. rewrite Forall_forall in HN.
  destruct (find_findIndex id _ (getTodos_Normalized h st))
    as [(_ & -> & _) | (index & x & _ & -> & Hl & _)]; cbn [mbind option_bind].
  - eexists. split; reflexivity.
  - assert (Hin : x ∈ getTodos h st) by (eapply list_elem_of_lookup_2, Hl).
    assert (Hobj : or_else x VNull = x /\ truthy x = true /\
                   exists c, getProp x "completed" = Some (VBool c)).
    { destruct (HN x Hin). repeat split. eexists. reflexivity. }
    destruct Hobj as (-> & Ht & c & ->). rewrite Ht. cbn [negb mbind option_bind].
    destruct (updateTodo h w st id _) as [[updated st1] w1].
    assert (Hnull : x <> VNull) by (intros ->; discriminate).
    destruct (truthy updated) eqn:Hu.
    + destruct updated; try discriminate; cbn [getProp mbind option_bind];
        eexists; (split; [reflexivity|]); intros [=]; congruence.
    + eexists. split; [reflexivity|]. intros [=]. congruence.
Qed.
